(** * Vietnam Stock Valuation front end: the StockValuationApp class of app.js

    A shallow embedding of the client-side application object (src/app.js)
    and of the statements the specification makes about it.

    - JavaScript numbers are IEEE 754 binary64 values: they are modelled by
      Rocq's primitive floats, whose operations are the same ones.
    - The page (index.html) is a finite map from element ids to elements.
    - The application object is a record; its methods are computations in a
      state-and-exception monad over that record, so that a [throw], a
      [try]/[catch] and a [finally] behave as they do in the source.
    - The answers of the server are inputs of the two asynchronous actions
      ([loadStockData], [calculateValuation]); the requests sent are logged
      in the state. *)

From Stdlib Require Import Floats ZArith QArith Qabs Lia Bool List Ascii.
From stdpp Require Import gmap strings pretty fin_maps.

Local Open Scope string_scope.

(** ** JavaScript values *)

Module JS.

(** A numeric field of a JSON answer: missing ([undefined]), [null], or a
    number. *)
Inductive jsnum :=
| JUndefined
| JNull
| JNum (x : float).

(** ToNumber, as applied by the arithmetic operators. *)
Definition ToNumber (v : jsnum) : float :=
  match v with
  | JUndefined => nan
  | JNull => 0%float
  | JNum x => x
  end.

(** ToBoolean: [0], [-0] and [NaN] are the falsy numbers. *)
Definition truthy_number (x : float) : bool :=
  negb ((x =? 0)%float || is_nan x).

Definition ToBoolean (v : jsnum) : bool :=
  match v with
  | JNum x => truthy_number x
  | _ => false
  end.

(** The global [isNaN(v)]: coerces with ToNumber first. *)
Definition isNaN (v : jsnum) : bool := is_nan (ToNumber v).

(** [a || b] on values. *)
Definition or_else (a b : jsnum) : jsnum := if ToBoolean a then a else b.

(** [Number.isFinite]. *)
Definition isFinite (x : float) : bool :=
  match Prim2SF x with
  | S754_zero _ | S754_finite _ _ _ => true
  | _ => false
  end.

(** [a || b] where [a] is a string field that may be missing; the empty
    string is falsy. *)
Definition str_or_else (a : option string) (b : string) : string :=
  match a with
  | Some s => if String.eqb s "" then b else s
  | None => b
  end.

(** A string is a sequence of bytes, the UTF-8 encoding of the JS string.

    [s.trim()] strips the white space and the line terminators of ECMAScript
    from both ends: U+0009 to U+000D, U+0020, U+00A0, U+1680, U+2000 to
    U+200A, U+2028, U+2029, U+202F, U+205F, U+3000 and U+FEFF.  The first six
    are one byte each; U+00A0 is the two bytes C2 A0; the others are three
    bytes each. *)
Definition is_space (a : ascii) : bool :=
  let n := nat_of_ascii a in
  Nat.eqb n 32 || (Nat.leb 9 n && Nat.leb n 13).

Definition is_space2 (a b : ascii) : bool :=
  Nat.eqb (nat_of_ascii a) 194 && Nat.eqb (nat_of_ascii b) 160.

Definition is_space3 (a b c : ascii) : bool :=
  let x := nat_of_ascii a in
  let y := nat_of_ascii b in
  let z := nat_of_ascii c in
  (* U+1680 *)
  (Nat.eqb x 225 && Nat.eqb y 154 && Nat.eqb z 128)
  (* U+2000 to U+200A, U+2028, U+2029, U+202F *)
  || (Nat.eqb x 226 && Nat.eqb y 128
      && ((Nat.leb 128 z && Nat.leb z 138) || Nat.eqb z 168 || Nat.eqb z 169
          || Nat.eqb z 175))
  (* U+205F *)
  || (Nat.eqb x 226 && Nat.eqb y 129 && Nat.eqb z 159)
  (* U+3000 *)
  || (Nat.eqb x 227 && Nat.eqb y 128 && Nat.eqb z 128)
  (* U+FEFF *)
  || (Nat.eqb x 239 && Nat.eqb y 187 && Nat.eqb z 191).

(** The string without the white space it starts with; on a reversed
    string ([reversed]), where every character has its bytes in reverse
    order, without the white space the original ends with. *)
Fixpoint stripSpace (reversed : bool) (s : string) : string :=
  match s with
  | String a s1 =>
      if is_space a then stripSpace reversed s1
      else
        match s1 with
        | String b s2 =>
            if (if reversed then is_space2 b a else is_space2 a b)
            then stripSpace reversed s2
            else
              match s2 with
              | String c s3 =>
                  if (if reversed then is_space3 c b a else is_space3 a b c)
                  then stripSpace reversed s3
                  else s
              | EmptyString => s
              end
        | EmptyString => s
        end
  | EmptyString => EmptyString
  end.

Definition trimStart (s : string) : string := stripSpace false s.

Definition trimEnd (s : string) : string :=
  String.rev (stripSpace true (String.rev s)).

Definition trim (s : string) : string := trimEnd (trimStart s).

(** [s.toUpperCase()] on the letters of ASCII; the bytes of every other
    character are kept as they are. *)
Definition upper (a : ascii) : ascii :=
  let n := nat_of_ascii a in
  if Nat.leb 97 n && Nat.leb n 122 then ascii_of_nat (n - 32) else a.

Fixpoint toUpperCase (s : string) : string :=
  match s with
  | String a s' => String (upper a) (toUpperCase s')
  | EmptyString => EmptyString
  end.

(** [s.startsWith(p)] and [s.includes(p)]. *)
Fixpoint startsWith (p s : string) : bool :=
  match p, s with
  | EmptyString, _ => true
  | String a p', String b s' => Ascii.eqb a b && startsWith p' s'
  | String _ _, EmptyString => false
  end.

Fixpoint includes (s p : string) : bool :=
  startsWith p s ||
  match s with
  | EmptyString => false
  | String _ s' => includes s' p
  end.

(** Rendered text.  The characters produced by the host's number formatting
    are not computed: a piece records which formatting was applied to which
    number. *)
Inductive piece :=
| Lit (s : string)                    (* literal characters *)
| Quote                               (* the double-quote character *)
| NumToString (x : float)             (* String(x), a number in a template *)
| toFixed (x : float) (digits : nat)  (* x.toFixed(digits) *)
| IntlVND (x : float).                (* new Intl.NumberFormat('vi-VN',
                                         { style: 'currency', currency: 'VND',
                                           minimumFractionDigits: 0,
                                           maximumFractionDigits: 0 }).format(x) *)

Definition text := list piece.

(** Exceptions: an Error object with its [name] and [message]. *)
Record Exn := { name : string; message : string }.

Definition Error (msg : string) : Exn := {| name := "Error"; message := msg |}.
Definition TypeError (msg : string) : Exn := {| name := "TypeError"; message := msg |}.
Definition SyntaxError (msg : string) : Exn := {| name := "SyntaxError"; message := msg |}.
Definition AbortError : Exn :=
  {| name := "AbortError"; message := "The user aborted a request." |}.
Definition NetworkError : Exn := TypeError "Failed to fetch".

End JS.
Export JS.

(** ** Data exchanged with the server *)

(** The answer of [GET /api/app-data/{symbol}]: a JSON object, read by field
    name.  A field that is missing reads as [undefined]. *)
Record StockData := {
  sd_success : bool;
  sd_error : option string;
  sd_strings : gmap string string;
  sd_numbers : gmap string jsnum
}.

Definition str_field (d : StockData) (k : string) : option string :=
  sd_strings d !! k.

Definition num_field (d : StockData) (k : string) : jsnum :=
  default JUndefined (sd_numbers d !! k).

(** [data] of the answer of [GET /api/historical-chart-data/{symbol}]. *)
Record HistoricalData := {
  years : list jsnum;
  roa_data : list jsnum;
  roe_data : list jsnum;
  pe_data : list jsnum;
  pb_data : list jsnum;
  current_ratio_data : list jsnum;
  quick_ratio_data : list jsnum;
  cash_ratio_data : list jsnum
}.

Record ChartData := {
  chart_success : bool;
  chart_data : option HistoricalData
}.

Record Assumptions := {
  revenueGrowth : float;
  terminalGrowth : float;
  wacc : float;
  requiredReturn : float;
  taxRate : float;
  projectionYears : float
}.

Record ModelWeights := {
  fcfe : float;
  fcff : float;
  justified_pe : float;
  justified_pb : float
}.

(** The body of [POST /api/valuation/{symbol}]. *)
Record RequestData := {
  rd_assumptions : Assumptions;
  rd_roe : float;
  rd_payoutRatio : float;
  rd_modelWeights : ModelWeights
}.

Record Valuations := {
  val_fcfe : jsnum;
  val_fcff : jsnum;
  val_justified_pe : jsnum;
  val_justified_pb : jsnum;
  val_weighted_average : jsnum
}.

Record FinancialData := {
  fd_eps : jsnum;
  fd_shares_outstanding : jsnum
}.

Record MarketComparison := { recommendation : option string }.

Record Summary := { confidence : option string }.

(** The answer of the valuation request. *)
Record EngineResult := {
  r_success : bool;
  r_error : option string;
  r_valuations : option Valuations;
  r_financial_data : option FinancialData;
  r_market_comparison : option MarketComparison;
  r_summary : option Summary
}.

(** What a [fetch] followed by [response.json()] can give: the promise is
    rejected (no connection, or the abort signal fired), or a response
    arrives with its [ok] flag, its status and its body; the body is [None]
    when it is not JSON. *)
Inductive Fetched (A : Type) :=
| Rejected (e : Exn)
| Responded (ok : bool) (status : Z) (body : option A).
Arguments Rejected {A} e.
Arguments Responded {A} ok status body.

Inductive Request :=
| GetAppData (symbol period : string)
| GetHistoricalChartData (symbol : string)
| PostValuation (symbol : string) (body : RequestData).

(** ** The application object *)

(** [this.valuationResults], as built by [calculateValuation]. *)
Record DcfValue := { shareValue : jsnum; equityValue : float }.

Record ValuationResults := {
  vr_fcfe : DcfValue;
  vr_fcff : DcfValue;
  vr_justified_pe : jsnum;      (* justified_pe.shareValue *)
  vr_justified_pb : jsnum;      (* justified_pb.shareValue *)
  weighted_average : jsnum;
  summary : option Summary;
  market_comparison : option MarketComparison;
  financial_data : option FinancialData
}.

(** A Chart.js chart: [data.labels] and [data.datasets[i].data]. *)
Record Chart := { labels : list jsnum; datasets : list (list jsnum) }.

Record Charts := { roeRoa : option Chart; liquidity : option Chart }.

(** An element of the page. *)
Record Element := {
  textContent : text;     (* also written through innerHTML *)
  className : string;
  disabled : bool;
  value : text
}.

Record App := {
  currentStock : option string;
  stockData : option StockData;
  historicalData : option HistoricalData;
  assumptions : Assumptions;
  modelWeights : ModelWeights;
  valuationResults : option ValuationResults;
  charts : Charts;
  document : gmap string Element;
  requests : list Request          (* the requests sent so far, oldest first *)
}.

Definition set_currentStock (v : option string) (s : App) : App :=
  {| currentStock := v; stockData := stockData s;
     historicalData := historicalData s; assumptions := assumptions s;
     modelWeights := modelWeights s; valuationResults := valuationResults s;
     charts := charts s; document := document s; requests := requests s |}.

Definition set_stockData (v : option StockData) (s : App) : App :=
  {| currentStock := currentStock s; stockData := v;
     historicalData := historicalData s; assumptions := assumptions s;
     modelWeights := modelWeights s; valuationResults := valuationResults s;
     charts := charts s; document := document s; requests := requests s |}.

Definition set_historicalData (v : option HistoricalData) (s : App) : App :=
  {| currentStock := currentStock s; stockData := stockData s;
     historicalData := v; assumptions := assumptions s;
     modelWeights := modelWeights s; valuationResults := valuationResults s;
     charts := charts s; document := document s; requests := requests s |}.

Definition set_assumptions (v : Assumptions) (s : App) : App :=
  {| currentStock := currentStock s; stockData := stockData s;
     historicalData := historicalData s; assumptions := v;
     modelWeights := modelWeights s; valuationResults := valuationResults s;
     charts := charts s; document := document s; requests := requests s |}.

Definition set_modelWeights (v : ModelWeights) (s : App) : App :=
  {| currentStock := currentStock s; stockData := stockData s;
     historicalData := historicalData s; assumptions := assumptions s;
     modelWeights := v; valuationResults := valuationResults s;
     charts := charts s; document := document s; requests := requests s |}.

Definition set_valuationResults (v : option ValuationResults) (s : App) : App :=
  {| currentStock := currentStock s; stockData := stockData s;
     historicalData := historicalData s; assumptions := assumptions s;
     modelWeights := modelWeights s; valuationResults := v;
     charts := charts s; document := document s; requests := requests s |}.

Definition set_charts (v : Charts) (s : App) : App :=
  {| currentStock := currentStock s; stockData := stockData s;
     historicalData := historicalData s; assumptions := assumptions s;
     modelWeights := modelWeights s; valuationResults := valuationResults s;
     charts := v; document := document s; requests := requests s |}.

Definition set_document (v : gmap string Element) (s : App) : App :=
  {| currentStock := currentStock s; stockData := stockData s;
     historicalData := historicalData s; assumptions := assumptions s;
     modelWeights := modelWeights s; valuationResults := valuationResults s;
     charts := charts s; document := v; requests := requests s |}.

Definition set_requests (v : list Request) (s : App) : App :=
  {| currentStock := currentStock s; stockData := stockData s;
     historicalData := historicalData s; assumptions := assumptions s;
     modelWeights := modelWeights s; valuationResults := valuationResults s;
     charts := charts s; document := document s; requests := v |}.

(** ** Methods run in a state-and-exception monad *)

Definition M (A : Type) : Type := App -> (Exn + A) * App.

Definition ret {A} (a : A) : M A := fun s => (inr a, s).

Definition bind {A B} (m : M A) (k : A -> M B) : M B :=
  fun s => match m s with
           | (inr a, s') => k a s'
           | (inl e, s') => (inl e, s')
           end.

Notation "x <- m ;; k" := (bind m (fun x => k))
  (at level 100, m at next level, right associativity).
Notation "m ;; k" := (bind m (fun _ => k))
  (at level 100, right associativity).

Definition throw {A} (e : Exn) : M A := fun s => (inl e, s).

Definition gets {A} (f : App -> A) : M A := fun s => (inr (f s), s).

Definition modify (f : App -> App) : M unit := fun s => (inr tt, f s).

(** [try { body } catch (error) { handler }]. *)
Definition try_catch {A} (body : M A) (handler : Exn -> M A) : M A :=
  fun s => match body s with
           | (inr a, s') => (inr a, s')
           | (inl e, s') => handler e s'
           end.

(** [... finally { cleanup }]: the cleanup runs on both exits; if it throws,
    its exception is the one that propagates. *)
Definition finally {A} (body : M A) (cleanup : M unit) : M A :=
  fun s => match body s with
           | (r, s') =>
               match cleanup s' with
               | (inr _, s'') => (r, s'')
               | (inl e, s'') => (inl e, s'')
               end
           end.

(** Reading a property of a value that may be [null] or [undefined]. *)
Definition deref {A} (what : string) (o : option A) : M A :=
  match o with
  | Some a => ret a
  | None => throw (TypeError ("Cannot read properties of null or undefined: " ++ what))
  end.

(** *** The page *)

Definition with_textContent (t : text) (e : Element) : Element :=
  {| textContent := t; className := className e; disabled := disabled e; value := value e |}.

Definition with_className (c : string) (e : Element) : Element :=
  {| textContent := textContent e; className := c; disabled := disabled e; value := value e |}.

Definition with_disabled (b : bool) (e : Element) : Element :=
  {| textContent := textContent e; className := className e; disabled := b; value := value e |}.

Definition with_value (v : text) (e : Element) : Element :=
  {| textContent := textContent e; className := className e; disabled := disabled e; value := v |}.

(** [document.getElementById(id).prop = v]: a TypeError when the page has no
    such element. *)
Definition setElement (id : string) (f : Element -> Element) : M unit :=
  fun s => match document s !! id with
           | Some _ => (inr tt, set_document (alter f id (document s)) s)
           | None => (inl (TypeError ("Cannot set properties of null: " ++ id)), s)
           end.

(** [safeUpdateElement(id, value)]: writes textContent if the element exists. *)
Definition safeUpdateElement (id : string) (v : text) : M unit :=
  modify (fun s => set_document (alter (with_textContent v) id (document s)) s).

(** [fetch]: the request is recorded; the outcome is the one supplied. *)
Definition fetch {A} (r : Request) (outcome : Fetched A) : M (bool * Z * option A) :=
  modify (fun s => set_requests (requests s ++ [r]) s) ;;
  match outcome with
  | Rejected e => throw e
  | Responded ok status body => ret (ok, status, body)
  end.

(** [await response.json()]. *)
Definition json {A} (body : option A) : M A :=
  match body with
  | Some a => ret a
  | None => throw (SyntaxError "Unexpected token in JSON")
  end.

(** ** The methods of StockValuationApp *)

Set Warnings "-inexact-float".

(** A run of [safeUpdateElement(id, v)] calls, in the order listed. *)
Definition safeUpdateEach (l : list (string * text)) : M unit :=
  fold_right (fun p k => safeUpdateElement p.1 p.2 ;; k) (ret tt) l.

(** [showStatus(message, type)].  The timer that hides the banner again after
    five seconds is not part of the model. *)
Definition showStatus (message type : string) : M unit :=
  setElement "status-message" (with_textContent [Lit message]) ;;
  setElement "status-message" (with_className ("status-message " ++ type)).

Definition showLoading (show : bool) : M unit :=
  if show then
    setElement "load-data-btn" (with_textContent [Lit "Loading..."]) ;;
    setElement "load-data-btn" (with_disabled true)
  else
    setElement "load-data-btn" (with_textContent [Lit "Load Company Data"]) ;;
    setElement "load-data-btn" (with_disabled false).

(** *** Formatting *)

(** [!value || isNaN(value)] *)
Definition missing (v : jsnum) : bool := negb (ToBoolean v) || isNaN v.

Definition formatCurrency (v : jsnum) : text :=
  if missing v then [Lit "--"] else [IntlVND (ToNumber v)].

Definition formatLargeNumber (v : jsnum) : text :=
  if missing v then [Lit "--"]
  else
    let x := ToNumber v in
    if (1e12 <=? x)%float then [toFixed (x / 1e12)%float 1; Lit " trillion"]
    else if (1e9 <=? x)%float then [toFixed (x / 1e9)%float 1; Lit " billion"]
    else if (1e6 <=? x)%float then [toFixed (x / 1e6)%float 1; Lit " million"]
    else formatCurrency v.

Definition formatNumber (v : jsnum) : text :=
  if missing v then [Lit "--"] else [toFixed (ToNumber v) 2].

Definition formatPercent (v : jsnum) : text :=
  if missing v then [Lit "--"] else [toFixed (ToNumber v) 1; Lit "%"].

(** [`${d > 0 ? '+' : ''}${d.toFixed(1)}%`] *)
Definition signedPercent (d : float) : text :=
  [Lit (if (0 <? d)%float then "+" else ""); toFixed d 1; Lit "%"].

(** [`result-diff ${d > 0 ? 'positive' : 'negative'}`] *)
Definition diffClass (d : float) : string :=
  "result-diff " ++ (if (0 <? d)%float then "positive" else "negative").

(** *** Weights *)

Definition updateWeightDisplay : M unit :=
  w <- gets modelWeights ;;
  setElement "fcfe-weight-value" (with_textContent [toFixed (fcfe w) 1; Lit "%"]) ;;
  setElement "fcff-weight-value" (with_textContent [toFixed (fcff w) 1; Lit "%"]) ;;
  setElement "pe-weight-value" (with_textContent [toFixed (justified_pe w) 1; Lit "%"]) ;;
  setElement "pb-weight-value" (with_textContent [toFixed (justified_pb w) 1; Lit "%"]).

Definition totalWeight (w : ModelWeights) : float :=
  (fcfe w + fcff w + justified_pe w + justified_pb w)%float.

(** The test of [updateTotalWeight]: [Math.abs(total - 100) < 0.1]. *)
Definition totalIsCorrect (w : ModelWeights) : bool :=
  (abs (totalWeight w - 100) <? 0.1)%float.

Definition updateTotalWeight : M unit :=
  w <- gets modelWeights ;;
  let total := totalWeight w in
  setElement "total-weight" (with_textContent [toFixed total 1]) ;;
  if (abs (total - 100) <? 0.1)%float then
    setElement "total-weight" (with_className "weight-total-correct")
  else
    setElement "total-weight" (with_className "weight-total-incorrect").

(** *** Upside and recommendation *)

(** [((target - current) / current) * 100], the expression every display
    method computes from the weighted value and the current price. *)
Definition computeUpsidePercent (targetPrice currentPrice : float) : float :=
  ((targetPrice - currentPrice) / currentPrice * 100)%float.

(** The local thresholds of [updateRecommendation]:
    (recommendation, status, reasoning). *)
Definition classifyRecommendation (upside : float) : string * string * string :=
  if (15 <? upside)%float then
    ("BUY", "positive",
     "Significant undervaluation detected - upside potential above 15%")
  else if (upside <? -15)%float then
    ("SELL", "negative",
     "Significant overvaluation detected - downside risk above 15%")
  else
    ("HOLD", "neutral",
     "Stock is fairly valued - upside/downside within 15% range").

(** [r.includes('BUY') ? 'positive' : r.includes('SELL') ? 'negative' : 'neutral'] *)
Definition statusOf (r : string) : string :=
  if includes r "BUY" then "positive"
  else if includes r "SELL" then "negative"
  else "neutral".

(** The markup [<span class=...>inner</span>] assigned through innerHTML, the
    class attribute being [status status--] followed by the status. *)
Definition statusSpan (status inner : string) : text :=
  [Lit "<span class="; Quote; Lit ("status status--" ++ status); Quote;
   Lit ">"; Lit inner; Lit "</span>"].

Definition updateWeightedResults : M unit :=
  vr <- (o <- gets valuationResults ;; deref "weighted_average" o) ;;
  let weightedValue := weighted_average vr in
  sd <- (o <- gets stockData ;; deref "current_price" o) ;;
  let currentPrice := num_field sd "current_price" in
  let weightedDiff :=
    computeUpsidePercent (ToNumber weightedValue) (ToNumber currentPrice) in
  setElement "weighted-result" (with_textContent (formatCurrency weightedValue)) ;;
  setElement "weighted-diff" (with_textContent (signedPercent weightedDiff)) ;;
  setElement "weighted-diff" (with_className (diffClass weightedDiff)) ;;
  safeUpdateElement "target-price" (formatCurrency weightedValue) ;;
  safeUpdateElement "summary-potential" [toFixed weightedDiff 1; Lit "%"] ;;
  safeUpdateElement "return-value" [toFixed weightedDiff 1; Lit "%"].

Definition updateRecommendation : M unit :=
  vr <- (o <- gets valuationResults ;; deref "weighted_average" o) ;;
  let weightedValue := weighted_average vr in
  sd <- (o <- gets stockData ;; deref "current_price" o) ;;
  let currentPrice := num_field sd "current_price" in
  let upside :=
    computeUpsidePercent (ToNumber weightedValue) (ToNumber currentPrice) in
  rsr <- match market_comparison vr with
         | Some mc =>
             r <- deref "includes" (recommendation mc) ;;
             ret (r, statusOf r,
                  ([Lit "Based on 4-model average of "] ++ formatCurrency weightedValue
                   ++ [Lit " vs current price "] ++ formatCurrency currentPrice)%list)
         | None =>
             let '(r, st, reasoning) := classifyRecommendation upside in
             ret (r, st, [Lit reasoning])
         end ;;
  let '(r, status, reasoning) := rsr in
  setElement "recommendation" (with_textContent (statusSpan status r)) ;;
  setElement "final-recommendation" (with_textContent (statusSpan status r)) ;;
  safeUpdateElement "recommendation-reasoning" reasoning ;;
  safeUpdateElement "confidence-level"
    [Lit (str_or_else (match summary vr with
                       | Some sm => confidence sm
                       | None => None
                       end) "--")].

Record InputEvent := {
  target_id : string;       (* event.target.id *)
  target_value : float      (* parseFloat(event.target.value) *)
}.

Definition updateModelWeights (event : InputEvent) : M unit :=
  let sliderId := target_id event in
  let v := target_value event in
  modify (fun s =>
    let w := modelWeights s in
    if String.eqb sliderId "fcfe-weight" then
      set_modelWeights {| fcfe := v; fcff := fcff w;
                          justified_pe := justified_pe w; justified_pb := justified_pb w |} s
    else if String.eqb sliderId "fcff-weight" then
      set_modelWeights {| fcfe := fcfe w; fcff := v;
                          justified_pe := justified_pe w; justified_pb := justified_pb w |} s
    else if String.eqb sliderId "pe-weight" then
      set_modelWeights {| fcfe := fcfe w; fcff := fcff w;
                          justified_pe := v; justified_pb := justified_pb w |} s
    else if String.eqb sliderId "pb-weight" then
      set_modelWeights {| fcfe := fcfe w; fcff := fcff w;
                          justified_pe := justified_pe w; justified_pb := v |} s
    else s) ;;
  updateWeightDisplay ;;
  updateTotalWeight ;;
  vr <- gets valuationResults ;;
  match vr with
  | Some _ => updateWeightedResults ;; updateRecommendation
  | None => ret tt
  end.

Definition normalizeWeights : M unit :=
  modify (set_modelWeights {| fcfe := 25.0; fcff := 25.0;
                              justified_pe := 25.0; justified_pb := 25.0 |}) ;;
  setElement "fcfe-weight" (with_value [NumToString 25.0]) ;;
  setElement "fcff-weight" (with_value [NumToString 25.0]) ;;
  setElement "pe-weight" (with_value [NumToString 25.0]) ;;
  setElement "pb-weight" (with_value [NumToString 25.0]) ;;
  updateWeightDisplay ;;
  updateTotalWeight ;;
  vr <- gets valuationResults ;;
  match vr with
  | Some _ => updateWeightedResults ;; updateRecommendation
  | None => ret tt
  end.

(** *** Display of the loaded data and of the valuation *)

Definition updateOverviewDisplay (data : StockData) : M unit :=
  safeUpdateEach [
    (* company info *)
    ("company-name", [Lit (str_or_else (str_field data "name") "--")]);
    ("company-symbol", [Lit (str_or_else (str_field data "symbol") "--")]);
    ("company-sector", [Lit (str_or_else (str_field data "sector") "--")]);
    ("company-exchange", [Lit (str_or_else (str_field data "exchange") "--")]);
    (* market data *)
    ("current-price", formatCurrency (num_field data "current_price"));
    ("market-cap", formatLargeNumber (num_field data "market_cap"));
    ("pe-ratio", formatNumber (num_field data "pe_ratio"));
    ("pb-ratio", formatNumber (num_field data "pb_ratio"));
    ("ps-ratio", formatNumber (num_field data "ps_ratio"));
    ("eps", formatCurrency (num_field data "eps"));
    ("book-value-per-share", formatCurrency (num_field data "book_value_per_share"));
    ("ev-ebitda", formatNumber (num_field data "ev_ebitda"));
    (* financial metrics *)
    ("revenue", formatLargeNumber (num_field data "revenue_ttm"));
    ("net-income", formatLargeNumber (num_field data "net_income_ttm"));
    ("ebitda", formatLargeNumber (num_field data "ebitda"));
    ("roe", formatPercent (num_field data "roe"));
    ("roa", formatPercent (num_field data "roa"));
    ("debt-equity", formatNumber (num_field data "debt_to_equity"));
    (* ratio metrics *)
    ("asset-turnover", formatNumber (num_field data "asset_turnover"));
    ("inventory-turnover", formatNumber (num_field data "inventory_turnover"));
    ("fixed-asset-turnover", formatNumber (num_field data "fixed_asset_turnover"));
    ("current-ratio", formatNumber (num_field data "current_ratio"));
    ("quick-ratio", formatNumber (num_field data "quick_ratio"));
    ("cash-ratio", formatNumber (num_field data "cash_ratio"));
    ("interest-coverage", formatNumber (num_field data "interest_coverage"));
    ("gross-profit-margin", formatPercent (num_field data "gross_profit_margin"));
    ("ebit-margin", formatPercent (num_field data "ebit_margin"));
    ("net-profit-margin", formatPercent (num_field data "net_profit_margin"));
    ("ev-ebitda-ratio", formatNumber (num_field data "ev_ebitda"));
    (* summary tab *)
    ("summary-symbol", [Lit (str_or_else (str_field data "symbol") "--")]);
    ("summary-name", [Lit (str_or_else (str_field data "name") "--")]);
    ("summary-sector", [Lit (str_or_else (str_field data "sector") "--")]);
    ("summary-exchange", [Lit (str_or_else (str_field data "exchange") "--")]);
    ("summary-price", formatCurrency (num_field data "current_price"));
    ("summary-market-cap", formatLargeNumber (num_field data "market_cap"));
    ("summary-pe", formatNumber (num_field data "pe_ratio"));
    ("summary-pb", formatNumber (num_field data "pb_ratio"))
  ].

(** [chart.data.datasets[i].data = d] *)
Definition setDataset (i : nat) (d : list jsnum) (c : Chart) : M Chart :=
  match datasets c !! i with
  | Some _ => ret {| labels := labels c; datasets := <[i := d]> (datasets c) |}
  | None => throw (TypeError "Cannot set properties of undefined: data")
  end.

Definition clearChart (c : Chart) : Chart :=
  {| labels := []; datasets := map (fun _ => []) (datasets c) |}.

Definition clearCharts : M unit :=
  c <- (cs <- gets charts ;; deref "data" (roeRoa cs)) ;;
  modify (fun s => set_charts {| roeRoa := Some (clearChart c);
                                 liquidity := liquidity (charts s) |} s) ;;
  c <- (cs <- gets charts ;; deref "data" (liquidity cs)) ;;
  modify (fun s => set_charts {| roeRoa := roeRoa (charts s);
                                 liquidity := Some (clearChart c) |} s).

Definition updateCharts : M unit :=
  h <- gets historicalData ;;
  match h with
  | None => clearCharts
  | Some h =>
      c <- (cs <- gets charts ;; deref "data" (roeRoa cs)) ;;
      let c := {| labels := years h; datasets := datasets c |} in
      c <- setDataset 0 (roa_data h) c ;;
      c <- setDataset 1 (roe_data h) c ;;
      modify (fun s => set_charts {| roeRoa := Some c;
                                     liquidity := liquidity (charts s) |} s) ;;
      c <- (cs <- gets charts ;; deref "data" (liquidity cs)) ;;
      let c := {| labels := years h; datasets := datasets c |} in
      c <- setDataset 0 (current_ratio_data h) c ;;
      c <- setDataset 1 (quick_ratio_data h) c ;;
      c <- setDataset 2 (cash_ratio_data h) c ;;
      modify (fun s => set_charts {| roeRoa := roeRoa (charts s);
                                     liquidity := Some c |} s)
  end.

Definition updateModelDetails : M unit :=
  ovr <- gets valuationResults ;;
  osd <- gets stockData ;;
  match ovr, osd with
  | Some vr, Some sd =>
      let currentPrice := num_field sd "current_price" in
      fd <- deref "eps" (financial_data vr) ;;
      let eps := or_else (or_else (fd_eps fd) (num_field sd "eps")) (JNum 0) in
      let bvps := or_else (num_field sd "book_value_per_share") (JNum 0) in
      (* FCFE details *)
      let fcfeEquityValue := equityValue (vr_fcfe vr) in
      safeUpdateElement "fcfe-equity" (formatCurrency (JNum fcfeEquityValue)) ;;
      safeUpdateElement "fcfe-share-value" (formatCurrency (shareValue (vr_fcfe vr))) ;;
      let fcfeDiff := computeUpsidePercent (ToNumber (shareValue (vr_fcfe vr)))
                                           (ToNumber currentPrice) in
      safeUpdateElement "fcfe-market-diff" (signedPercent fcfeDiff) ;;
      (* FCFF details *)
      let fcffEquityValue := equityValue (vr_fcff vr) in
      let fcffEV := (fcffEquityValue
                     + ToNumber (or_else (num_field sd "total_debt") (JNum 0)))%float in
      safeUpdateElement "fcff-ev" (formatCurrency (JNum fcffEV)) ;;
      safeUpdateElement "fcff-equity" (formatCurrency (JNum fcffEquityValue)) ;;
      safeUpdateElement "fcff-share-value" (formatCurrency (shareValue (vr_fcff vr))) ;;
      let fcffDiff := computeUpsidePercent (ToNumber (shareValue (vr_fcff vr)))
                                           (ToNumber currentPrice) in
      safeUpdateElement "fcff-market-diff" (signedPercent fcffDiff) ;;
      (* justified P/E details *)
      let justifiedPE :=
        if (0 <? ToNumber eps)%float
        then abs (ToNumber (vr_justified_pe vr) / ToNumber eps)%float
        else 0%float in
      safeUpdateElement "pe-justified-ratio" [toFixed justifiedPE 2; Lit "x"] ;;
      safeUpdateElement "pe-current-eps" (formatCurrency eps) ;;
      safeUpdateElement "pe-share-value" (formatCurrency (vr_justified_pe vr)) ;;
      let peDiff := computeUpsidePercent (ToNumber (vr_justified_pe vr))
                                         (ToNumber currentPrice) in
      safeUpdateElement "pe-market-diff" (signedPercent peDiff) ;;
      (* justified P/B details *)
      let justifiedPB :=
        if (0 <? ToNumber bvps)%float
        then abs (ToNumber (vr_justified_pb vr) / ToNumber bvps)%float
        else 0%float in
      safeUpdateElement "pb-justified-ratio" [toFixed justifiedPB 2; Lit "x"] ;;
      safeUpdateElement "pb-current-bvps" (formatCurrency bvps) ;;
      safeUpdateElement "pb-share-value" (formatCurrency (vr_justified_pb vr)) ;;
      let pbDiff := computeUpsidePercent (ToNumber (vr_justified_pb vr))
                                         (ToNumber currentPrice) in
      safeUpdateElement "pb-market-diff" (signedPercent pbDiff) ;;
      (* target price and summary *)
      safeUpdateElement "target-price" (formatCurrency (weighted_average vr)) ;;
      let upside := computeUpsidePercent (ToNumber (weighted_average vr))
                                         (ToNumber currentPrice) in
      safeUpdateElement "summary-potential" (signedPercent upside) ;;
      updateRecommendation
  | _, _ => ret tt
  end.

(** One model row of [updateValuationDisplay]: the value, then the
    difference to the current price with its sign class. *)
Definition showModelResult (resultId diffId : string) (v currentPrice : jsnum) : M unit :=
  setElement resultId (with_textContent (formatCurrency v)) ;;
  let diff := computeUpsidePercent (ToNumber v) (ToNumber currentPrice) in
  setElement diffId (with_textContent (signedPercent diff)) ;;
  setElement diffId (with_className (diffClass diff)).

Definition updateValuationDisplay : M unit :=
  sd <- (o <- gets stockData ;; deref "current_price" o) ;;
  let currentPrice := num_field sd "current_price" in
  vr <- (o <- gets valuationResults ;; deref "fcfe" o) ;;
  showModelResult "fcfe-result" "fcfe-diff" (shareValue (vr_fcfe vr)) currentPrice ;;
  showModelResult "fcff-result" "fcff-diff" (shareValue (vr_fcff vr)) currentPrice ;;
  showModelResult "pe-result" "pe-diff" (vr_justified_pe vr) currentPrice ;;
  showModelResult "pb-result" "pb-diff" (vr_justified_pb vr) currentPrice ;;
  let weightedValue := weighted_average vr in
  showModelResult "weighted-result" "weighted-diff" weightedValue currentPrice ;;
  let weightedDiff :=
    computeUpsidePercent (ToNumber weightedValue) (ToNumber currentPrice) in
  safeUpdateElement "target-price" (formatCurrency weightedValue) ;;
  safeUpdateElement "summary-potential" [toFixed weightedDiff 1; Lit "%"] ;;
  safeUpdateElement "return-value" [toFixed weightedDiff 1; Lit "%"] ;;
  updateModelDetails.

Definition clearDisplay : M unit :=
  safeUpdateEach (map (fun id => (id, [Lit "--"])) [
    (* company info *)
    "company-name"; "company-symbol"; "company-sector"; "company-exchange";
    (* market data *)
    "current-price"; "market-cap"; "pe-ratio"; "pb-ratio"; "ps-ratio"; "eps";
    "book-value-per-share"; "ev-ebitda";
    (* financial metrics *)
    "revenue"; "net-income"; "ebitda"; "roe"; "roa"; "debt-equity";
    (* ratio metrics *)
    "asset-turnover"; "inventory-turnover"; "fixed-asset-turnover";
    "current-ratio"; "quick-ratio"; "cash-ratio"; "interest-coverage";
    "gross-profit-margin"; "ebit-margin"; "net-profit-margin"; "ev-ebitda-ratio";
    (* valuation results *)
    "fcfe-result"; "fcff-result"; "pe-result"; "pb-result"; "weighted-result";
    "fcfe-diff"; "fcff-diff"; "pe-diff"; "pb-diff"; "weighted-diff";
    (* summary tab *)
    "summary-symbol"; "summary-name"; "summary-sector"; "summary-exchange";
    "summary-price"; "summary-market-cap"; "summary-pe"; "summary-pb";
    "target-price"; "summary-potential"; "return-value";
    (* model details *)
    "fcfe-equity"; "fcfe-share-value"; "fcfe-market-diff";
    "fcff-ev"; "fcff-equity"; "fcff-share-value"; "fcff-market-diff";
    "pe-justified-ratio"; "pe-current-eps"; "pe-share-value"; "pe-market-diff";
    "pb-justified-ratio"; "pb-current-bvps"; "pb-share-value"; "pb-market-diff"
  ]) ;;
  (* recommendation *)
  setElement "recommendation" (with_textContent (statusSpan "warning" "--")) ;;
  setElement "final-recommendation" (with_textContent (statusSpan "warning" "--")) ;;
  safeUpdateElement "recommendation-reasoning"
    [Lit "Please load company data to receive investment recommendations."] ;;
  safeUpdateElement "confidence-level" [Lit "--"] ;;
  (* export button *)
  setElement "export-report-btn" (with_disabled true) ;;
  (* valuation results *)
  modify (set_valuationResults None).

(** *** The two asynchronous actions *)

(** [loadStockData()].  [input] is the content of the symbol field;
    [stock] and [chart] are what the two requests give.  The second request
    is only sent once the first has been answered.  A timeout is the abort
    signal firing: the pending [fetch] is rejected with an AbortError. *)
Definition loadStockData (input : string)
    (stock : Fetched StockData) (chart : Fetched ChartData) : M unit :=
  let symbol := toUpperCase (trim input) in
  let period := "year" in
  if String.eqb symbol "" then
    showStatus "Please enter a stock symbol" "error"
  else
    showLoading true ;;
    showStatus "Loading data..." "info" ;;
    finally
      (try_catch
         (stockResponse <- fetch (GetAppData symbol period) stock ;;
          chartResponse <- fetch (GetHistoricalChartData symbol) chart ;;
          let '(stock_ok, stock_status, stock_body) := stockResponse in
          let '(chart_ok, _, chart_body) := chartResponse in
          (if negb stock_ok then
             if (stock_status =? 404)%Z then
               throw (Error "No data found for this stock symbol")
             else if (stock_status =? 500)%Z then
               throw (Error "Server error while loading data")
             else
               throw (Error "Unable to connect to server")
           else ret tt) ;;
          stockData <- json stock_body ;;
          chartData <- (if chart_ok then json chart_body
                        else ret {| chart_success := false; chart_data := None |}) ;;
          (if negb (sd_success stockData) then
             throw (Error (str_or_else (sd_error stockData)
                                       "Unable to load data from server"))
           else ret tt) ;;
          modify (set_stockData (Some stockData)) ;;
          modify (set_currentStock (Some symbol)) ;;
          modify (set_historicalData
                    (if chart_success chartData then chart_data chartData else None)) ;;
          updateOverviewDisplay stockData ;;
          updateCharts ;;
          showStatus "Data loaded successfully" "success")
         (fun error =>
            (if String.eqb (name error) "AbortError" then
               showStatus "Timeout - Please try again later." "error"
             else
               showStatus ("Data loading error: " ++ message error) "error") ;;
            modify (set_stockData None) ;;
            modify (set_currentStock None) ;;
            modify (set_historicalData None) ;;
            clearDisplay ;;
            clearCharts))
      (showLoading false).

(** [!this.currentStock]: [null] and the empty string are falsy. *)
Definition noStock (c : option string) : bool :=
  match c with
  | Some sym => String.eqb sym ""
  | None => true
  end.

(** [calculateValuation()].  [answer] is what the valuation request gives. *)
Definition calculateValuation (answer : Fetched EngineResult) : M unit :=
  cs <- gets currentStock ;;
  if noStock cs then
    showStatus "Please load company data first" "error"
  else
    try_catch
      (showStatus "Calculating valuation models..." "info" ;;
       a <- gets assumptions ;;
       w <- gets modelWeights ;;
       let requestData :=
         {| rd_assumptions := a; rd_roe := 15.0; rd_payoutRatio := 40.0;
            rd_modelWeights := w |} in
       response <- fetch (PostValuation (default "" cs) requestData) answer ;;
       let '(ok, status, body) := response in
       (if negb ok then throw (Error ("HTTP error! status: " ++ pretty status))
        else ret tt) ;;
       result <- json body ;;
       (if negb (r_success result) then
          throw (Error (str_or_else (r_error result) "Valuation calculation failed"))
        else ret tt) ;;
       v <- deref "fcfe" (r_valuations result) ;;
       sd <- (o <- gets stockData ;; deref "shares_outstanding" o) ;;
       shares <- (if ToBoolean (num_field sd "shares_outstanding")
                  then ret (num_field sd "shares_outstanding")
                  else fd <- deref "shares_outstanding" (r_financial_data result) ;;
                       ret (fd_shares_outstanding fd)) ;;
       modify (set_valuationResults (Some
         {| vr_fcfe := {| shareValue := val_fcfe v;
                          equityValue := (ToNumber (val_fcfe v) * ToNumber shares)%float |};
            vr_fcff := {| shareValue := val_fcff v;
                          equityValue := (ToNumber (val_fcff v) * ToNumber shares)%float |};
            vr_justified_pe := val_justified_pe v;
            vr_justified_pb := val_justified_pb v;
            weighted_average := val_weighted_average v;
            summary := r_summary result;
            market_comparison := r_market_comparison result;
            financial_data := r_financial_data result |})) ;;
       updateValuationDisplay ;;
       updateWeightedResults ;;
       updateRecommendation ;;
       setElement "export-report-btn" (with_disabled false) ;;
       showStatus "Valuation calculation completed" "success")
      (fun error =>
         showStatus ("Error calculating valuation: " ++ message error) "error").

(** *** Construction *)

Definition defaultAssumptions : Assumptions :=
  {| revenueGrowth := 8.0; terminalGrowth := 3.0; wacc := 10.5;
     requiredReturn := 12.0; taxRate := 20.0; projectionYears := 5 |}.

(** The fields as the constructor sets them, on a given page. *)
Definition constructed (page : gmap string Element) : App :=
  {| currentStock := None; stockData := None; historicalData := None;
     assumptions := defaultAssumptions;
     modelWeights := {| fcfe := 25; fcff := 25; justified_pe := 25; justified_pb := 25 |};
     valuationResults := None;
     charts := {| roeRoa := None; liquidity := None |};
     document := page; requests := [] |}.

Definition loadDefaultAssumptions : M unit :=
  a <- gets assumptions ;;
  setElement "revenue-growth" (with_value [NumToString (revenueGrowth a)]) ;;
  setElement "terminal-growth" (with_value [NumToString (terminalGrowth a)]) ;;
  setElement "wacc" (with_value [NumToString (wacc a)]) ;;
  setElement "required-return" (with_value [NumToString (requiredReturn a)]) ;;
  setElement "tax-rate" (with_value [NumToString (taxRate a)]) ;;
  setElement "projection-years" (with_value [NumToString (projectionYears a)]) ;;
  updateWeightDisplay ;;
  updateTotalWeight.

(** [updateAssumptions()]: [form] is the parsed content of the six inputs. *)
Definition updateAssumptions (form : Assumptions) : M unit :=
  modify (set_assumptions form).

Definition resetAssumptions : M unit :=
  modify (set_assumptions defaultAssumptions) ;;
  loadDefaultAssumptions.

(** [setupCharts()]: two line charts, with two and three empty datasets. *)
Definition setupCharts : M unit :=
  _ <- (o <- gets (fun s => document s !! "roe-roa-chart") ;; deref "getContext" o) ;;
  modify (fun s => set_charts {| roeRoa := Some {| labels := []; datasets := [[]; []] |};
                                 liquidity := liquidity (charts s) |} s) ;;
  _ <- (o <- gets (fun s => document s !! "liquidity-chart") ;; deref "getContext" o) ;;
  modify (fun s => set_charts {| roeRoa := roeRoa (charts s);
                                 liquidity := Some {| labels := []; datasets := [[]; []; []] |} |} s).

(** [init()]; registering the event handlers and the theme toggle change
    nothing in the state modelled here. *)
Definition init : M unit :=
  loadDefaultAssumptions ;;
  setupCharts.

(** The elements of index.html that carry an id. *)
Definition page_ids : list string := [
  "theme-toggle-btn"; "status-message"; "stock-symbol"; "load-data-btn";
  "overview"; "company-symbol"; "company-name"; "company-sector";
  "company-exchange"; "current-price"; "market-cap"; "eps";
  "book-value-per-share"; "ev-ebitda"; "revenue"; "net-income"; "ebitda";
  "roe"; "roa"; "debt-equity"; "pe-ratio"; "pb-ratio"; "ps-ratio"; "pcf-ratio";
  "asset-turnover"; "inventory-turnover"; "fixed-asset-turnover";
  "current-ratio"; "quick-ratio"; "cash-ratio"; "interest-coverage";
  "gross-profit-margin"; "ebit-margin"; "net-profit-margin"; "roe-roa-chart";
  "liquidity-chart"; "pe-pb-chart"; "nim-chart"; "valuation";
  "assumptions-form"; "revenue-growth"; "terminal-growth"; "wacc";
  "required-return"; "tax-rate"; "projection-years"; "calculate-btn";
  "reset-assumptions-btn"; "fcfe-weight"; "fcfe-weight-value"; "fcff-weight";
  "fcff-weight-value"; "pe-weight"; "pe-weight-value"; "pb-weight";
  "pb-weight-value"; "total-weight"; "normalize-weights-btn"; "fcfe-result";
  "fcfe-diff"; "fcff-result"; "fcff-diff"; "pe-result"; "pe-diff"; "pb-result";
  "pb-diff"; "weighted-result"; "weighted-diff"; "recommendation";
  "return-value"; "summary"; "summary-symbol"; "summary-name";
  "summary-sector"; "summary-exchange"; "summary-price"; "summary-market-cap";
  "summary-pe"; "summary-pb"; "fcfe-equity"; "fcfe-share-value";
  "fcfe-market-diff"; "fcff-ev"; "fcff-equity"; "fcff-share-value";
  "fcff-market-diff"; "pe-justified-ratio"; "pe-current-eps"; "pe-share-value";
  "pe-market-diff"; "pb-justified-ratio"; "pb-current-bvps"; "pb-share-value";
  "pb-market-diff"; "target-price"; "summary-potential"; "confidence-level";
  "final-recommendation"; "recommendation-reasoning"; "export-report-btn"
].

(** The page before any script has run; the initial contents of the
    elements are left blank. *)
Definition index_html : gmap string Element :=
  list_to_map (map (fun id => (id, {| textContent := []; className := "";
                                       disabled := false; value := [] |}))
                   page_ids).

(** The elements the methods reach through [getElementById(...)] followed by
    a property write; the others are written through [safeUpdateElement]. *)
Definition required_ids : list string := [
  "status-message"; "load-data-btn"; "fcfe-weight-value"; "fcff-weight-value";
  "pe-weight-value"; "pb-weight-value"; "total-weight"; "fcfe-weight";
  "fcff-weight"; "pe-weight"; "pb-weight"; "weighted-result"; "weighted-diff";
  "recommendation"; "final-recommendation"; "export-report-btn";
  "fcfe-result"; "fcfe-diff"; "fcff-result"; "fcff-diff"; "pe-result";
  "pe-diff"; "pb-result"; "pb-diff"
].

Definition has_ids (ids : list string) (d : gmap string Element) : bool :=
  forallb (fun id => bool_decide (is_Some (d !! id))) ids.

(** The page still holds the elements the methods write to. *)
Definition page_ok (s : App) : bool := has_ids required_ids (document s).

(** ** The weighted average, as the specification states it *)

(** Modelled from the spec: [computeWeightedAverage(results, weights)].  The
    weighted average is computed by the server behind
    [POST /api/valuation/{symbol}] (backend_server.py), which is not among the
    sources; app.js sends the weights in the request body and stores the
    [weighted_average] of the answer.  Each weight is a percentage; the sum
    of [value_i * (weight_i / 100)] is taken over the four models in order,
    an absent value contributing zero, and the weights are used as they are. *)
Record ModelResults := {
  mr_fcfe : option float;
  mr_fcff : option float;
  mr_justified_pe : option float;
  mr_justified_pb : option float
}.

Definition contribution (value : option float) (weight : float) : float :=
  match value with
  | Some v => (v * (weight / 100))%float
  | None => 0%float
  end.

Definition computeWeightedAverage (results : ModelResults) (weights : ModelWeights) : float :=
  (contribution (mr_fcfe results) (fcfe weights)
   + contribution (mr_fcff results) (fcff weights)
   + contribution (mr_justified_pe results) (justified_pe weights)
   + contribution (mr_justified_pb results) (justified_pb weights))%float.

(** The per-model values held in [this.valuationResults], as numbers. *)
Definition held (v : jsnum) : option float :=
  match v with
  | JNum x => Some x
  | _ => None
  end.

Definition heldResults (vr : ValuationResults) : ModelResults :=
  {| mr_fcfe := held (shareValue (vr_fcfe vr));
     mr_fcff := held (shareValue (vr_fcff vr));
     mr_justified_pe := held (vr_justified_pe vr);
     mr_justified_pb := held (vr_justified_pb vr) |}.

(** ** Vocabulary of the statements *)

(** The state a method leaves, and whether it returned or threw. *)
Definition after {A} (m : M A) (s : App) : App := (m s).2.

Definition returns {A} (m : M A) (s : App) : Prop := exists a, (m s).1 = inr a.

(** What an element of the page shows. *)
Definition shown (id : string) (s : App) : option text :=
  textContent <$> document s !! id.

Definition shownClass (id : string) (s : App) : option string :=
  className <$> document s !! id.

(** [p] occurs in [s]. *)
Definition isSubstring (p s : string) : Prop :=
  exists a b, s = a ++ p ++ b.

(** A data load that fails: the stock request is rejected (no connection, or
    the timeout fired), the chart request is rejected, the stock answer has a
    non-OK status or a body that is not JSON, the chart answer is OK with a
    body that is not JSON, or the stock answer says [success: false]. *)
Definition loadFails (stock : Fetched StockData) (chart : Fetched ChartData) : bool :=
  match stock, chart with
  | Rejected _, _ => true
  | Responded _ _ _, Rejected _ => true
  | Responded false _ _, Responded _ _ _ => true
  | Responded true _ None, Responded _ _ _ => true
  | Responded true _ (Some sd), Responded chart_ok _ chart_body =>
      (chart_ok && negb (bool_decide (is_Some chart_body))) || negb (sd_success sd)
  end.

(** A valuation request that fails: rejected, a non-OK status, a body that is
    not JSON, or [success: false]. *)
Definition calculationFails (answer : Fetched EngineResult) : bool :=
  match answer with
  | Rejected _ => true
  | Responded false _ _ => true
  | Responded true _ None => true
  | Responded true _ (Some r) => negb (r_success r)
  end.

(** The upside the display methods compute from the held weighted value and
    the current price. *)
Definition heldUpside (vr : ValuationResults) (sd : StockData) : float :=
  computeUpsidePercent (ToNumber (weighted_average vr))
                       (ToNumber (num_field sd "current_price")).

Definition recommendationOk (vr : ValuationResults) : bool :=
  match market_comparison vr with
  | Some mc => bool_decide (is_Some (recommendation mc))
  | None => true
  end.

(** *** A sample session *)

Definition sampleStock : StockData :=
  {| sd_success := true; sd_error := None;
     sd_strings := {[ "name" := "Vietcombank"; "symbol" := "VCB" ]};
     sd_numbers := {[ "current_price" := JNum 100000;
                      "shares_outstanding" := JNum 1000 ]} |}.

Definition sampleAnswer : EngineResult :=
  {| r_success := true; r_error := None;
     r_valuations := Some {| val_fcfe := JNum 100000; val_fcff := JNum 110000;
                             val_justified_pe := JNum 90000;
                             val_justified_pb := JNum 95000;
                             val_weighted_average := JNum 98750 |};
     r_financial_data := Some {| fd_eps := JNum 5000;
                                 fd_shares_outstanding := JNum 1000 |};
     r_market_comparison := None; r_summary := None |}.

(** The page is opened, VCB is loaded, and a valuation is computed with the
    default weights. *)
Definition opened : App := after init (constructed index_html).

Definition loaded : App :=
  after (loadStockData "vcb" (Responded true 200 (Some sampleStock))
                             (Responded false 404 None)) opened.

Definition valued : App :=
  after (calculateValuation (Responded true 200 (Some sampleAnswer))) loaded.

(** *** Binary64 constants *)

(** 100 is [m100 * 2^-46]; the binary64 number nearest to one tenth is
    [mTenth * 2^-56]. *)
Definition m100 : positive := 7036874417766400.
Definition mTenth : positive := 7205759403792794.

(** Zero, a positive number or +Infinity. *)
Definition nonneg (x : spec_float) : bool :=
  match x with
  | S754_zero _ | S754_infinity false | S754_finite false _ _ => true
  | _ => false
  end.

(** The recommendation and status [updateRecommendation] shows for the held
    results: those of the engine when there is a market comparison, the
    local thresholds otherwise. *)
Definition heldRecommendation (vr : ValuationResults) (sd : StockData) : string * string :=
  match market_comparison vr with
  | Some mc => let r := default "" (recommendation mc) in (r, statusOf r)
  | None => (classifyRecommendation (heldUpside vr sd)).1
  end.

(** The page after a run of [safeUpdateElement] calls. *)
Definition writeEach (l : list (string * text)) (d : gmap string Element) : gmap string Element :=
  fold_left (fun d p => alter (with_textContent p.2) p.1 d) l d.

(** The same session for a stock whose current price is zero. *)
Definition zeroPriceStock : StockData :=
  {| sd_success := true; sd_error := None;
     sd_strings := {[ "name" := "Vietcombank"; "symbol" := "VCB" ]};
     sd_numbers := {[ "current_price" := JNum 0;
                      "shares_outstanding" := JNum 1000 ]} |}.

Definition valuedAtZeroPrice : App :=
  after (calculateValuation (Responded true 200 (Some sampleAnswer)))
    (after (loadStockData "vcb" (Responded true 200 (Some zeroPriceStock))
                                (Responded false 404 None)) opened).

(** A method that leaves a component [f] of the state as it was. *)
Definition keeps {X A} (f : App -> X) (m : M A) : Prop :=
  forall s, f (after m s) = f s.

(** The values of the specification's examples. *)
Definition allFour : ModelResults :=
  {| mr_fcfe := Some 100000%float; mr_fcff := Some 110000%float;
     mr_justified_pe := Some 90000%float; mr_justified_pb := Some 95000%float |}.

Definition withoutFcfe : ModelResults :=
  {| mr_fcfe := None; mr_fcff := Some 110000%float;
     mr_justified_pe := Some 90000%float; mr_justified_pb := Some 95000%float |}.

Definition withoutFcff : ModelResults :=
  {| mr_fcfe := Some 100000%float; mr_fcff := None;
     mr_justified_pe := Some 90000%float; mr_justified_pb := Some 95000%float |}.

Definition withoutPe : ModelResults :=
  {| mr_fcfe := Some 100000%float; mr_fcff := Some 110000%float;
     mr_justified_pe := None; mr_justified_pb := Some 95000%float |}.

Definition withoutPb : ModelResults :=
  {| mr_fcfe := Some 100000%float; mr_fcff := Some 110000%float;
     mr_justified_pe := Some 90000%float; mr_justified_pb := None |}.

Definition weights (a b c d : float) : ModelWeights :=
  {| fcfe := a; fcff := b; justified_pe := c; justified_pb := d |}.

(** A method that only wrote to elements of the page: the other components
    of the state are as they were, and the page has the same elements. *)
Definition displayOnly (s s' : App) : Prop :=
  s' = set_document (document s') s /\
  forall id, is_Some (document s' !! id) <-> is_Some (document s !! id).

(** A session whose valuation carries a recommendation of the engine. *)
Definition engineAnswer : EngineResult :=
  {| r_success := true; r_error := None;
     r_valuations := r_valuations sampleAnswer;
     r_financial_data := r_financial_data sampleAnswer;
     r_market_comparison := Some {| recommendation := Some "STRONG BUY" |};
     r_summary := Some {| confidence := Some "High" |} |}.

Definition valuedByEngine : App :=
  after (calculateValuation (Responded true 200 (Some engineAnswer))) loaded.

(** A session whose valuation carries a market comparison without a
    recommendation. *)
Definition answerWithoutRecommendation : EngineResult :=
  {| r_success := true; r_error := None;
     r_valuations := r_valuations sampleAnswer;
     r_financial_data := r_financial_data sampleAnswer;
     r_market_comparison := Some {| recommendation := None |};
     r_summary := None |}.

Definition valuedWithoutRecommendation : App :=
  after (calculateValuation (Responded true 200 (Some answerWithoutRecommendation))) loaded.

(** The results held after the sample valuation. *)
Definition sampleResults : ValuationResults :=
  {| vr_fcfe := {| shareValue := JNum 100000; equityValue := 100000000 |};
     vr_fcff := {| shareValue := JNum 110000; equityValue := 110000000 |};
     vr_justified_pe := JNum 90000;
     vr_justified_pb := JNum 95000;
     weighted_average := JNum 98750;
     summary := None;
     market_comparison := None;
     financial_data := Some {| fd_eps := JNum 5000;
                               fd_shares_outstanding := JNum 1000 |} |}.

(** The slider of the FCFE weight is moved to 50. *)
Definition fcfeTo50 : InputEvent :=
  {| target_id := "fcfe-weight"; target_value := 50 |}.

(** The number a finite binary64 value stands for. *)
Definition exactValue (x : float) : option Q :=
  match Prim2SF x with
  | S754_zero _ => Some 0%Q
  | S754_finite s m e => Some ((if s then -1 else 1) * (Zpos m # 1) * Qpower 2 e)%Q
  | _ => None
  end.

(** [x] is the binary64 number nearest to [q], the one [parseFloat] gives
    for the decimal [q]: neither neighbour of [x] is closer. *)
Definition nearestDouble (q : Q) (x : float) : bool :=
  match exactValue x, exactValue (next_down x), exactValue (next_up x) with
  | Some v, Some lo, Some hi =>
      Qle_bool (Qabs (v - q)) (Qabs (lo - q)) && Qle_bool (Qabs (v - q)) (Qabs (hi - q))
  | _, _, _ => false
  end.

(** The slider [id] is moved to [v]. *)
Definition slid (id : string) (v : float) (s : App) : App :=
  after (updateModelWeights {| target_id := id; target_value := v |}) s.

(** Two settings of the sliders, from the opened page, whose weights add up
    to 100.1: 0, 0, 3.9 and 96.2; and 25.1, 25, 25 and 25. *)
Definition slidTo_0_0_39_962 : App :=
  slid "pb-weight" 96.2 (slid "pe-weight" 3.9 (slid "fcff-weight" 0
    (slid "fcfe-weight" 0 opened))).

Definition slidTo_251_25_25_25 : App := slid "fcfe-weight" 25.1 opened.

(** ** Vocabulary of the further properties *)

(** The texts the templates of app.js give: the span of a recommendation
    with the class of its status, a percentage with its sign, and the class
    of a difference by its sign. *)
Definition spanText (status inner : string) : text :=
  [Lit "<span class="; Quote; Lit ("status status--" ++ status); Quote;
   Lit ">"; Lit inner; Lit "</span>"].

Definition signedText (d : float) : text :=
  [Lit (if (0 <? d)%float then "+" else ""); toFixed d 1; Lit "%"].

Definition signClass (d : float) : string :=
  "result-diff " ++ (if (0 <? d)%float then "positive" else "negative").

(** The banner after [showStatus(message, type)], and the load button after
    [showLoading(show)]. *)
Definition banner (message type : string) (e : Element) : Element :=
  with_className ("status-message " ++ type) (with_textContent [Lit message] e).

Definition loadButton (show : bool) (e : Element) : Element :=
  if show then with_disabled true (with_textContent [Lit "Loading..."] e)
  else with_disabled false (with_textContent [Lit "Load Company Data"] e).

(** The two pages hold elements under the same ids. *)
Definition sameElements (d d' : gmap string Element) : Prop :=
  forall id, is_Some (d' !! id) <-> is_Some (d !! id).

(** The charts as [setupCharts] leaves them, whatever they show: the ROE/ROA
    chart has (at least) two datasets and the liquidity chart three. *)
Definition chartsOk (c : Charts) : bool :=
  match roeRoa c, liquidity c with
  | Some a, Some b => (2 <=? length (datasets a))%nat && (3 <=? length (datasets b))%nat
  | _, _ => false
  end.

(** The content of the symbol field is blank: nothing but white space, one
    character after the other. *)
Inductive Blank : string -> Prop :=
| Blank_empty : Blank ""
| Blank_1 a s : is_space a = true -> Blank s -> Blank (String a s)
| Blank_2 a b s : is_space2 a b = true -> Blank s -> Blank (String a (String b s))
| Blank_3 a b c s :
    is_space3 a b c = true -> Blank s -> Blank (String a (String b (String c s))).

(** The fields [updateOverviewDisplay(data)] writes, in order. *)
Definition overviewFields (data : StockData) : list (string * text) :=
  ltac:(let t := eval unfold updateOverviewDisplay in (updateOverviewDisplay data) in
        match t with safeUpdateEach ?l => exact l end).

(** The fields [clearDisplay()] resets through [safeUpdateElement]. *)
Definition clearedFields : list (string * text) :=
  ltac:(let t := eval unfold clearDisplay in clearDisplay in
        match t with bind (safeUpdateEach ?l) _ => exact l end).

(** The last text a run of [safeUpdateElement] calls writes to [id]. *)
Definition lastWrite (l : list (string * text)) (id : string) : option text :=
  fold_left (fun acc p => if String.eqb p.1 id then Some p.2 else acc) l None.

(** What the chart endpoint's answer leaves in [historicalData]. *)
Definition chartOutcome (chart_ok : bool) (body : option ChartData) : option HistoricalData :=
  if chart_ok then
    match body with
    | Some cd => if chart_success cd then chart_data cd else None
    | None => None
    end
  else None.

(** The charts after [updateCharts()]. *)
Definition shownCharts (h : option HistoricalData) (c : Charts) : Charts :=
  match h with
  | Some h =>
      {| roeRoa := (fun a => {| labels := years h;
                               datasets := <[1%nat := roe_data h]>
                                             (<[0%nat := roa_data h]> (datasets a)) |})
                     <$> roeRoa c;
         liquidity := (fun b => {| labels := years h;
                                  datasets := <[2%nat := cash_ratio_data h]>
                                                (<[1%nat := quick_ratio_data h]>
                                                   (<[0%nat := current_ratio_data h]>
                                                      (datasets b))) |})
                        <$> liquidity c |}
  | None => {| roeRoa := clearChart <$> roeRoa c; liquidity := clearChart <$> liquidity c |}
  end.

(** The page after [clearDisplay()]. *)
Definition clearedPage (d : gmap string Element) : gmap string Element :=
  alter (with_disabled true) "export-report-btn"
    (alter (with_textContent [Lit "--"]) "confidence-level"
       (alter (with_textContent
                 [Lit "Please load company data to receive investment recommendations."])
              "recommendation-reasoning"
          (alter (with_textContent (spanText "warning" "--")) "final-recommendation"
             (alter (with_textContent (spanText "warning" "--")) "recommendation"
                (writeEach clearedFields d))))).

(** The requests [loadStockData()] sends for a symbol: the second one only
    once the first has been answered. *)
Definition loadRequests (symbol : string) (stock : Fetched StockData) : list Request :=
  match stock with
  | Rejected _ => [GetAppData symbol "year"]
  | Responded _ _ _ => [GetAppData symbol "year"; GetHistoricalChartData symbol]
  end.

(** The message of the banner in the catch block of [loadStockData()]. *)
Definition loadErrorMessage (error : Exn) : string :=
  if String.eqb (name error) "AbortError" then "Timeout - Please try again later."
  else "Data loading error: " ++ message error.

(** The exception the try block of [loadStockData()] ends with, if any: a
    rejected request; then the status of the stock answer; then a body that
    is not JSON; then [success: false]. *)
Definition loadError (stock : Fetched StockData) (chart : Fetched ChartData) : option Exn :=
  match stock, chart with
  | Rejected e, _ => Some e
  | Responded _ _ _, Rejected e => Some e
  | Responded false status _, Responded _ _ _ =>
      Some (Error (if (status =? 404)%Z then "No data found for this stock symbol"
                   else if (status =? 500)%Z then "Server error while loading data"
                   else "Unable to connect to server"))
  | Responded true _ None, Responded _ _ _ =>
      Some (SyntaxError "Unexpected token in JSON")
  | Responded true _ (Some sd), Responded true _ None =>
      Some (SyntaxError "Unexpected token in JSON")
  | Responded true _ (Some sd), Responded _ _ _ =>
      if sd_success sd then None
      else Some (Error (str_or_else (sd_error sd) "Unable to load data from server"))
  end.

(** The session once the catch block of [loadStockData()] has cleared it. *)
Definition clearedSession (s : App) : App :=
  set_valuationResults None
    (set_historicalData None (set_currentStock None (set_stockData None s))).

(** A method that neither adds nor removes an element of the page. *)
Definition keepsElements {A} (m : M A) : Prop :=
  forall s, sameElements (document s) (document (after m s)).

(** *** Runs of writes to the page *)

(** A write to the page: the id of the element and what becomes of it. *)
Definition Edit : Type := string * (Element -> Element).

(** The page after a run of writes, missing elements being skipped, and
    what the run makes of the element [id]. *)
Definition edits (l : list Edit) (d : gmap string Element) : gmap string Element :=
  fold_left (fun d p => alter p.2 p.1 d) l d.

Definition editsAt (l : list Edit) (id : string) (e : Element) : Element :=
  fold_left (fun e p => if String.eqb p.1 id then p.2 e else e) l e.

(** On the state [s], with any page that has the elements of [d], the method
    [m] returns, having done nothing but the writes [l]. *)
Definition displaysFrom (s : App) (d : gmap string Element) (m : M unit) (l : list Edit) : Prop :=
  forall d', sameElements d d' ->
    m (set_document d' s) = (inr tt, set_document (edits l d') s).

(** [this.valuationResults], as [calculateValuation()] builds it from the
    answer of the engine and the shares of the loaded stock (those of the
    answer when the stock has none). *)
Definition storedResults (sd : StockData) (r : EngineResult) (v : Valuations)
    (shares : jsnum) : ValuationResults :=
  {| vr_fcfe := {| shareValue := val_fcfe v;
                   equityValue := (ToNumber (val_fcfe v) * ToNumber shares)%float |};
     vr_fcff := {| shareValue := val_fcff v;
                   equityValue := (ToNumber (val_fcff v) * ToNumber shares)%float |};
     vr_justified_pe := val_justified_pe v;
     vr_justified_pb := val_justified_pb v;
     weighted_average := val_weighted_average v;
     summary := r_summary r;
     market_comparison := r_market_comparison r;
     financial_data := r_financial_data r |}.

(** The body of the valuation request. *)
Definition requestData (s : App) : RequestData :=
  {| rd_assumptions := assumptions s; rd_roe := 15; rd_payoutRatio := 40;
     rd_modelWeights := modelWeights s |}.

(** The number of shares [calculateValuation()] multiplies by: the one of
    the loaded stock, or else the one of the answer's [financial_data]. *)
Definition sharesFor (sd : StockData) (r : EngineResult) : option jsnum :=
  if ToBoolean (num_field sd "shares_outstanding")
  then Some (num_field sd "shares_outstanding")
  else fd_shares_outstanding <$> r_financial_data r.

(** The upside of a value against the current price. *)
Definition modelUpside (v : jsnum) (sd : StockData) : float :=
  let price := ToNumber (num_field sd "current_price") in
  ((ToNumber v - price) / price * 100)%float.

(** The recommendation [updateRecommendation()] shows, with its status: the
    one of the engine when there is a market comparison, with the status of
    the substring tests; otherwise the one of the thresholds on the upside
    of the weighted value. *)
Definition shownRecommendation (vr : ValuationResults) (sd : StockData) : string * string :=
  match market_comparison vr with
  | Some mc =>
      let r := default "" (recommendation mc) in
      (r, if includes r "BUY" then "positive"
          else if includes r "SELL" then "negative" else "neutral")
  | None =>
      let upside := modelUpside (weighted_average vr) sd in
      if (15 <? upside)%float then ("BUY", "positive")
      else if (upside <? -15)%float then ("SELL", "negative")
      else ("HOLD", "neutral")
  end.

(** The reasoning shown with it. *)
Definition heldReasoning (vr : ValuationResults) (sd : StockData) : text :=
  match market_comparison vr with
  | Some _ =>
      ([Lit "Based on 4-model average of "] ++ formatCurrency (weighted_average vr)
       ++ [Lit " vs current price "]
       ++ formatCurrency (num_field sd "current_price"))%list
  | None =>
      let upside := modelUpside (weighted_average vr) sd in
      [Lit (if (15 <? upside)%float
            then "Significant undervaluation detected - upside potential above 15%"
            else if (upside <? -15)%float
            then "Significant overvaluation detected - downside risk above 15%"
            else "Stock is fairly valued - upside/downside within 15% range")]
  end.

(** A difference to the current price as a result row shows it: the text
    with its sign, and the class of its sign. *)
Definition shownDiff (diff : float) (e : Element) : Element :=
  with_className (signClass diff) (with_textContent (signedText diff) e).

(** The ratio [updateModelDetails()] shows for a justified multiple: the
    value over the per-share figure when that figure is positive, 0
    otherwise. *)
Definition justifiedRatio (v per : jsnum) : float :=
  if (0 <? ToNumber per)%float then abs (ToNumber v / ToNumber per)%float else 0%float.

(** The EPS of the details: [financial_data.eps || stockData.eps || 0]. *)
Definition detailEps (fd : FinancialData) (sd : StockData) : jsnum :=
  or_else (or_else (fd_eps fd) (num_field sd "eps")) (JNum 0).

Definition detailBvps (sd : StockData) : jsnum :=
  or_else (num_field sd "book_value_per_share") (JNum 0).

(** What a successful [calculateValuation()] has made of the page when it
    ends: for each element it wrote to, the outcome of its writes. *)
Definition afterValuation (vr : ValuationResults) (sd : StockData) (fd : FinancialData)
    : list Edit :=
  let text := with_textContent in
  let upside := modelUpside (weighted_average vr) sd in
  [ ("status-message", banner "Valuation calculation completed" "success");
    (* the result rows *)
    ("fcfe-result", text (formatCurrency (shareValue (vr_fcfe vr))));
    ("fcfe-diff", shownDiff (modelUpside (shareValue (vr_fcfe vr)) sd));
    ("fcff-result", text (formatCurrency (shareValue (vr_fcff vr))));
    ("fcff-diff", shownDiff (modelUpside (shareValue (vr_fcff vr)) sd));
    ("pe-result", text (formatCurrency (vr_justified_pe vr)));
    ("pe-diff", shownDiff (modelUpside (vr_justified_pe vr) sd));
    ("pb-result", text (formatCurrency (vr_justified_pb vr)));
    ("pb-diff", shownDiff (modelUpside (vr_justified_pb vr) sd));
    ("weighted-result", text (formatCurrency (weighted_average vr)));
    ("weighted-diff", shownDiff upside);
    (* the summary *)
    ("target-price", text (formatCurrency (weighted_average vr)));
    ("summary-potential", text [toFixed upside 1; Lit "%"]);
    ("return-value", text [toFixed upside 1; Lit "%"]);
    (* the details of the models *)
    ("fcfe-equity", text (formatCurrency (JNum (equityValue (vr_fcfe vr)))));
    ("fcfe-share-value", text (formatCurrency (shareValue (vr_fcfe vr))));
    ("fcfe-market-diff", text (signedText (modelUpside (shareValue (vr_fcfe vr)) sd)));
    ("fcff-ev",
     text (formatCurrency
             (JNum (equityValue (vr_fcff vr)
                    + ToNumber (or_else (num_field sd "total_debt") (JNum 0)))%float)));
    ("fcff-equity", text (formatCurrency (JNum (equityValue (vr_fcff vr)))));
    ("fcff-share-value", text (formatCurrency (shareValue (vr_fcff vr))));
    ("fcff-market-diff", text (signedText (modelUpside (shareValue (vr_fcff vr)) sd)));
    ("pe-justified-ratio",
     text [toFixed (justifiedRatio (vr_justified_pe vr) (detailEps fd sd)) 2; Lit "x"]);
    ("pe-current-eps", text (formatCurrency (detailEps fd sd)));
    ("pe-share-value", text (formatCurrency (vr_justified_pe vr)));
    ("pe-market-diff", text (signedText (modelUpside (vr_justified_pe vr) sd)));
    ("pb-justified-ratio",
     text [toFixed (justifiedRatio (vr_justified_pb vr) (detailBvps sd)) 2; Lit "x"]);
    ("pb-current-bvps", text (formatCurrency (detailBvps sd)));
    ("pb-share-value", text (formatCurrency (vr_justified_pb vr)));
    ("pb-market-diff", text (signedText (modelUpside (vr_justified_pb vr) sd)));
    (* the recommendation *)
    ("recommendation",
     text (spanText (shownRecommendation vr sd).2 (shownRecommendation vr sd).1));
    ("final-recommendation",
     text (spanText (shownRecommendation vr sd).2 (shownRecommendation vr sd).1));
    ("recommendation-reasoning", text (heldReasoning vr sd));
    ("confidence-level",
     text [Lit (str_or_else (match summary vr with
                             | Some sm => confidence sm
                             | None => None
                             end) "--")]);
    (* the export button *)
    ("export-report-btn", with_disabled false) ].

(** The page is opened but the chart library did not load: the constructor
    stops in [setupCharts], once the handlers are registered and the
    assumptions shown, and no chart exists. *)
Definition openedWithoutCharts : App :=
  after loadDefaultAssumptions (constructed index_html).

(** The results held, if any, can be shown: the stock data are there, and a
    market comparison comes with its recommendation. *)
Definition heldShowable (s : App) : Prop :=
  match valuationResults s with
  | Some vr => is_Some (stockData s) /\ recommendationOk vr = true
  | None => True
  end.

(** The weight total as [updateTotalWeight()] shows it: the sum with one
    decimal, and the class that says whether it is within 0.1 of 100. *)
Definition shownTotal (w : ModelWeights) (e : Element) : Element :=
  let total := (fcfe w + fcff w + justified_pe w + justified_pb w)%float in
  with_className (if (abs (total - 100) <? 0.1)%float then "weight-total-correct"
                  else "weight-total-incorrect")
    (with_textContent [toFixed total 1] e).

(** The weights after an input event of the element [sliderId]. *)
Definition withWeight (sliderId : string) (v : float) (w : ModelWeights) : ModelWeights :=
  {| fcfe := if String.eqb sliderId "fcfe-weight" then v else fcfe w;
     fcff := if String.eqb sliderId "fcff-weight" then v else fcff w;
     justified_pe := if String.eqb sliderId "pe-weight" then v else justified_pe w;
     justified_pb := if String.eqb sliderId "pb-weight" then v else justified_pb w |}.

(** ** The session as the user drives it *)

(** What the user does on the page, as [setupEventListeners()] wires it to
    the methods, together with what the server answers where a request is
    sent: the load button (or Enter in the symbol field), the calculate and
    reset buttons, an edit of the assumptions form, a move of a weight
    slider, the normalize button.  The tabs, the theme toggle and the export
    button are not part of the model. *)
Inductive Action :=
| Load (input : string) (stock : Fetched StockData) (chart : Fetched ChartData)
| Calculate (answer : Fetched EngineResult)
| ResetAssumptions
| EditAssumptions (form : Assumptions)
| MoveSlider (event : InputEvent)
| NormalizeWeights.

Definition listener (a : Action) : M unit :=
  match a with
  | Load input stock chart => loadStockData input stock chart
  | Calculate answer => calculateValuation answer
  | ResetAssumptions => resetAssumptions
  | EditAssumptions form => updateAssumptions form
  | MoveSlider event => updateModelWeights event
  | NormalizeWeights => normalizeWeights
  end.

(** The state after a sequence of actions, each listener running to its end
    before the next event is handled: the waits of the two asynchronous
    methods are not interleaved with other events.  An exception that
    escapes a listener ends that listener only: the next event is handled on
    the state it left. *)
Definition sessionAfter (l : list Action) (s : App) : App :=
  fold_left (fun s a => after (listener a) s) l s.

(** The two listeners that end by showing the held results again. *)
Definition changesWeights (a : Action) : bool :=
  match a with
  | MoveSlider _ | NormalizeWeights => true
  | _ => false
  end.

(** The held results carry a market comparison without a recommendation. *)
Definition lacksRecommendation (s : App) : bool :=
  match valuationResults s with
  | Some vr => negb (recommendationOk vr)
  | None => false
  end.

(** What holds between two events: the page has its elements, both charts
    exist with their datasets, and either a symbol is loaded together with
    its market data, or nothing is held at all. *)
Definition consistent (s : App) : Prop :=
  has_ids page_ids (document s) = true /\
  chartsOk (charts s) = true /\
  match currentStock s with
  | Some sym => sym <> "" /\ is_Some (stockData s)
  | None => stockData s = None /\ historicalData s = None /\ valuationResults s = None
  end.

(** The start of a session: VCB is loaded, then valued with the answer
    given. *)
Definition sampleSession (answer : EngineResult) : list Action :=
  [Load "vcb" (Responded true 200 (Some sampleStock)) (Responded false 404 None);
   Calculate (Responded true 200 (Some answer))].


(** ** The theme *)

(** The [data-theme] attribute of the document element and the [theme] item
    of the local storage, absent or a string. *)
Record Theme := {
  dataTheme : option string;
  storedTheme : option string
}.

(** [setupThemeToggle()], up to the registration of the click listener:
    the stored theme, or light, becomes the attribute. *)
Definition setupThemeToggle (t : Theme) : Theme :=
  let currentTheme := str_or_else (storedTheme t) "light" in
  {| dataTheme := Some currentTheme; storedTheme := storedTheme t |}.

(** The click listener of the theme button. *)
Definition toggleTheme (t : Theme) : Theme :=
  let current := dataTheme t in
  let newTheme :=
    match current with
    | Some c => if String.eqb c "light" then "dark" else "light"
    | None => "light"
    end in
  {| dataTheme := Some newTheme; storedTheme := Some newTheme |}.

(** * Facts about binary64 arithmetic

    Proved from the specification of the primitive operations
    (Stdlib's FloatAxioms over SpecFloat). *)

Module Binary64.

Local Open Scope Z_scope.

Lemma digits2_pos_bounds m :
  2 ^ (Zpos (digits2_pos m) - 1) <= Zpos m < 2 ^ Zpos (digits2_pos m).
Proof.
  induction m as [p IH|p IH|]; cbn [digits2_pos].
  - rewrite Pos2Z.inj_succ.
    replace (Z.succ (Zpos (digits2_pos p)) - 1) with (Z.succ (Zpos (digits2_pos p) - 1)) by lia.
    rewrite !Z.pow_succ_r by lia. lia.
  - rewrite Pos2Z.inj_succ.
    replace (Z.succ (Zpos (digits2_pos p)) - 1) with (Z.succ (Zpos (digits2_pos p) - 1)) by lia.
    rewrite !Z.pow_succ_r by lia. lia.
  - cbn. lia.
Qed.

Lemma iter_xO_mul m d : Zpos (Pos.iter xO m d) = Zpos m * 2 ^ Zpos d.
Proof.
  revert m. induction d as [|d IH] using Pos.peano_ind; intros m.
  - cbn. lia.
  - rewrite Pos.iter_succ, Pos2Z.inj_succ, Z.pow_succ_r by lia. specialize (IH m). lia.
Qed.

Lemma digits2_iter_xO m d :
  Zpos (digits2_pos (Pos.iter xO m d)) = Zpos (digits2_pos m) + Zpos d.
Proof.
  revert m. induction d as [|d IH] using Pos.peano_ind; intros m.
  - cbn. lia.
  - rewrite Pos.iter_succ. cbn [digits2_pos]. rewrite Pos2Z.inj_succ, IH. lia.
Qed.

(** shl_align keeps the value, and lowers the exponent to [e'] when [e' <= e]. *)
Lemma shl_align_spec m e e' :
  e' <= e ->
  Zpos (fst (shl_align m e e')) = Zpos m * 2 ^ (e - e') /\ snd (shl_align m e e') = e'.
Proof.
  intros H. unfold shl_align.
  destruct (e' - e) as [|p|p] eqn:E; cbn [fst snd].
  - replace (e - e') with 0 by lia. split; lia.
  - lia.
  - rewrite iter_xO_mul. replace (e - e') with (Zpos p) by lia. split; lia.
Qed.

Lemma shl_align_digits m e e' :
  Zpos (digits2_pos (fst (shl_align m e e'))) + snd (shl_align m e e') = Zpos (digits2_pos m) + e.
Proof.
  unfold shl_align. destruct (e' - e) as [|p|p] eqn:E; cbn [fst snd]; try lia.
  rewrite digits2_iter_xO. lia.
Qed.

Lemma shr_snd mrs e n : snd (shr mrs e n) = Z.max e (e + n).
Proof. unfold shr. destruct n; cbn [snd]; lia. Qed.

Lemma binary_round_aux_exponent s m e l s' m' e' :
  binary_round_aux prec emax s m e l = S754_finite s' m' e' ->
  Zdigits2 m + e - prec <= e'.
Proof.
  unfold binary_round_aux, shr_fexp.
  destruct (shr _ e _) as [mrs1 e1] eqn:E1.
  destruct (shr _ e1 _) as [mrs2 e2] eqn:E2.
  apply (f_equal snd) in E1, E2. rewrite shr_snd in E1, E2. cbn [snd] in E1, E2.
  destruct (shr_m mrs2); try discriminate.
  destruct (e2 <=? emax - prec); try discriminate.
  intros [= _ _ <-]. unfold fexp in *. lia.
Qed.

Lemma binary_round_exponent s m e s' m' e' :
  binary_round prec emax s m e = S754_finite s' m' e' ->
  Zpos (digits2_pos m) + e - prec <= e'.
Proof.
  unfold binary_round.
  pose proof (shl_align_digits m e (fexp prec emax (Zpos (digits2_pos m) + e))) as D.
  destruct (shl_align m e _) as [mz ez]. cbn [fst snd] in D.
  intros H. apply binary_round_aux_exponent in H. cbn [Zdigits2] in H. lia.
Qed.

Lemma fexp_eq z : fexp prec emax z = Z.max (z - 53) (-1074).
Proof. reflexivity. Qed.

(** A mantissa of at most 43 bits at exponent -46 is representable: rounding
    only shifts it up to 53 bits. *)
Lemma binary_round_small s m :
  Zpos (digits2_pos m) <= 43 ->
  exists p, Zpos p = 53 - Zpos (digits2_pos m) /\
    binary_round prec emax s m (-46) =
      S754_finite s (Pos.iter xO m p) (Zpos (digits2_pos m) - 99).
Proof.
  intros Hd. set (d := Zpos (digits2_pos m)) in *.
  assert (0 < d) by (unfold d; lia).
  unfold binary_round. rewrite fexp_eq. fold d.
  replace (Z.max (d + -46 - 53) (-1074)) with (d - 99) by lia.
  unfold shl_align.
  destruct (d - 99 - -46) as [|p|p] eqn:E; try lia.
  exists p. split; [lia|].
  unfold binary_round_aux, shr_fexp. cbn [Zdigits2].
  rewrite digits2_iter_xO. fold d. rewrite fexp_eq.
  replace (Z.max (d + Zpos p + (d - 99) - 53) (-1074) - (d - 99)) with 0 by lia.
  cbn [shr shr_record_of_loc shr_m loc_of_shr_record round_nearest_even Zdigits2].
  rewrite digits2_iter_xO. fold d. rewrite fexp_eq.
  replace (Z.max (d + Zpos p + (d - 99) - 53) (-1074) - (d - 99)) with 0 by lia.
  cbn [shr shr_record_of_loc shr_m].
  replace (d - 99 <=? emax - prec) with true; [reflexivity|].
  symmetry. apply Z.leb_le. unfold emax, prec. lia.
Qed.

Lemma Prim2SF_100 : Prim2SF 100 = S754_finite false m100 (-46).
Proof. vm_compute. reflexivity. Qed.

Lemma Prim2SF_tenth : Prim2SF 0.1 = S754_finite false mTenth (-56).
Proof. vm_compute. reflexivity. Qed.

Lemma bounded_spec m e :
  bounded prec emax m e = true ->
  e = Z.max (Zpos (digits2_pos m) + e - 53) (-1074) /\ e <= 971.
Proof.
  unfold bounded, canonical_mantissa. rewrite andb_true_iff, fexp_eq.
  intros [H1 H2]. apply Z.eqb_eq in H1. apply Z.leb_le in H2.
  unfold emax, prec in H2. lia.
Qed.

(** No binary64 number is at distance exactly 0.1 (the binary64 number
    nearest to one tenth) of 100. *)
Lemma sub_100_finite_ne_tenth sx mx ex s :
  bounded prec emax mx ex = true ->
  SF64sub (S754_finite sx mx ex) (S754_finite false m100 (-46))
    <> S754_finite s mTenth (-56).
Proof.
  intros Hb. apply bounded_spec in Hb as [Hc He].
  pose proof (digits2_pos_bounds mx) as Hmx.
  remember (Zpos (digits2_pos mx)) as dx eqn:Edx.
  unfold SF64sub, SFsub. cbv zeta.
  remember (Z.min ex (-46)) as ez eqn:Eez.
  destruct (shl_align_spec mx ex ez ltac:(lia)) as [HA _].
  destruct (shl_align_spec m100 (-46) ez ltac:(lia)) as [HB _].
  remember (Zpos (fst (shl_align mx ex ez))) as A eqn:EA.
  remember (Zpos (fst (shl_align m100 (-46) ez))) as B eqn:EB.
  clear EA EB. unfold m100 in HB.
  (* the exact difference, as an integer multiple of 2^ez *)
  unfold binary_normalize.
  destruct (cond_Zopp sx A - cond_Zopp false B) as [|pz|pz] eqn:Emz;
    [discriminate| |]; cbn [cond_Zopp] in Emz.
  all: intros Habs; pose proof (binary_round_exponent _ _ _ _ _ _ Habs) as Hexp;
       unfold prec in Hexp;
       pose proof (digits2_pos_bounds pz) as Hpz;
       remember (Zpos (digits2_pos pz)) as dz eqn:Edz;
       assert (Hdz : dz + ez <= -3) by lia;
       assert (Hlt : Zpos pz < 2 ^ (-3 - ez))
         by (eapply Z.lt_le_trans; [apply Hpz|apply Z.pow_le_mono_r; lia]).
  all: assert (Hdx : dx <= 53) by lia.
  all: assert (Hmx53 : Zpos mx < 2 ^ 53)
         by (eapply Z.lt_le_trans; [apply Hmx|apply Z.pow_le_mono_r; lia]).
  all: change (2 ^ 53) with 9007199254740992 in Hmx53.
  all: destruct (Z.lt_trichotomy ex (-46)) as [Hex|[Hex|Hex]].
  (* below 64 in magnitude: the difference is at least 36 *)
  1,4: assert (Hez : ez = ex) by lia; clear Eez; subst ez;
       replace (ex - ex) with 0 in HA by lia;
       assert (HP : 2 ^ 1 <= 2 ^ (-46 - ex)) by (apply Z.pow_le_mono_r; lia);
       replace (-3 - ex) with (43 + (-46 - ex)) in Hlt by lia;
       rewrite Z.pow_add_r in Hlt by lia;
       change (2 ^ 43) with 8796093022208 in Hlt;
       change (2 ^ 1) with 2 in HP; change (2 ^ 0) with 1 in HA;
       remember (2 ^ (-46 - ex)) as P eqn:EP; clear EP;
       destruct sx; cbn [cond_Zopp] in Emz; lia.
  (* at least 128 in magnitude: the difference is at least 28 *)
  2,4: assert (Hez : ez = -46) by lia; clear Eez; subst ez;
       replace (-46 - -46) with 0 in HB by lia;
       assert (Hd53 : dx = 53) by lia;
       rewrite Hd53 in Hmx;
       assert (HP : 2 ^ 1 <= 2 ^ (ex - -46)) by (apply Z.pow_le_mono_r; lia);
       change (2 ^ (-3 - -46)) with 8796093022208 in Hlt;
       change (2 ^ (53 - 1)) with 4503599627370496 in Hmx;
       change (2 ^ 1) with 2 in HP; change (2 ^ 0) with 1 in HB;
       remember (2 ^ (ex - -46)) as P eqn:EP; clear EP;
       destruct sx; cbn [cond_Zopp] in Emz; nia.
  (* between 64 and 128: the difference is exact *)
  all: assert (Hez : ez = -46) by lia; clear Eez; subst ez ex.
  all: assert (Hsmall : Zpos (digits2_pos pz) <= 43) by (rewrite <- Edz; lia).
  all: destruct (binary_round_small
                   ltac:(match type of Habs with
                         | binary_round _ _ ?b _ _ = _ => exact b end)
                   pz Hsmall) as (p & Hp & Hr);
       rewrite Hr in Habs.
  all: pose proof (f_equal (fun x => match x with
                                     | S754_finite _ m _ => m
                                     | _ => xH
                                     end) Habs) as Hm;
       pose proof (f_equal (fun x => match x with
                                     | S754_finite _ _ e => e
                                     | _ => 0
                                     end) Habs) as Hd;
       cbv beta iota in Hm, Hd.
  all: assert (p = 10%positive) by lia; subst p.
  all: cbn in Hm; unfold mTenth in Hm; discriminate.
Qed.


Lemma SFeqb_tenth x :
  SFeqb (SFabs x) (S754_finite false mTenth (-56)) = true ->
  exists s, x = S754_finite s mTenth (-56).
Proof.
  destruct x as [s|s| |s m e]; try discriminate.
  unfold SFeqb, SFcompare, SFabs.
  destruct (Z.compare e (-56)) eqn:Ez; try discriminate.
  destruct (Pos.compare_cont Eq m mTenth) eqn:Em; try discriminate.
  intros _. apply Z.compare_eq in Ez. apply Pos.compare_eq in Em.
  subst. exists s. reflexivity.
Qed.

Theorem deviation_never_tenth (t : float) :
  (abs (t - 100) =? 0.1)%float = false.
Proof.
  apply not_true_is_false. intros H.
  rewrite FloatAxioms.eqb_spec, abs_spec, sub_spec, Prim2SF_100, Prim2SF_tenth in H.
  apply SFeqb_tenth in H as [s H].
  pose proof (Prim2SF_valid t) as Hv.
  destruct (Prim2SF t) as [sx|sx| |sx mx ex].
  - destruct sx; discriminate.
  - discriminate.
  - discriminate.
  - revert H. apply sub_100_finite_ne_tenth. exact Hv.
Qed.

(** Rounding a non-negative integer never gives NaN. *)
Lemma iter_pos_invariant {A} (P : A -> Prop) (f : A -> A) :
  (forall x, P x -> P (f x)) -> forall n x, P x -> P (SpecFloat.iter_pos f n x).
Proof.
  intros Hf. induction n as [n IH|n IH|]; intros x Hx; cbn; auto.
Qed.

Lemma shr_1_nonneg mrs : 0 <= shr_m mrs -> 0 <= shr_m (shr_1 mrs).
Proof.
  destruct mrs as [m r s]. cbn [shr_m shr_1].
  destruct m as [|[p|p|]|p]; cbn [shr_m]; lia.
Qed.

Lemma shr_nonneg mrs e n : 0 <= shr_m mrs -> 0 <= shr_m (fst (shr mrs e n)).
Proof.
  intros H. unfold shr. destruct n; cbn [fst]; auto.
  apply (iter_pos_invariant (fun x => 0 <= shr_m x)); auto using shr_1_nonneg.
Qed.

Lemma shr_fexp_nonneg m e l : 0 <= m -> 0 <= shr_m (fst (shr_fexp prec emax m e l)).
Proof.
  intros H. unfold shr_fexp. apply shr_nonneg. destruct l as [|[]]; exact H.
Qed.

Lemma round_nearest_even_nonneg m l : 0 <= m -> 0 <= round_nearest_even m l.
Proof. intros H. unfold round_nearest_even. destruct l as [|[]]; try destruct (Z.even m); lia. Qed.

Lemma binary_round_aux_not_nan s m e l :
  0 <= m -> binary_round_aux prec emax s m e l <> S754_nan.
Proof.
  intros H. unfold binary_round_aux.
  pose proof (shr_fexp_nonneg m e l H) as H1.
  destruct (shr_fexp prec emax m e l) as [mrs1 e1]. cbn [fst] in H1.
  pose proof (shr_fexp_nonneg _ e1 loc_Exact
                (round_nearest_even_nonneg _ (loc_of_shr_record mrs1) H1)) as H2.
  destruct (shr_fexp prec emax _ e1 loc_Exact) as [mrs2 e2]. cbn [fst] in H2.
  destruct (shr_m mrs2); try lia; try discriminate.
  destruct (e2 <=? emax - prec); discriminate.
Qed.

Lemma binary_round_aux_sign s m e l :
  0 <= m ->
  match binary_round_aux prec emax s m e l with
  | S754_zero s' | S754_infinity s' | S754_finite s' _ _ => s' = s
  | S754_nan => False
  end.
Proof.
  intros H. pose proof (binary_round_aux_not_nan s m e l H) as Hn.
  revert Hn. unfold binary_round_aux.
  destruct (shr_fexp prec emax m e l) as [mrs1 e1].
  destruct (shr_fexp prec emax _ e1 loc_Exact) as [mrs2 e2].
  destruct (shr_m mrs2); try congruence.
  destruct (e2 <=? emax - prec); congruence.
Qed.

Lemma binary_normalize_sign m e :
  match binary_normalize prec emax m e false with
  | S754_zero s' => True
  | S754_infinity s' | S754_finite s' _ _ => s' = (m <? 0)
  | S754_nan => False
  end.
Proof.
  unfold binary_normalize, binary_round.
  destruct m as [|p|p]; [exact I| |];
    destruct (shl_align p e _) as [mz ez];
    pose proof (binary_round_aux_sign (Z.neg p <? 0) (Zpos mz) ez loc_Exact ltac:(lia)) as H;
    pose proof (binary_round_aux_sign (Z.pos p <? 0) (Zpos mz) ez loc_Exact ltac:(lia)) as H';
    cbn in H, H'.
  - destruct (binary_round_aux prec emax false (Z.pos mz) ez loc_Exact); auto.
  - destruct (binary_round_aux prec emax true (Z.pos mz) ez loc_Exact); auto.
Qed.

Lemma leb_0_nonneg (x : float) : (0 <=? x)%float = true -> nonneg (Prim2SF x) = true.
Proof.
  rewrite leb_spec. change (Prim2SF 0) with (S754_zero false).
  unfold SFleb, SFcompare. destruct (Prim2SF x) as [s|[]| |[] m e]; try discriminate; reflexivity.
Qed.

Lemma SFadd_nonneg x y :
  nonneg x = true -> nonneg y = true -> nonneg (SF64add x y) = true.
Proof.
  destruct x as [sx|[]| |[] mx ex]; try discriminate;
  destruct y as [sy|[]| |[] my ey]; try discriminate; intros _ _; try reflexivity.
  - destruct sx, sy; reflexivity.
  - unfold SF64add, SFadd. cbv zeta. cbn [cond_Zopp].
    match goal with |- context [binary_normalize _ _ ?m ?e _] =>
      pose proof (binary_normalize_sign m e) as H;
      assert (Hm : (m <? 0) = false) by (apply Z.ltb_ge; lia);
      rewrite Hm in H;
      destruct (binary_normalize prec emax m e false) as [s|s| |s ? ?]
    end; try subst s; try reflexivity; contradiction.
Qed.

Lemma nonneg_not_nan (x : float) : nonneg (Prim2SF x) = true -> is_nan x = false.
Proof.
  unfold is_nan. rewrite FloatAxioms.eqb_spec. unfold SFeqb, SFcompare.
  destruct (Prim2SF x) as [s|[]| |[] m e]; try discriminate; intros _; try reflexivity.
  rewrite Z.compare_refl, Pos.compare_cont_refl. reflexivity.
Qed.

Local Open Scope float_scope.

Lemma SFcompare_antisym x y :
  SFcompare y x = option_map CompOpp (SFcompare x y).
Proof.
  destruct x as [sx|sx| |sx mx ex], y as [sy|sy| |sy my ey]; cbn;
    try destruct sx; try destruct sy; try reflexivity.
  all: rewrite (Z.compare_antisym ex ey); destruct (Z.compare ex ey); cbn; try reflexivity.
  all: pose proof (Pos.compare_cont_antisym mx my Eq) as H; cbn [CompOpp] in H;
       rewrite <- H; try rewrite CompOpp_involutive; reflexivity.
Qed.

Lemma is_nan_spec x : is_nan x = true <-> Prim2SF x = S754_nan.
Proof.
  unfold is_nan. rewrite FloatAxioms.eqb_spec. unfold SFeqb, SFcompare.
  destruct (Prim2SF x) as [s|[]| |[] m e]; cbn; try (split; [discriminate|discriminate]);
    try (split; reflexivity).
  all: rewrite Z.compare_refl, Pos.compare_cont_refl; cbn; split; discriminate.
Qed.

Lemma leb_ltb_eqb x y : (x <=? y) = (x <? y) || (x =? y).
Proof.
  rewrite FloatAxioms.leb_spec, FloatAxioms.ltb_spec, FloatAxioms.eqb_spec.
  unfold SFleb, SFltb, SFeqb. destruct (SFcompare _ _) as [[]|]; reflexivity.
Qed.

(** For numbers, [not (x < y)] is [y <= x]. *)
Lemma ltb_negb_leb x y :
  is_nan x = false -> is_nan y = false -> negb (x <? y) = (y <=? x).
Proof.
  intros Hx Hy.
  assert (Hx' : Prim2SF x <> S754_nan) by (intros E; apply is_nan_spec in E; congruence).
  assert (Hy' : Prim2SF y <> S754_nan) by (intros E; apply is_nan_spec in E; congruence).
  rewrite FloatAxioms.leb_spec, FloatAxioms.ltb_spec. unfold SFleb, SFltb.
  rewrite (SFcompare_antisym (Prim2SF x) (Prim2SF y)).
  destruct (SFcompare (Prim2SF x) (Prim2SF y)) as [[]|] eqn:E; try reflexivity.
  exfalso. revert E. unfold SFcompare.
  destruct (Prim2SF x) as [?|[]| |[] ? ?], (Prim2SF y) as [?|[]| |[] ? ?];
    try discriminate; congruence.
Qed.

(** Subtracting a finite number from a number gives a number. *)
Lemma SFsub_finite_not_nan x s m e :
  x <> S754_nan -> SF64sub x (S754_finite s m e) <> S754_nan.
Proof.
  intros Hx. unfold SF64sub, SFsub.
  destruct x as [sx|sx| |sx mx ex]; try discriminate; try congruence.
  cbv zeta.
  match goal with |- binary_normalize _ _ ?mz ?ez _ <> _ =>
    pose proof (binary_normalize_sign mz ez) as H;
    destruct (binary_normalize prec emax mz ez false)
  end; try discriminate; contradiction.
Qed.

Lemma deviation_is_number (t : float) :
  is_nan t = false -> is_nan (abs (t - 100)) = false.
Proof.
  intros Ht. apply not_true_is_false. intros H. apply is_nan_spec in H.
  rewrite abs_spec, sub_spec, Prim2SF_100 in H.
  assert (Hn : Prim2SF t <> S754_nan) by (intros E; apply is_nan_spec in E; congruence).
  pose proof (SFsub_finite_not_nan (Prim2SF t) false m100 (-46) Hn) as Hs.
  destruct (SF64sub (Prim2SF t) (S754_finite false m100 (-46))); try discriminate.
  congruence.
Qed.

(** The two thresholds exclude each other. *)
Lemma above_15_not_below (u : float) : (15 <? u) = true -> (u <? -15) = false.
Proof.
  rewrite !FloatAxioms.ltb_spec.
  replace (Prim2SF 15) with (S754_finite false 8444249301319680 (-49)) by (vm_compute; reflexivity).
  replace (Prim2SF (-15)) with (S754_finite true 8444249301319680 (-49)) by (vm_compute; reflexivity).
  unfold SFltb, SFcompare.
  destruct (Prim2SF u) as [s|s| |s m e]; try destruct s; congruence.
Qed.

(** Division by zero: the quotient of the difference. *)
Lemma upside_zero_price (x : float) :
  Prim2SF ((x - 0) / 0 * 100) =
    match Prim2SF x with
    | S754_zero _ | S754_nan => S754_nan
    | S754_infinity s | S754_finite s _ _ => S754_infinity s
    end.
Proof.
  rewrite mul_spec, div_spec, sub_spec.
  change (Prim2SF 0) with (S754_zero false).
  replace (Prim2SF 100) with (S754_finite false m100 (-46)) by (vm_compute; reflexivity).
  destruct (Prim2SF x) as [[]|[]| |[] m e]; reflexivity.
Qed.

(** Dividing a number by a finite number other than zero gives a number:
    the quotient of the mantissas is not negative, so rounding it cannot
    fail. *)
Lemma SFdiv_finite_not_nan x s m e :
  x <> S754_nan -> SF64div x (S754_finite s m e) <> S754_nan.
Proof.
  intros Hx. unfold SF64div, SFdiv.
  destruct x as [sx|sx| |sx mx ex]; try discriminate; try congruence.
  unfold SFdiv_core_binary. cbv zeta.
  match goal with |- context [Z.div_eucl ?a ?b] =>
    assert (Ha : (0 <= a)%Z);
    [|pose proof (Z.div_pos a b Ha ltac:(lia)) as Hq; unfold Z.div in Hq;
      destruct (Z.div_eucl a b) as [q r]]
  end.
  - match goal with |- context [match ?z with Z0 => _ | _ => _ end] => destruct z end;
      try lia. apply Z.shiftl_nonneg. lia.
  - apply binary_round_aux_not_nan. exact Hq.
Qed.

(** So does multiplying a number by a finite number other than zero. *)
Lemma SFmul_finite_not_nan x s m e :
  x <> S754_nan -> SF64mul x (S754_finite s m e) <> S754_nan.
Proof.
  intros Hx. unfold SF64mul, SFmul.
  destruct x as [sx|sx| |sx mx ex]; try discriminate; try congruence.
  apply binary_round_aux_not_nan. lia.
Qed.

Lemma finite_nonzero (c : float) :
  isFinite c = true -> (c =? 0) = false -> exists s m e, Prim2SF c = S754_finite s m e.
Proof.
  unfold isFinite. rewrite FloatAxioms.eqb_spec.
  change (Prim2SF 0) with (S754_zero false).
  destruct (Prim2SF c) as [s|s| |s m e]; try discriminate; eauto.
Qed.

(** Against a finite price other than zero, the upside of a number is a
    number (it may be infinite, when the quotient overflows). *)
Lemma upside_is_number (t c : float) :
  is_nan t = false -> isFinite c = true -> (c =? 0) = false ->
  is_nan ((t - c) / c * 100) = false.
Proof.
  intros Ht Hf Hz. destruct (finite_nonzero c Hf Hz) as (s & m & e & Hc).
  apply not_true_is_false. intros H. apply is_nan_spec in H. revert H.
  rewrite mul_spec, div_spec, sub_spec, Hc, Prim2SF_100.
  apply SFmul_finite_not_nan, SFdiv_finite_not_nan, SFsub_finite_not_nan.
  intros E. apply is_nan_spec in E. congruence.
Qed.

End Binary64.

(** * Running the methods *)

Lemma lookup_Some_of_is_Some {A} (o : option A) : is_Some o -> exists a, o = Some a.
Proof. intros [a ->]. eauto. Qed.

Lemma has_ids_lookup ids d id :
  has_ids ids d = true -> In id ids -> is_Some (d !! id).
Proof.
  unfold has_ids. rewrite forallb_forall. intros H Hin.
  specialize (H id Hin). apply bool_decide_eq_true in H. exact H.
Qed.

Lemma page_ok_lookup s id :
  page_ok s = true -> In id required_ids -> exists e, document s !! id = Some e.
Proof.
  intros H Hin. apply lookup_Some_of_is_Some. eapply has_ids_lookup; eauto.
Qed.

(** Symbolic execution of a method on a state whose page is known to hold
    the elements written to: the lookups are resolved from the hypotheses
    [document s !! id = Some e], through the writes already made. *)
Ltac exec_step :=
  first
  [ progress unfold bind, ret, gets, modify, throw, deref, try_catch
  | progress cbn [after fst snd
                  document set_document currentStock set_currentStock
                  stockData set_stockData historicalData set_historicalData
                  assumptions set_assumptions modelWeights set_modelWeights
                  valuationResults set_valuationResults charts set_charts
                  requests set_requests
                  fmap option_fmap option_map negb]
  | rewrite lookup_alter_eq
  | rewrite lookup_alter_ne by discriminate
  | match goal with
    | H : ?d !! ?id = Some _ |- context [?d !! ?id] => rewrite H
    | H : ?d !! ?id = None |- context [?d !! ?id] => rewrite H
    | H : valuationResults ?s = _ |- context [valuationResults ?s] => rewrite H
    | H : stockData ?s = _ |- context [stockData ?s] => rewrite H
    | H : currentStock ?s = _ |- context [currentStock ?s] => rewrite H
    | H : modelWeights ?s = _ |- context [modelWeights ?s] => rewrite H
    end ].

Ltac exec := repeat exec_step.

(** Naming the elements a proof needs. *)
Ltac need_element H id e He :=
  destruct (page_ok_lookup _ id H ltac:(cbn; tauto)) as [e He].

Lemma bind_ok {A B} (m : M A) (k : A -> M B) s a :
  (m s).1 = inr a -> bind m k s = k a (after m s).
Proof.
  unfold bind, after. destruct (m s) as [[e|a'] s']; cbn; [discriminate|].
  intros [= ->]. reflexivity.
Qed.

Lemma displayOnly_refl s : displayOnly s s.
Proof. split; [destruct s; reflexivity|tauto]. Qed.

Lemma displayOnly_trans s1 s2 s3 :
  displayOnly s1 s2 -> displayOnly s2 s3 -> displayOnly s1 s3.
Proof.
  intros [E1 D1] [E2 D2]. split.
  - rewrite E2 at 1. rewrite E1 at 1. reflexivity.
  - intros id. rewrite D2. apply D1.
Qed.

Lemma displayOnly_write s d :
  (forall id, is_Some (d !! id) <-> is_Some (document s !! id)) ->
  displayOnly s (set_document d s).
Proof. intros H. split; [reflexivity|exact H]. Qed.

Lemma displayOnly_page_ok s s' : displayOnly s s' -> page_ok s' = page_ok s.
Proof.
  intros [_ D]. unfold page_ok, has_ids.
  induction required_ids as [|id ids IH]; cbn; [reflexivity|].
  rewrite IH. f_equal. apply bool_decide_ext. apply D.
Qed.

Lemma displayOnly_fields s s' :
  displayOnly s s' ->
  currentStock s' = currentStock s /\ stockData s' = stockData s /\
  historicalData s' = historicalData s /\ valuationResults s' = valuationResults s /\
  modelWeights s' = modelWeights s /\ assumptions s' = assumptions s /\
  charts s' = charts s /\ requests s' = requests s.
Proof. intros [E _]. rewrite E. cbn. tauto. Qed.

(** Splitting a conjunction, not what its parts unfold to. *)
Ltac splits := repeat match goal with |- _ /\ _ => split end.

(** The end of a symbolic execution: the state is the initial one with a
    page rewritten by [alter]s. *)
Ltac display_only :=
  split; [reflexivity|];
  intros ?; cbn [document set_document];
  rewrite ?lookup_alter_is_Some; reflexivity.

(** * The statements of the specification *)

Section Aggregator.

Local Open Scope float_scope.

(** ** computeWeightedAverage *)

(** C2. The weighted average is the sum, over the four models in order, of
    the value times the weight taken as a percentage; an absent value,
    whichever model it is and however many are absent, contributes zero; the
    weights are used as given, whatever their total: {50,50,0,0} gives
    105000, equal weights without FCFE give 73750, and weights of 50 each (a
    total of 200) give twice the equal-weight value. *)
Theorem computeWeightedAverage_is_plain_weighted_sum :
  (forall r w,
     computeWeightedAverage r w
     = match mr_fcfe r with Some v => v * (fcfe w / 100) | None => 0 end
       + match mr_fcff r with Some v => v * (fcff w / 100) | None => 0 end
       + match mr_justified_pe r with Some v => v * (justified_pe w / 100) | None => 0 end
       + match mr_justified_pb r with Some v => v * (justified_pb w / 100) | None => 0 end) /\
  (forall vf vff vpe vpb w,
     computeWeightedAverage
       {| mr_fcfe := Some vf; mr_fcff := Some vff;
          mr_justified_pe := Some vpe; mr_justified_pb := Some vpb |} w
     = vf * (fcfe w / 100) + vff * (fcff w / 100)
       + vpe * (justified_pe w / 100) + vpb * (justified_pb w / 100)) /\
  (forall vff vpe vpb w,
     computeWeightedAverage
       {| mr_fcfe := None; mr_fcff := Some vff;
          mr_justified_pe := Some vpe; mr_justified_pb := Some vpb |} w
     = 0 + vff * (fcff w / 100)
       + vpe * (justified_pe w / 100) + vpb * (justified_pb w / 100)) /\
  (forall vf vpe vpb w,
     computeWeightedAverage
       {| mr_fcfe := Some vf; mr_fcff := None;
          mr_justified_pe := Some vpe; mr_justified_pb := Some vpb |} w
     = vf * (fcfe w / 100) + 0
       + vpe * (justified_pe w / 100) + vpb * (justified_pb w / 100)) /\
  (forall vf vff vpb w,
     computeWeightedAverage
       {| mr_fcfe := Some vf; mr_fcff := Some vff;
          mr_justified_pe := None; mr_justified_pb := Some vpb |} w
     = vf * (fcfe w / 100) + vff * (fcff w / 100)
       + 0 + vpb * (justified_pb w / 100)) /\
  (forall vf vff vpe w,
     computeWeightedAverage
       {| mr_fcfe := Some vf; mr_fcff := Some vff;
          mr_justified_pe := Some vpe; mr_justified_pb := None |} w
     = vf * (fcfe w / 100) + vff * (fcff w / 100)
       + vpe * (justified_pe w / 100) + 0) /\
  (forall w,
     computeWeightedAverage
       {| mr_fcfe := None; mr_fcff := None;
          mr_justified_pe := None; mr_justified_pb := None |} w
     = 0) /\
  (forall w, contribution None w = 0) /\
  computeWeightedAverage allFour (weights 50 50 0 0) = 105000 /\
  computeWeightedAverage withoutFcfe (weights 25 25 25 25) = 73750 /\
  computeWeightedAverage withoutFcff (weights 25 25 25 25) = 71250 /\
  computeWeightedAverage withoutPe (weights 25 25 25 25) = 76250 /\
  computeWeightedAverage withoutPb (weights 25 25 25 25) = 75000 /\
  computeWeightedAverage allFour (weights 25 25 25 25) = 98750 /\
  computeWeightedAverage allFour (weights 50 50 50 50) = 197500 /\
  computeWeightedAverage allFour (weights 25 25 0 0) = 52500.
Proof.
  splits; reflexivity.
Qed.

(** ** classifyRecommendation *)

(** C3. The local classifier answers BUY exactly when the upside is above
    15, SELL exactly when it is below -15, and HOLD otherwise, each with its
    status and its fixed justification; 15 and -15 themselves give HOLD. *)
Theorem classifyRecommendation_thresholds (u : float) :
  (classifyRecommendation u
     = ("BUY", "positive",
        "Significant undervaluation detected - upside potential above 15%")%string
   <-> (15 <? u) = true) /\
  (classifyRecommendation u
     = ("SELL", "negative",
        "Significant overvaluation detected - downside risk above 15%")%string
   <-> (u <? -15) = true) /\
  (classifyRecommendation u
     = ("HOLD", "neutral",
        "Stock is fairly valued - upside/downside within 15% range")%string
   <-> (15 <? u) = false /\ (u <? -15) = false) /\
  (classifyRecommendation 15).1.1 = "HOLD"%string /\
  (classifyRecommendation (-15)).1.1 = "HOLD"%string.
Proof.
  unfold classifyRecommendation.
  pose proof (Binary64.above_15_not_below u) as Hex.
  destruct (15 <? u) eqn:Hb; [rewrite (Hex eq_refl)|destruct (u <? -15) eqn:Hs].
  all: repeat split; try reflexivity; try discriminate; intros; try tauto.
  all: match goal with H : _ /\ _ |- _ => destruct H; discriminate end.
Qed.

(** ** computeUpsidePercent *)

(** C6. The upside is [(t - c) / c * 100] in binary64 arithmetic, the
    expression the display methods evaluate on the held weighted value and
    the current price: 110000 against 100000 is 10, 90000 against 100000 is
    -10.  For a finite current price other than zero and a target price that
    is a number, the upside is a number. *)
Theorem computeUpsidePercent_formula :
  (forall t c : float, computeUpsidePercent t c = (t - c) / c * 100) /\
  computeUpsidePercent 110000 100000 = 10 /\
  computeUpsidePercent 90000 100000 = -10 /\
  (forall vr sd,
     heldUpside vr sd
     = (ToNumber (weighted_average vr) - ToNumber (num_field sd "current_price"))
       / ToNumber (num_field sd "current_price") * 100) /\
  (forall t c : float,
     is_nan t = false -> isFinite c = true -> (c =? 0) = false ->
     is_nan (computeUpsidePercent t c) = false).
Proof.
  splits; try reflexivity.
  intros t c. apply Binary64.upside_is_number.
Qed.

Lemma computeUpsidePercent_formula_witness :
  is_nan (computeUpsidePercent 110000 100000) = false.
Proof.
  apply (proj2 (proj2 (proj2 (proj2 computeUpsidePercent_formula))) 110000 100000);
    reflexivity.
Defined.

(** ** The formatters *)

(** C10. Zero is formatted as the placeholder, like a missing value, null
    and NaN, by [formatCurrency], [formatNumber] and [formatPercent]. *)
Theorem formatters_show_zero_as_missing :
  forall v, In v [JNum 0; JNum (-0); JUndefined; JNull; JNum nan] ->
    formatCurrency v = [Lit "--"] /\
    formatNumber v = [Lit "--"] /\
    formatPercent v = [Lit "--"].
Proof.
  intros v Hin. cbn in Hin.
  repeat (destruct Hin as [<-|Hin]; [repeat split; reflexivity|]).
  contradiction.
Qed.

Lemma formatters_show_zero_as_missing_witness :
  formatCurrency (JNum 0) = [Lit "--"] /\
  formatNumber (JNum 0) = [Lit "--"] /\
  formatPercent (JNum 0) = [Lit "--"].
Proof.
  apply (formatters_show_zero_as_missing (JNum 0)). cbn. tauto.
Defined.

End Aggregator.

(** * The display methods *)

Section Display.

Local Open Scope float_scope.

Lemma startsWith_spec p s : startsWith p s = true <-> exists b, s = (p ++ b)%string.
Proof.
  revert s. induction p as [|a p IH]; intros s; cbn.
  - split; eauto.
  - destruct s as [|c s]; cbn.
    + split; [discriminate|intros [b Hb]; discriminate].
    + rewrite andb_true_iff, IH. split.
      * intros [Hac [b ->]]. apply Ascii.eqb_eq in Hac. subst. eauto.
      * intros [b Hb]. injection Hb as -> ->. split; [apply Ascii.eqb_refl|eauto].
Qed.

Lemma includes_spec s p : includes s p = true <-> isSubstring p s.
Proof.
  unfold isSubstring. induction s as [|c s IH]; cbn [includes].
  - rewrite orb_false_r, startsWith_spec. split.
    + intros [b ->]. exists ""%string, b. reflexivity.
    + intros (a & b & H). destruct a; [eauto|discriminate].
  - rewrite orb_true_iff, startsWith_spec, IH. split.
    + intros [[b ->]|(a & b & ->)].
      * exists ""%string, b. reflexivity.
      * exists (String c a), b. reflexivity.
    + intros (a & b & H). destruct a as [|c' a].
      * left. eauto.
      * right. injection H as -> ->. eauto.
Qed.

Lemma statusOf_spec r :
  (statusOf r = "positive"%string <-> isSubstring "BUY" r) /\
  (statusOf r = "negative"%string <-> ~ isSubstring "BUY" r /\ isSubstring "SELL" r) /\
  (statusOf r = "neutral"%string <-> ~ isSubstring "BUY" r /\ ~ isSubstring "SELL" r).
Proof.
  unfold statusOf. rewrite <- !includes_spec.
  destruct (includes r "BUY"), (includes r "SELL");
    repeat split; intros; try discriminate; try tauto;
    try (intros ?; discriminate);
    match goal with H : _ /\ _ |- _ => destruct H; try discriminate; tauto end.
Qed.

Lemma updateWeightedResults_run s vr sd :
  valuationResults s = Some vr -> stockData s = Some sd -> page_ok s = true ->
  (updateWeightedResults s).1 = inr tt /\
  displayOnly s (after updateWeightedResults s) /\
  shown "weighted-result" (after updateWeightedResults s)
    = Some (formatCurrency (weighted_average vr)) /\
  shown "weighted-diff" (after updateWeightedResults s)
    = Some (signedPercent (heldUpside vr sd)) /\
  shownClass "weighted-diff" (after updateWeightedResults s)
    = Some (diffClass (heldUpside vr sd)).
Proof.
  intros Hvr Hsd Hok.
  need_element Hok "weighted-result" e1 H1.
  need_element Hok "weighted-diff" e2 H2.
  unfold shown, shownClass, after, updateWeightedResults, setElement,
    safeUpdateElement, heldUpside.
  exec. splits; auto. display_only.
Qed.

Lemma updateRecommendation_run s vr sd :
  valuationResults s = Some vr -> stockData s = Some sd -> page_ok s = true ->
  recommendationOk vr = true ->
  (updateRecommendation s).1 = inr tt /\
  displayOnly s (after updateRecommendation s) /\
  shown "recommendation" (after updateRecommendation s)
    = Some (statusSpan (heldRecommendation vr sd).2 (heldRecommendation vr sd).1) /\
  shown "final-recommendation" (after updateRecommendation s)
    = Some (statusSpan (heldRecommendation vr sd).2 (heldRecommendation vr sd).1) /\
  (forall id, id <> "recommendation"%string -> id <> "final-recommendation"%string ->
     id <> "recommendation-reasoning"%string -> id <> "confidence-level"%string ->
     document (after updateRecommendation s) !! id = document s !! id).
Proof.
  intros Hvr Hsd Hok Hrec.
  need_element Hok "recommendation" e1 H1.
  need_element Hok "final-recommendation" e2 H2.
  unfold recommendationOk, heldRecommendation, heldUpside in *.
  unfold shown, after, updateRecommendation, setElement, safeUpdateElement.
  exec.
  destruct (market_comparison vr) as [mc|].
  - apply bool_decide_eq_true in Hrec. destruct Hrec as [r Hr]. rewrite Hr.
    exec. splits; auto; [display_only|].
    intros id n1 n2 n3 n4. rewrite !lookup_alter_ne by congruence. reflexivity.
  - destruct (classifyRecommendation _) as [[r st] reasoning].
    exec. splits; auto; [display_only|].
    intros id n1 n2 n3 n4. rewrite !lookup_alter_ne by congruence. reflexivity.
Qed.

Lemma updateWeightDisplay_run s :
  page_ok s = true ->
  (updateWeightDisplay s).1 = inr tt /\ displayOnly s (after updateWeightDisplay s).
Proof.
  intros Hok.
  need_element Hok "fcfe-weight-value" e1 H1.
  need_element Hok "fcff-weight-value" e2 H2.
  need_element Hok "pe-weight-value" e3 H3.
  need_element Hok "pb-weight-value" e4 H4.
  unfold after, updateWeightDisplay, setElement.
  exec. splits; auto. display_only.
Qed.

Lemma updateTotalWeight_run s :
  page_ok s = true ->
  (updateTotalWeight s).1 = inr tt /\
  displayOnly s (after updateTotalWeight s) /\
  shown "total-weight" (after updateTotalWeight s)
    = Some [toFixed (totalWeight (modelWeights s)) 1] /\
  shownClass "total-weight" (after updateTotalWeight s)
    = Some (if totalIsCorrect (modelWeights s)
            then "weight-total-correct" else "weight-total-incorrect")%string.
Proof.
  intros Hok.
  need_element Hok "total-weight" e1 H1.
  unfold shown, shownClass, after, updateTotalWeight, setElement, totalIsCorrect.
  exec. destruct (_ <? _); exec; splits; auto; display_only.
Qed.

(** What both weight handlers do once the weights are set: the two weight
    displays, then, if a valuation is held, the weighted results and the
    recommendation. *)
Lemma rerender_run s vr sd :
  valuationResults s = Some vr -> stockData s = Some sd -> page_ok s = true ->
  recommendationOk vr = true ->
  let m := (updateWeightDisplay ;;
            updateTotalWeight ;;
            vr <- gets valuationResults ;;
            match vr with
            | Some _ => updateWeightedResults ;; updateRecommendation
            | None => ret tt
            end) in
  (m s).1 = inr tt /\
  displayOnly s (after m s) /\
  shown "weighted-result" (after m s) = Some (formatCurrency (weighted_average vr)) /\
  shown "weighted-diff" (after m s) = Some (signedPercent (heldUpside vr sd)) /\
  shown "recommendation" (after m s)
    = Some (statusSpan (heldRecommendation vr sd).2 (heldRecommendation vr sd).1).
Proof.
  intros Hvr Hsd Hok Hrec m.
  destruct (updateWeightDisplay_run s Hok) as (R1 & D1).
  set (s1 := after updateWeightDisplay s) in *.
  assert (Hok1 : page_ok s1 = true) by (rewrite (displayOnly_page_ok _ _ D1); exact Hok).
  destruct (updateTotalWeight_run s1 Hok1) as (R2 & D2 & _).
  set (s2 := after updateTotalWeight s1) in *.
  pose proof (displayOnly_trans _ _ _ D1 D2) as D12.
  assert (Hok2 : page_ok s2 = true) by (rewrite (displayOnly_page_ok _ _ D12); exact Hok).
  destruct (displayOnly_fields _ _ D12) as (_ & Hsd2 & _ & Hvr2 & _).
  rewrite Hvr in Hvr2. rewrite Hsd in Hsd2.
  destruct (updateWeightedResults_run s2 vr sd Hvr2 Hsd2 Hok2) as (R3 & D3 & W1 & W2 & _).
  set (s3 := after updateWeightedResults s2) in *.
  pose proof (displayOnly_trans _ _ _ D12 D3) as D13.
  assert (Hok3 : page_ok s3 = true) by (rewrite (displayOnly_page_ok _ _ D13); exact Hok).
  destruct (displayOnly_fields _ _ D13) as (_ & Hsd3 & _ & Hvr3 & _).
  rewrite Hvr in Hvr3. rewrite Hsd in Hsd3.
  destruct (updateRecommendation_run s3 vr sd Hvr3 Hsd3 Hok3 Hrec) as (R4 & D4 & W3 & _ & F).
  assert (Hm : m s = updateRecommendation s3).
  { subst m. rewrite (bind_ok _ _ _ _ R1). fold s1.
    rewrite (bind_ok _ _ _ _ R2). fold s2.
    unfold bind at 1, gets at 1. rewrite Hvr2.
    rewrite (bind_ok _ _ _ _ R3). reflexivity. }
  unfold after. rewrite Hm. fold (after updateRecommendation s3).
  splits.
  - exact R4.
  - exact (displayOnly_trans _ _ _ D13 D4).
  - unfold shown in *. rewrite F by discriminate. exact W1.
  - unfold shown in *. rewrite F by discriminate. exact W2.
  - exact W3.
Qed.

Lemma showStatus_run msg type s :
  page_ok s = true ->
  (showStatus msg type s).1 = inr tt /\ displayOnly s (after (showStatus msg type) s).
Proof.
  intros Hok. need_element Hok "status-message" e1 H1.
  unfold after, showStatus, setElement. exec. splits; auto. display_only.
Qed.

Lemma showLoading_run show s :
  page_ok s = true ->
  (showLoading show s).1 = inr tt /\ displayOnly s (after (showLoading show) s).
Proof.
  intros Hok. need_element Hok "load-data-btn" e1 H1.
  unfold after, showLoading, setElement.
  destruct show; exec; splits; auto; display_only.
Qed.

Lemma safeUpdateEach_run l s :
  safeUpdateEach l s = (inr tt, set_document (writeEach l (document s)) s).
Proof.
  revert s. induction l as [|[id v] l IH]; intros s.
  - destruct s; reflexivity.
  - cbn [safeUpdateEach fold_right]. unfold bind at 1, safeUpdateElement, modify.
    fold (safeUpdateEach l). rewrite IH. reflexivity.
Qed.

Lemma writeEach_is_Some l d id : is_Some (writeEach l d !! id) <-> is_Some (d !! id).
Proof.
  revert d. induction l as [|[id' v] l IH]; intros d; cbn; [tauto|].
  unfold writeEach in IH. rewrite IH, lookup_alter_is_Some. tauto.
Qed.

(** [clearDisplay] returns, drops the held results and touches nothing else
    but the page. *)
Lemma clearDisplay_run s :
  page_ok s = true ->
  exists d,
    clearDisplay s = (inr tt, set_valuationResults None (set_document d s)) /\
    forall id, is_Some (d !! id) <-> is_Some (document s !! id).
Proof.
  intros Hok.
  unfold clearDisplay. unfold bind at 1. rewrite safeUpdateEach_run.
  match goal with |- context [writeEach ?l (document s)] =>
    remember (writeEach l (document s)) as d eqn:Ed
  end.
  assert (Hd : forall id, is_Some (d !! id) <-> is_Some (document s !! id))
    by (intros id; subst d; apply writeEach_is_Some).
  clear Ed.
  assert (Hin : forall id, In id required_ids -> exists e, d !! id = Some e).
  { intros id Hid. apply lookup_Some_of_is_Some, Hd.
    destruct (page_ok_lookup s id Hok Hid) as [e ->]. eauto. }
  destruct (Hin "recommendation"%string ltac:(cbn; tauto)) as [e1 H1].
  destruct (Hin "final-recommendation"%string ltac:(cbn; tauto)) as [e2 H2].
  destruct (Hin "export-report-btn"%string ltac:(cbn; tauto)) as [e3 H3].
  unfold setElement, safeUpdateElement. exec.
  eexists. split; [reflexivity|].
  intros id. rewrite !lookup_alter_is_Some. apply Hd.
Qed.

Lemma displayOnly_of_dom s d :
  (forall id, is_Some (d !! id) <-> is_Some (document s !! id)) ->
  page_ok (set_document d s) = page_ok s.
Proof. intros H. apply displayOnly_page_ok, displayOnly_write, H. Qed.

Lemma clearCharts_session s :
  valuationResults (after clearCharts s) = valuationResults s /\
  currentStock (after clearCharts s) = currentStock s /\
  stockData (after clearCharts s) = stockData s /\
  historicalData (after clearCharts s) = historicalData s /\
  requests (after clearCharts s) = requests s /\
  page_ok (after clearCharts s) = page_ok s.
Proof.
  unfold after, clearCharts. exec.
  destruct (roeRoa (charts s)); exec; [|tauto].
  destruct (liquidity (charts s)); exec; tauto.
Qed.

Lemma finally_after {A} (m : M A) (cleanup : M unit) s :
  after (finally m cleanup) s = after cleanup (after m s).
Proof.
  unfold after, finally. destruct (m s) as [r s1]. cbn.
  destruct (cleanup s1) as [[e|[]] s2]; reflexivity.
Qed.

Lemma try_catch_throws {A} (body : M A) (handler : Exn -> M A) s e :
  (body s).1 = inl e -> try_catch body handler s = handler e (after body s).
Proof.
  unfold try_catch, after. destruct (body s) as [[e'|a] s1]; cbn; [|discriminate].
  intros [= ->]. reflexivity.
Qed.

(** C4. When the held results carry the engine's recommendation, that
    string is put as it is between the tags of the span assigned to the two
    recommendation elements, and the class of the span carries the status
    given by the substring tests (BUY first, then SELL, neutral otherwise),
    whatever the upside; the local thresholds on the upside are used only
    when the engine gave no market comparison (a market comparison without a
    recommendation raises a TypeError and shows nothing, the thresholds are
    not tried). *)
Theorem engine_recommendation_preferred s vr sd :
  valuationResults s = Some vr -> stockData s = Some sd -> page_ok s = true ->
  let span := fun status r : string =>
    [Lit "<span class="; Quote; Lit ("status status--" ++ status); Quote;
     Lit ">"; Lit r; Lit "</span>"] in
  let price := ToNumber (num_field sd "current_price") in
  let upside := (ToNumber (weighted_average vr) - price) / price * 100 in
  (forall mc r,
     market_comparison vr = Some mc -> recommendation mc = Some r ->
     (updateRecommendation s).1 = inr tt /\
     shown "recommendation" (after updateRecommendation s)
       = Some (span (statusOf r) r) /\
     shown "final-recommendation" (after updateRecommendation s)
       = Some (span (statusOf r) r)) /\
  (market_comparison vr = None ->
     (updateRecommendation s).1 = inr tt /\
     shown "recommendation" (after updateRecommendation s)
       = Some (if 15 <? upside then span "positive" "BUY"
               else if upside <? -15 then span "negative" "SELL"
               else span "neutral" "HOLD") /\
     shown "final-recommendation" (after updateRecommendation s)
       = Some (if 15 <? upside then span "positive" "BUY"
               else if upside <? -15 then span "negative" "SELL"
               else span "neutral" "HOLD")) /\
  (forall mc,
     market_comparison vr = Some mc -> recommendation mc = None ->
     (exists msg, (updateRecommendation s).1 = inl (TypeError msg)) /\
     after updateRecommendation s = s) /\
  (forall r,
     (statusOf r = "positive"%string <-> isSubstring "BUY" r) /\
     (statusOf r = "negative"%string
        <-> ~ isSubstring "BUY" r /\ isSubstring "SELL" r) /\
     (statusOf r = "neutral"%string
        <-> ~ isSubstring "BUY" r /\ ~ isSubstring "SELL" r)).
Proof.
  intros Hvr Hsd Hok span price upside. split; [|split; [|split]].
  - intros mc r Hmc Hr.
    destruct (updateRecommendation_run s vr sd Hvr Hsd Hok) as (H1 & _ & H2 & H3 & _).
    { unfold recommendationOk. rewrite Hmc, Hr. apply bool_decide_eq_true. eauto. }
    unfold heldRecommendation in H2, H3. rewrite Hmc, Hr in H2, H3. auto.
  - intros Hmc.
    destruct (updateRecommendation_run s vr sd Hvr Hsd Hok) as (H1 & _ & H2 & H3 & _).
    { unfold recommendationOk. rewrite Hmc. reflexivity. }
    unfold heldRecommendation in H2, H3. rewrite Hmc in H2, H3.
    rewrite H2, H3.
    unfold classifyRecommendation, heldUpside, computeUpsidePercent.
    fold price. fold upside.
    destruct (15 <? upside); [auto|]. destruct (upside <? -15); auto.
  - intros mc Hmc Hr.
    unfold after, updateRecommendation. exec. rewrite Hmc, Hr. exec.
    split; [eexists|]; reflexivity.
  - apply statusOf_spec.
Qed.

Lemma engine_recommendation_preferred_witness :
  (updateRecommendation valuedByEngine).1 = inr tt /\
  shown "recommendation" (after updateRecommendation valuedByEngine)
    = Some [Lit "<span class="; Quote; Lit "status status--positive"; Quote;
            Lit ">"; Lit "STRONG BUY"; Lit "</span>"] /\
  shown "final-recommendation" (after updateRecommendation valuedByEngine)
    = Some [Lit "<span class="; Quote; Lit "status status--positive"; Quote;
            Lit ">"; Lit "STRONG BUY"; Lit "</span>"].
Proof.
  refine (proj1 (engine_recommendation_preferred valuedByEngine
                   {| vr_fcfe := vr_fcfe sampleResults; vr_fcff := vr_fcff sampleResults;
                      vr_justified_pe := vr_justified_pe sampleResults;
                      vr_justified_pb := vr_justified_pb sampleResults;
                      weighted_average := weighted_average sampleResults;
                      summary := r_summary engineAnswer;
                      market_comparison := r_market_comparison engineAnswer;
                      financial_data := financial_data sampleResults |}
                   sampleStock _ _ _)
                {| recommendation := Some "STRONG BUY" |} "STRONG BUY" _ _).
  - vm_compute; reflexivity.
  - vm_compute; reflexivity.
  - vm_compute; reflexivity.
  - reflexivity.
  - reflexivity.
Defined.

End Display.

(** * The session *)

Section Session.

Local Open Scope float_scope.

(** C5, as the code has it. At a current price of zero the upside is
    computed without any error: it is +Infinity for a positive target,
    -Infinity for a negative one and NaN for a target of zero, never a finite
    number, and [updateWeightedResults] returns normally and writes it,
    formatted, into the page. *)
Theorem zero_price_upside_is_not_an_error (x : float) :
  isFinite (computeUpsidePercent x 0) = false /\
  ((0 <? x) = true -> computeUpsidePercent x 0 = infinity) /\
  ((x <? 0) = true -> computeUpsidePercent x 0 = neg_infinity) /\
  ((x =? 0) = true -> is_nan (computeUpsidePercent x 0) = true) /\
  (forall s vr sd,
     valuationResults s = Some vr -> stockData s = Some sd -> page_ok s = true ->
     weighted_average vr = JNum x -> num_field sd "current_price" = JNum 0 ->
     (updateWeightedResults s).1 = inr tt /\
     shown "weighted-diff" (after updateWeightedResults s)
       = Some (signedPercent (computeUpsidePercent x 0))).
Proof.
  pose proof (Binary64.upside_zero_price x) as H.
  fold (computeUpsidePercent x 0) in H.
  splits.
  - unfold isFinite. rewrite H. destruct (Prim2SF x); reflexivity.
  - rewrite FloatAxioms.ltb_spec. change (Prim2SF 0) with (S754_zero false).
    intros Hx. apply Prim2SF_inj. rewrite H.
    destruct (Prim2SF x) as [?|[]| |[] ? ?]; try discriminate Hx; reflexivity.
  - rewrite FloatAxioms.ltb_spec. change (Prim2SF 0) with (S754_zero false).
    intros Hx. apply Prim2SF_inj. rewrite H.
    destruct (Prim2SF x) as [?|[]| |[] ? ?]; try discriminate Hx; reflexivity.
  - rewrite FloatAxioms.eqb_spec. change (Prim2SF 0) with (S754_zero false).
    intros Hx. apply Binary64.is_nan_spec. rewrite H.
    destruct (Prim2SF x) as [?|[]| |[] ? ?]; try discriminate Hx; reflexivity.
  - intros s vr sd Hvr Hsd Hok Hw Hc.
    destruct (updateWeightedResults_run s vr sd Hvr Hsd Hok) as (R & _ & _ & W & _).
    unfold heldUpside in W. rewrite Hw, Hc in W. auto.
Qed.

Lemma zero_price_upside_is_not_an_error_witness :
  (updateWeightedResults valuedAtZeroPrice).1 = inr tt /\
  shown "weighted-diff" (after updateWeightedResults valuedAtZeroPrice)
    = Some (signedPercent (computeUpsidePercent 98750 0)).
Proof.
  refine (proj2 (proj2 (proj2 (proj2 (zero_price_upside_is_not_an_error 98750))))
            valuedAtZeroPrice sampleResults zeroPriceStock _ _ _ _ _).
  - vm_compute; reflexivity.
  - vm_compute; reflexivity.
  - vm_compute; reflexivity.
  - reflexivity.
  - reflexivity.
Defined.

(** C5, as stated, fails: with a current price of zero and a weighted value
    of 98750, [updateWeightedResults] raises nothing and the page shows the
    formatting of +Infinity. *)
Lemma zero_price_raises_nothing :
  (updateWeightedResults valuedAtZeroPrice).1 = inr tt /\
  computeUpsidePercent 98750 0 = infinity /\
  shown "weighted-diff" (after updateWeightedResults valuedAtZeroPrice)
    = Some [Lit "+"; toFixed infinity 1; Lit "%"] /\
  shown "summary-potential" (after updateWeightedResults valuedAtZeroPrice)
    = Some [toFixed infinity 1; Lit "%"].
Proof. vm_compute. auto. Qed.

Lemma after_bind_ok {A B} (m : M A) (k : A -> M B) s a :
  (m s).1 = inr a -> after (bind m k) s = after (k a) (after m s).
Proof. intros H. unfold after at 1. rewrite (bind_ok _ _ _ _ H). reflexivity. Qed.

Lemma after_bind_modify {B} (f : App -> App) (k : unit -> M B) s :
  after (bind (modify f) k) s = after (k tt) (f s).
Proof. reflexivity. Qed.

Lemma after_try_catch_throws {A} (body : M A) (handler : Exn -> M A) s e :
  (body s).1 = inl e ->
  after (try_catch body handler) s = after (handler e) (after body s).
Proof. intros H. unfold after at 1. rewrite (try_catch_throws _ _ _ _ H). reflexivity. Qed.

Lemma page_ok_same_document s s' :
  document s' = document s -> page_ok s' = page_ok s.
Proof. unfold page_ok. intros ->. reflexivity. Qed.

(** The catch block of [loadStockData]. *)
Lemma load_catch_block_run (error : Exn) s :
  page_ok s = true ->
  let s' := after
    ((if String.eqb (name error) "AbortError" then
        showStatus "Timeout - Please try again later." "error"
      else
        showStatus ("Data loading error: " ++ message error) "error") ;;
     modify (set_stockData None) ;;
     modify (set_currentStock None) ;;
     modify (set_historicalData None) ;;
     clearDisplay ;;
     clearCharts) s in
  currentStock s' = None /\ stockData s' = None /\ historicalData s' = None /\
  valuationResults s' = None /\ page_ok s' = true.
Proof.
  intros Hok.
  set (report := if String.eqb (name error) "AbortError" then _ else _).
  assert (Hr : (report s).1 = inr tt /\ displayOnly s (after report s))
    by (subst report; destruct (String.eqb _ _); apply showStatus_run, Hok).
  destruct Hr as [R1 D1]. cbv zeta.
  rewrite (after_bind_ok _ _ _ _ R1).
  set (s1 := after report s) in *.
  assert (Hok1 : page_ok s1 = true) by (rewrite (displayOnly_page_ok _ _ D1); exact Hok).
  clearbody s1. clear D1 R1 report.
  rewrite !after_bind_modify.
  set (s2 := set_historicalData None (set_currentStock None (set_stockData None s1))).
  assert (Hok2 : page_ok s2 = true) by exact Hok1.
  destruct (clearDisplay_run s2 Hok2) as (d & E & Hd).
  rewrite (after_bind_ok clearDisplay _ s2 tt) by (rewrite E; reflexivity).
  unfold after at 2 4 6 8 10. rewrite E. cbn [snd].
  set (s3 := set_valuationResults None (set_document d s2)).
  assert (Hok3 : page_ok s3 = true)
    by (transitivity (page_ok s2); [apply (displayOnly_of_dom s2 d Hd)|exact Hok2]).
  destruct (clearCharts_session s3) as (C1 & C2 & C3 & C4 & _ & C6).
  rewrite C1, C2, C3, C4, C6. splits; auto.
Qed.

(** C7. A data load that fails (the stock or the chart request is rejected,
    by the network or by the timeout; the stock answer is not OK; a body is
    not JSON; or the answer says [success: false]) leaves the session empty:
    no current symbol, no market data, no historical series and no held
    results. *)
Theorem failed_load_clears_session s input stock chart :
  toUpperCase (trim input) <> ""%string -> page_ok s = true ->
  loadFails stock chart = true ->
  let s' := after (loadStockData input stock chart) s in
  currentStock s' = None /\ stockData s' = None /\ historicalData s' = None /\
  valuationResults s' = None.
Proof.
  intros Hsym Hok Hfail. cbv zeta. unfold loadStockData. cbv zeta.
  apply String.eqb_neq in Hsym. rewrite Hsym.
  destruct (showLoading_run true s Hok) as (R1 & D1).
  rewrite (after_bind_ok _ _ _ _ R1).
  set (s1 := after (showLoading true) s) in *.
  assert (Hok1 : page_ok s1 = true) by (rewrite (displayOnly_page_ok _ _ D1); exact Hok).
  destruct (showStatus_run "Loading data..." "info" s1 Hok1) as (R2 & D2).
  rewrite (after_bind_ok _ _ _ _ R2).
  set (s2 := after (showStatus "Loading data..." "info") s1) in *.
  assert (Hok2 : page_ok s2 = true) by (rewrite (displayOnly_page_ok _ _ D2); exact Hok1).
  clearbody s2. clear D1 D2 R1 R2 Hok1 s1.
  rewrite finally_after.
  match goal with |- context [try_catch ?b ?h] => set (body := b); set (handler := h) end.
  (* the try block throws, having only sent requests *)
  assert (Hb : exists e, (body s2).1 = inl e /\ document (after body s2) = document s2).
  { subst body. unfold after, fetch, json.
    destruct stock as [e|[] status [sd|]]; [exec; eauto|..];
      (destruct chart as [e'|chart_ok chart_status chart_body]; [exec; eauto|]);
      cbn in Hfail; exec; try discriminate Hfail;
      repeat match goal with
             | |- context [if (?a =? ?b)%Z then _ else _] => destruct (a =? b)%Z
             end; exec; eauto.
    apply orb_true_iff in Hfail. destruct Hfail as [Hf|Hf].
    - apply andb_true_iff in Hf as [-> Hf]. apply negb_true_iff in Hf.
      destruct chart_body as [cd|]; [exfalso; apply bool_decide_eq_false in Hf; eauto|].
      exec. eauto.
    - rewrite Hf. destruct chart_ok; [destruct chart_body|]; exec; eauto. }
  destruct Hb as (e & Hthrow & Hdoc).
  rewrite (after_try_catch_throws _ handler _ _ Hthrow).
  assert (Hok3 : page_ok (after body s2) = true)
    by (rewrite (page_ok_same_document _ _ Hdoc); exact Hok2).
  pose proof (load_catch_block_run e (after body s2) Hok3) as Hc. cbv zeta in Hc.
  destruct Hc as (F1 & F2 & F3 & F4 & Hok4).
  set (s4 := after (handler e) (after body s2)).
  destruct (showLoading_run false s4 Hok4) as (_ & D5).
  destruct (displayOnly_fields _ _ D5) as (G1 & G2 & G3 & G4 & _).
  rewrite G1, G2, G3, G4. splits; [exact F1|exact F2|exact F3|exact F4].
Qed.

Lemma failed_load_clears_session_witness :
  let s' := after (loadStockData "xyz" (Responded false 404 None)
                                       (Responded false 404 None)) valued in
  currentStock s' = None /\ stockData s' = None /\ historicalData s' = None /\
  valuationResults s' = None.
Proof.
  apply (failed_load_clears_session valued "xyz"
           (Responded false 404 None) (Responded false 404 None)).
  - vm_compute. discriminate.
  - vm_compute. reflexivity.
  - reflexivity.
Defined.

(** C8, as the code has it. A valuation request that fails changes nothing
    but the status banner (and the log of requests): the loaded company data
    stay, and so do the held results and what the page shows of them. *)
Theorem failed_calculation_changes_only_the_banner s answer :
  calculationFails answer = true ->
  let s' := after (calculateValuation answer) s in
  currentStock s' = currentStock s /\ stockData s' = stockData s /\
  historicalData s' = historicalData s /\
  valuationResults s' = valuationResults s /\
  modelWeights s' = modelWeights s /\
  (forall id, id <> "status-message"%string -> document s' !! id = document s !! id).
Proof.
  intros Hfail. cbv zeta.
  unfold after, calculateValuation, showStatus, setElement, fetch, json.
  exec. destruct (noStock (currentStock s));
    destruct (document s !! "status-message"%string) eqn:E; exec;
    try (splits; auto; intros; rewrite ?lookup_alter_ne by congruence; reflexivity).
  destruct answer as [err|[] st [r|]]; cbn in Hfail; try discriminate Hfail; exec;
    try rewrite Hfail; exec;
    splits; auto; intros; rewrite ?lookup_alter_ne by congruence; reflexivity.
Qed.

Lemma failed_calculation_changes_only_the_banner_witness :
  valuationResults (after (calculateValuation (Responded false 500 None)) valued)
    = valuationResults valued.
Proof.
  refine (proj1 (proj2 (proj2 (proj2
            (failed_calculation_changes_only_the_banner valued
               (Responded false 500 None) _))))).
  reflexivity.
Defined.

(** C8, as stated, fails: after a valuation request answered with status 500
    the held results are still there and the page still shows the weighted
    value and upside of the previous valuation; nothing was cleared. *)
Lemma failed_calculation_clears_nothing :
  let s' := after (calculateValuation (Responded false 500 None)) valued in
  valuationResults s' = Some sampleResults /\
  shown "weighted-result" s' = Some [IntlVND 98750] /\
  shown "weighted-diff" s' = Some [Lit ""; toFixed (-1.25) 1; Lit "%"] /\
  shown "target-price" s' = Some [IntlVND 98750] /\
  shown "status-message" s'
    = Some [Lit "Error calculating valuation: HTTP error! status: 500"].
Proof. vm_compute. auto. Qed.

(** ** What the later steps of a valuation leave alone *)

Lemma keeps_ret {X A} (f : App -> X) (a : A) : keeps f (ret a).
Proof. intros s. reflexivity. Qed.

Lemma keeps_throw {X A} (f : App -> X) e : keeps f (@throw A e).
Proof. intros s. reflexivity. Qed.

Lemma keeps_gets {X A} (f : App -> X) (g : App -> A) : keeps f (gets g).
Proof. intros s. reflexivity. Qed.

Lemma keeps_deref {X A} (f : App -> X) what (o : option A) : keeps f (deref what o).
Proof. destruct o; intros s; reflexivity. Qed.

Lemma keeps_bind {X A B} (f : App -> X) (m : M A) (k : A -> M B) :
  keeps f m -> (forall a, keeps f (k a)) -> keeps f (bind m k).
Proof.
  intros Hm Hk s. specialize (Hm s). unfold after, bind in *.
  destruct (m s) as [[e|a] s1]; cbn in *; [exact Hm|].
  rewrite <- Hm. apply Hk.
Qed.

Lemma keeps_try_catch {X A} (f : App -> X) (body : M A) handler :
  keeps f body -> (forall e, keeps f (handler e)) -> keeps f (try_catch body handler).
Proof.
  intros Hm Hk s. specialize (Hm s). unfold after, try_catch in *.
  destruct (body s) as [[e|a] s1]; cbn in *; [|exact Hm].
  rewrite <- Hm. apply Hk.
Qed.

Lemma keeps_requests_setElement id g : keeps requests (setElement id g).
Proof. intros s. unfold after, setElement. destruct (document s !! id); reflexivity. Qed.

Lemma keeps_requests_safeUpdateElement id v : keeps requests (safeUpdateElement id v).
Proof. intros s. reflexivity. Qed.

Lemma keeps_requests_set_results v : keeps requests (modify (set_valuationResults v)).
Proof. intros s. reflexivity. Qed.

(** Decomposing a method into the steps above. *)
Ltac keeps_requests :=
  repeat first
    [ apply keeps_ret | apply keeps_throw | apply keeps_gets | apply keeps_deref
    | apply keeps_requests_setElement | apply keeps_requests_safeUpdateElement
    | apply keeps_requests_set_results
    | apply keeps_bind; [|intros ?]
    | apply keeps_try_catch; [|intros ?]
    | match goal with
      | |- keeps _ (match ?x with _ => _ end) => destruct x
      end
    | progress unfold showStatus, updateRecommendation, updateWeightedResults,
        updateModelDetails, showModelResult, updateValuationDisplay, json ].

Lemma fetch_then_requests {A B} (r : Request) (o : Fetched A)
    (k : bool * Z * option A -> M B) s :
  (forall x, keeps requests (k x)) ->
  requests (after (bind (fetch r o) k) s) = (requests s ++ [r])%list.
Proof.
  intros Hk. destruct o as [e|ok st body]; [reflexivity|].
  transitivity (requests (after (k (ok, st, body))
                                (set_requests (requests s ++ [r]) s)));
    [reflexivity|].
  rewrite Hk. reflexivity.
Qed.

Lemma try_catch_requests {A} (body : M A) handler s l :
  requests (after body s) = l -> (forall e, keeps requests (handler e)) ->
  requests (after (try_catch body handler) s) = l.
Proof.
  intros Hb Hh. unfold after, try_catch in *.
  destruct (body s) as [[e|a] s1]; cbn in *; [|exact Hb].
  rewrite <- Hb. apply Hh.
Qed.

(** Whatever the weights, [calculateValuation] sends the valuation request
    for the loaded symbol, with the weights as they are. *)
Lemma calculateValuation_sends s answer sym :
  currentStock s = Some sym -> sym <> ""%string -> page_ok s = true ->
  requests (after (calculateValuation answer) s)
    = (requests s ++ [PostValuation sym
                        {| rd_assumptions := assumptions s; rd_roe := 15;
                           rd_payoutRatio := 40;
                           rd_modelWeights := modelWeights s |}])%list.
Proof.
  intros Hcs Hsym Hok.
  unfold calculateValuation, after. unfold bind at 1, gets at 1. rewrite Hcs.
  cbn [noStock default]. apply String.eqb_neq in Hsym. rewrite Hsym.
  apply try_catch_requests; [|intros e; keeps_requests].
  destruct (showStatus_run "Calculating valuation models..." "info" s Hok) as (R & D).
  rewrite (after_bind_ok _ _ _ _ R).
  set (s1 := after (showStatus "Calculating valuation models..." "info") s) in *.
  destruct (displayOnly_fields _ _ D) as (_ & _ & _ & _ & Hw & Ha & _ & Hr).
  unfold after. unfold bind at 1 2, gets at 1 2.
  rewrite <- Hw, <- Ha, <- Hr.
  apply (fetch_then_requests _ answer _ s1).
  intros [[ok status] body]. keeps_requests.
Qed.

(** ** A weight change *)

(** A write to another element leaves this one alone. *)
Lemma frame_setElement id id' g :
  id <> id' -> keeps (fun s => document s !! id) (setElement id' g).
Proof.
  intros Hne s. unfold after, setElement.
  destruct (document s !! id'); cbn; [|reflexivity].
  apply lookup_alter_ne. congruence.
Qed.

Lemma frame_safeUpdateElement id id' v :
  id <> id' -> keeps (fun s => document s !! id) (safeUpdateElement id' v).
Proof. intros Hne s. cbn. apply lookup_alter_ne. congruence. Qed.

Ltac frame :=
  repeat lazymatch goal with
  | |- keeps _ (bind _ _) => apply keeps_bind; [|intros ?]
  | |- keeps _ (gets _) => apply keeps_gets
  | |- keeps _ (deref _ _) => apply keeps_deref
  | |- keeps _ (setElement _ _) => apply frame_setElement; discriminate
  | |- keeps _ (safeUpdateElement _ _) => apply frame_safeUpdateElement; discriminate
  | |- keeps _ (if ?c then _ else _) => destruct c
  end.

(** The weight displays and the weighted results are written to other
    elements than the recommendation. *)
Lemma weight_displays_keep_recommendation :
  keeps (fun s => document s !! "recommendation"%string) updateWeightDisplay /\
  keeps (fun s => document s !! "recommendation"%string) updateTotalWeight /\
  keeps (fun s => document s !! "recommendation"%string) updateWeightedResults.
Proof.
  unfold updateWeightDisplay, updateTotalWeight, updateWeightedResults.
  splits; cbv zeta; frame.
Qed.

(** A market comparison without a recommendation: [recommendation.includes]
    raises, nothing having been written. *)
Lemma updateRecommendation_stops s vr sd :
  valuationResults s = Some vr -> stockData s = Some sd ->
  recommendationOk vr = false ->
  exists msg, updateRecommendation s = (inl (TypeError msg), s).
Proof.
  intros Hvr Hsd Hrec. unfold recommendationOk in Hrec.
  destruct (market_comparison vr) as [mc|] eqn:Hmc; [|discriminate].
  apply bool_decide_eq_false in Hrec.
  destruct (recommendation mc) as [r|] eqn:Hr; [exfalso; eauto|].
  unfold updateRecommendation. exec. rewrite Hmc, Hr. exec.
  eexists. reflexivity.
Qed.

(** What both weight handlers do once the weights are set, when the held
    market comparison has no recommendation: the weighted results are shown,
    then [updateRecommendation] raises. *)
Lemma rerender_stops s vr sd :
  valuationResults s = Some vr -> stockData s = Some sd -> page_ok s = true ->
  recommendationOk vr = false ->
  let m := (updateWeightDisplay ;;
            updateTotalWeight ;;
            vr <- gets valuationResults ;;
            match vr with
            | Some _ => updateWeightedResults ;; updateRecommendation
            | None => ret tt
            end) in
  (exists msg, (m s).1 = inl (TypeError msg)) /\
  displayOnly s (after m s) /\
  shown "weighted-result" (after m s) = Some (formatCurrency (weighted_average vr)) /\
  shown "weighted-diff" (after m s) = Some (signedPercent (heldUpside vr sd)) /\
  document (after m s) !! "recommendation"%string = document s !! "recommendation"%string.
Proof.
  intros Hvr Hsd Hok Hrec m.
  destruct weight_displays_keep_recommendation as (K1 & K2 & K3).
  destruct (updateWeightDisplay_run s Hok) as (R1 & D1).
  specialize (K1 s). cbv beta in K1.
  set (s1 := after updateWeightDisplay s) in *.
  assert (Hok1 : page_ok s1 = true) by (rewrite (displayOnly_page_ok _ _ D1); exact Hok).
  destruct (updateTotalWeight_run s1 Hok1) as (R2 & D2 & _).
  specialize (K2 s1). cbv beta in K2.
  set (s2 := after updateTotalWeight s1) in *.
  pose proof (displayOnly_trans _ _ _ D1 D2) as D12.
  assert (Hok2 : page_ok s2 = true) by (rewrite (displayOnly_page_ok _ _ D12); exact Hok).
  destruct (displayOnly_fields _ _ D12) as (_ & Hsd2 & _ & Hvr2 & _).
  rewrite Hvr in Hvr2. rewrite Hsd in Hsd2.
  destruct (updateWeightedResults_run s2 vr sd Hvr2 Hsd2 Hok2) as (R3 & D3 & W1 & W2 & _).
  specialize (K3 s2). cbv beta in K3.
  set (s3 := after updateWeightedResults s2) in *.
  pose proof (displayOnly_trans _ _ _ D12 D3) as D13.
  destruct (displayOnly_fields _ _ D13) as (_ & Hsd3 & _ & Hvr3 & _).
  rewrite Hvr in Hvr3. rewrite Hsd in Hsd3.
  destruct (updateRecommendation_stops s3 vr sd Hvr3 Hsd3 Hrec) as (msg & E4).
  assert (Hm : m s = updateRecommendation s3).
  { subst m. rewrite (bind_ok _ _ _ _ R1). fold s1.
    rewrite (bind_ok _ _ _ _ R2). fold s2.
    unfold bind at 1, gets at 1. rewrite Hvr2.
    rewrite (bind_ok _ _ _ _ R3). reflexivity. }
  unfold after. rewrite Hm, E4. cbn [fst snd].
  splits; eauto. congruence.
Qed.

(** C1, as the code has it. Once market data and a valuation are held, a
    weight change (a slider edit or the reset to 25%) sends no request and
    leaves the held results as they are; it shows again the weighted value
    and the upside that follow from the [weighted_average] held in the
    session and the current price, and then the recommendation: that of the
    engine when the held results carry one, the thresholds on that upside
    when there is no market comparison.  None of them depends on the
    weights.  When the held market comparison has no recommendation, the
    handler ends with a TypeError once the weighted value and the upside are
    shown, and the recommendation on the page is left as it was. *)
Theorem weight_change_shows_held_average s vr sd (m : M unit) :
  valuationResults s = Some vr -> stockData s = Some sd -> page_ok s = true ->
  (m = normalizeWeights \/ exists event, m = updateModelWeights event) ->
  let span := fun status r : string =>
    [Lit "<span class="; Quote; Lit ("status status--" ++ status); Quote;
     Lit ">"; Lit r; Lit "</span>"] in
  let price := ToNumber (num_field sd "current_price") in
  let upside := (ToNumber (weighted_average vr) - price) / price * 100 in
  requests (after m s) = requests s /\
  valuationResults (after m s) = Some vr /\
  stockData (after m s) = Some sd /\
  shown "weighted-result" (after m s) = Some (formatCurrency (weighted_average vr)) /\
  shown "weighted-diff" (after m s)
    = Some [Lit (if 0 <? upside then "+" else ""); toFixed upside 1; Lit "%"] /\
  (forall mc r,
     market_comparison vr = Some mc -> recommendation mc = Some r ->
     (m s).1 = inr tt /\
     shown "recommendation" (after m s)
       = Some (span (if includes r "BUY" then "positive"
                     else if includes r "SELL" then "negative" else "neutral") r)) /\
  (market_comparison vr = None ->
     (m s).1 = inr tt /\
     shown "recommendation" (after m s)
       = Some (if 15 <? upside then span "positive" "BUY"
               else if upside <? -15 then span "negative" "SELL"
               else span "neutral" "HOLD")) /\
  (forall mc,
     market_comparison vr = Some mc -> recommendation mc = None ->
     (exists msg, (m s).1 = inl (TypeError msg)) /\
     shown "recommendation" (after m s) = shown "recommendation" s).
Proof.
  intros Hvr Hsd Hok Hm span price upside.
  (* the state in which the displays are refreshed *)
  assert (exists s0, m s = (updateWeightDisplay ;;
                            updateTotalWeight ;;
                            vr <- gets valuationResults ;;
                            match vr with
                            | Some _ => updateWeightedResults ;; updateRecommendation
                            | None => ret tt
                            end) s0
                     /\ valuationResults s0 = Some vr /\ stockData s0 = Some sd
                     /\ page_ok s0 = true /\ requests s0 = requests s
                     /\ document s0 !! "recommendation"%string
                        = document s !! "recommendation"%string)
    as (s0 & E & Hvr0 & Hsd0 & Hok0 & Hreq0 & Hdoc0).
  { destruct Hm as [->|[event ->]].
    - need_element Hok "fcfe-weight" e1 H1.
      need_element Hok "fcff-weight" e2 H2.
      need_element Hok "pe-weight" e3 H3.
      need_element Hok "pb-weight" e4 H4.
      unfold normalizeWeights, setElement.
      unfold bind at 1 2 3 4 5, modify at 1. exec.
      eexists. split; [reflexivity|]. splits; auto.
      + refine (eq_trans (displayOnly_page_ok (set_modelWeights _ s) _ _) Hok).
        display_only.
      + cbn [document set_document]. rewrite !lookup_alter_ne by discriminate.
        reflexivity.
    - unfold updateModelWeights. unfold bind at 1, modify at 1.
      eexists. split; [reflexivity|].
      repeat (destruct (String.eqb _ _); [splits; auto|]). splits; auto. }
  assert (Hup : heldUpside vr sd = upside) by reflexivity.
  destruct (recommendationOk vr) eqn:Hrec.
  - pose proof (rerender_run s0 vr sd Hvr0 Hsd0 Hok0 Hrec) as R. cbv zeta in R.
    unfold after in *. rewrite E.
    destruct R as (R1 & D & W1 & W2 & W3).
    destruct (displayOnly_fields _ _ D) as (_ & Hsd' & _ & Hvr' & _ & _ & _ & Hreq').
    unfold heldRecommendation in W3. rewrite Hup in W2, W3.
    splits; auto; try congruence.
    + intros mc r Hmc Hr. rewrite Hmc, Hr in W3. auto.
    + intros Hmc. rewrite Hmc in W3. split; [exact R1|]. rewrite W3.
      unfold classifyRecommendation.
      destruct (15 <? upside); [reflexivity|]. destruct (upside <? -15); reflexivity.
    + intros mc Hmc Hr. unfold recommendationOk in Hrec. rewrite Hmc, Hr in Hrec.
      apply bool_decide_eq_true in Hrec. destruct Hrec as [x [=]].
  - pose proof (rerender_stops s0 vr sd Hvr0 Hsd0 Hok0 Hrec) as R. cbv zeta in R.
    unfold after in *. rewrite E.
    destruct R as (R1 & D & W1 & W2 & W3).
    destruct (displayOnly_fields _ _ D) as (_ & Hsd' & _ & Hvr' & _ & _ & _ & Hreq').
    rewrite Hup in W2.
    splits; auto; try congruence.
    + intros mc r Hmc Hr. unfold recommendationOk in Hrec. rewrite Hmc, Hr in Hrec.
      apply bool_decide_eq_false in Hrec. exfalso. eauto.
    + intros Hmc. unfold recommendationOk in Hrec. rewrite Hmc in Hrec. discriminate.
    + intros mc Hmc Hr. split; [exact R1|]. unfold shown. rewrite W3, Hdoc0. reflexivity.
Qed.

Lemma weight_change_shows_held_average_witness :
  shown "weighted-result" (after (updateModelWeights fcfeTo50) valued)
    = Some (formatCurrency (JNum 98750)) /\
  ((exists msg,
      (updateModelWeights fcfeTo50 valuedWithoutRecommendation).1 = inl (TypeError msg)) /\
   shown "recommendation" (after (updateModelWeights fcfeTo50) valuedWithoutRecommendation)
   = shown "recommendation" valuedWithoutRecommendation).
Proof.
  split.
  - refine (proj1 (proj2 (proj2 (proj2
              (weight_change_shows_held_average valued sampleResults sampleStock
                 (updateModelWeights fcfeTo50) _ _ _ _))))).
    + vm_compute; reflexivity.
    + vm_compute; reflexivity.
    + vm_compute; reflexivity.
    + right. exists fcfeTo50. reflexivity.
  - refine (proj2 (proj2 (proj2 (proj2 (proj2 (proj2 (proj2
              (weight_change_shows_held_average valuedWithoutRecommendation
                 {| vr_fcfe := vr_fcfe sampleResults; vr_fcff := vr_fcff sampleResults;
                    vr_justified_pe := vr_justified_pe sampleResults;
                    vr_justified_pb := vr_justified_pb sampleResults;
                    weighted_average := weighted_average sampleResults;
                    summary := None;
                    market_comparison := Some {| recommendation := None |};
                    financial_data := financial_data sampleResults |}
                 sampleStock (updateModelWeights fcfeTo50) _ _ _ _)))))))
              {| recommendation := None |} _ _).
    + vm_compute; reflexivity.
    + vm_compute; reflexivity.
    + vm_compute; reflexivity.
    + right. exists fcfeTo50. reflexivity.
    + reflexivity.
    + reflexivity.
Defined.

(** C1, as stated, fails: after the FCFE weight is moved from 25 to 50 the
    weighted value shown is still the 98750 of the engine, whereas the
    average of the held per-model values under the new weights is 123750. *)
Lemma weight_change_does_not_recompute :
  let s' := after (updateModelWeights fcfeTo50) valued in
  valuationResults valued = Some sampleResults /\
  modelWeights s' = weights 50 25 25 25 /\
  computeWeightedAverage (heldResults sampleResults) (modelWeights s') = 123750 /\
  shown "weighted-result" s' = Some [IntlVND 98750] /\
  shown "weighted-result" s'
    <> Some (formatCurrency
               (JNum (computeWeightedAverage (heldResults sampleResults)
                                             (modelWeights s')))).
Proof.
  vm_compute. splits; try reflexivity. discriminate.
Qed.

(** ** The flag on the weight total *)

Lemma eqb_sym (x y : float) : (x =? y) = (y =? x).
Proof.
  rewrite !FloatAxioms.eqb_spec. unfold SFeqb.
  rewrite (Binary64.SFcompare_antisym (Prim2SF y) (Prim2SF x)).
  destruct (SFcompare (Prim2SF y) (Prim2SF x)) as [[]|]; reflexivity.
Qed.

(** C9, as the code has it. [updateTotalWeight] shows the binary64 sum of
    the four weights, added in the order FCFE, FCFF, P/E, P/B, with one
    decimal, and flags it correct exactly when the distance of that sum to
    100, computed in binary64, is strictly below the binary64 number nearest
    to one tenth.  That distance is never equal to this number, so that for
    weights that are not negative the total is flagged incorrect exactly
    when the computed distance is above it.  The flag is the class of the
    total-weight element; [calculateValuation] does not read it and sends
    its request whatever the weights. *)
Theorem weight_total_flag (w : ModelWeights) :
  let total := fcfe w + fcff w + justified_pe w + justified_pb w in
  (forall s, modelWeights s = w -> page_ok s = true ->
     (updateTotalWeight s).1 = inr tt /\
     shown "total-weight" (after updateTotalWeight s) = Some [toFixed total 1] /\
     shownClass "total-weight" (after updateTotalWeight s)
       = Some (if abs (total - 100) <? 0.1
               then "weight-total-correct"%string
               else "weight-total-incorrect"%string)) /\
  (abs (total - 100) =? 0.1) = false /\
  ((0 <=? fcfe w) = true -> (0 <=? fcff w) = true ->
   (0 <=? justified_pe w) = true -> (0 <=? justified_pb w) = true ->
   ((abs (total - 100) <? 0.1) = false <-> (0.1 <? abs (total - 100)) = true)) /\
  (forall s answer sym,
     modelWeights s = w -> currentStock s = Some sym -> sym <> ""%string ->
     page_ok s = true ->
     requests (after (calculateValuation answer) s)
       = (requests s ++ [PostValuation sym
                           {| rd_assumptions := assumptions s; rd_roe := 15;
                              rd_payoutRatio := 40; rd_modelWeights := w |}])%list).
Proof.
  intros total.
  pose proof (Binary64.deviation_never_tenth total) as He.
  splits.
  - intros s <- Hok.
    destruct (updateTotalWeight_run s Hok) as (H1 & _ & H2 & H3). auto.
  - exact He.
  - intros H1 H2 H3 H4.
    assert (Hn : is_nan total = false).
    { apply Binary64.nonneg_not_nan. unfold total. rewrite !add_spec.
      auto using Binary64.SFadd_nonneg, Binary64.leb_0_nonneg. }
    pose proof (Binary64.deviation_is_number _ Hn) as Hd.
    set (dev := abs (total - 100)) in *.
    assert (Hgt : (0.1 <? dev) = negb (dev <? 0.1)).
    { rewrite (Binary64.ltb_negb_leb dev 0.1 Hd eq_refl).
      rewrite Binary64.leb_ltb_eqb, (eqb_sym 0.1 dev), He. symmetry. apply orb_false_r. }
    rewrite Hgt. destruct (dev <? 0.1); cbn; split; congruence.
  - intros s answer sym <- Hcs Hsym Hok.
    apply calculateValuation_sends; assumption.
Qed.

Lemma weight_total_flag_witness :
  ((abs (25.1 + 25 + 25 + 25 - 100) <? 0.1) = false
   <-> (0.1 <? abs (25.1 + 25 + 25 + 25 - 100)) = true).
Proof.
  apply (proj1 (proj2 (proj2 (weight_total_flag (weights 25.1 25 25 25)))));
    reflexivity.
Defined.

(** C9, as stated, fails: the weights 0, 0, 3.9 and 96.2, as the sliders
    give them (each the binary64 number nearest to the decimal), add up to
    100.1, a total at exactly 0.1 from 100, and it is flagged incorrect: the
    binary64 sum is 100.10000000000001.  The weights 25.1, 25, 25 and 25 add
    up to 100.1 as well and are flagged correct. *)
Lemma total_at_one_tenth_is_flagged_by_rounding :
  nearestDouble (39 # 10) 3.9 = true /\
  nearestDouble (962 # 10) 96.2 = true /\
  nearestDouble (251 # 10) 25.1 = true /\
  Qeq_bool (0 + 0 + (39 # 10) + (962 # 10) - 100) (1 # 10) = true /\
  Qeq_bool ((251 # 10) + 25 + 25 + 25 - 100) (1 # 10) = true /\
  modelWeights slidTo_0_0_39_962 = weights 0 0 3.9 96.2 /\
  shown "total-weight" slidTo_0_0_39_962 = Some [toFixed 100.10000000000001 1] /\
  shownClass "total-weight" slidTo_0_0_39_962 = Some "weight-total-incorrect"%string /\
  modelWeights slidTo_251_25_25_25 = weights 25.1 25 25 25 /\
  shown "total-weight" slidTo_251_25_25_25 = Some [toFixed 100.09999999999999 1] /\
  shownClass "total-weight" slidTo_251_25_25_25 = Some "weight-total-correct"%string.
Proof. vm_compute. splits; reflexivity. Qed.

End Session.

(** * Further properties of the methods *)

(** * Running the methods, as equations *)

Lemma set_document_same s : set_document (document s) s = s.
Proof. destruct s; reflexivity. Qed.

Lemma set_document_twice d d' s : set_document d (set_document d' s) = set_document d s.
Proof. reflexivity. Qed.

Lemma bind_eq {A B} (m : M A) (k : A -> M B) s a s1 :
  m s = (inr a, s1) -> bind m k s = k a s1.
Proof. unfold bind. intros ->. reflexivity. Qed.

Lemma bind_throw_eq {A B} (m : M A) (k : A -> M B) s e s1 :
  m s = (inl e, s1) -> bind m k s = (inl e, s1).
Proof. unfold bind. intros ->. reflexivity. Qed.

Lemma try_catch_ok_eq {A} (body : M A) handler s a s1 :
  body s = (inr a, s1) -> try_catch body handler s = (inr a, s1).
Proof. unfold try_catch. intros ->. reflexivity. Qed.

Lemma try_catch_throw_eq {A} (body : M A) handler s e s1 :
  body s = (inl e, s1) -> try_catch body handler s = handler e s1.
Proof. unfold try_catch. intros ->. reflexivity. Qed.

Lemma finally_eq {A} (body : M A) cleanup s r s1 s2 :
  body s = (r, s1) -> cleanup s1 = (inr tt, s2) -> finally body cleanup s = (r, s2).
Proof. unfold finally. intros -> ->. reflexivity. Qed.

Lemma setElement_eq id f s :
  is_Some (document s !! id) ->
  setElement id f s = (inr tt, set_document (alter f id (document s)) s).
Proof. intros [e He]. unfold setElement. rewrite He. reflexivity. Qed.

Lemma setElement_missing id f s :
  document s !! id = None ->
  setElement id f s = (inl (TypeError ("Cannot set properties of null: " ++ id)), s).
Proof. intros He. unfold setElement. rewrite He. reflexivity. Qed.

Lemma showStatus_eq msg ty s :
  is_Some (document s !! "status-message") ->
  showStatus msg ty s
  = (inr tt, set_document (alter (banner msg ty) "status-message" (document s)) s).
Proof.
  intros H. unfold showStatus.
  rewrite (bind_eq _ _ _ _ _ (setElement_eq _ _ _ H)).
  rewrite setElement_eq by (cbn [document set_document]; rewrite lookup_alter_is_Some; exact H).
  cbn [document set_document]. rewrite set_document_twice.
  rewrite alter_alter_eq. reflexivity.
Qed.

Lemma showLoading_eq show s :
  is_Some (document s !! "load-data-btn") ->
  showLoading show s
  = (inr tt, set_document (alter (loadButton show) "load-data-btn" (document s)) s).
Proof.
  intros H. unfold showLoading. destruct show.
  all: rewrite (bind_eq _ _ _ _ _ (setElement_eq _ _ _ H)).
  all: rewrite setElement_eq by (cbn [document set_document]; rewrite lookup_alter_is_Some; exact H).
  all: cbn [document set_document]; rewrite set_document_twice.
  all: rewrite alter_alter_eq; reflexivity.
Qed.

Lemma updateOverviewDisplay_eq data s :
  updateOverviewDisplay data s
  = (inr tt, set_document (writeEach (overviewFields data) (document s)) s).
Proof. apply safeUpdateEach_run. Qed.

Lemma chartsOk_inv c :
  chartsOk c = true ->
  exists a b, c = {| roeRoa := Some a; liquidity := Some b |} /\
    (2 <= length (datasets a))%nat /\ (3 <= length (datasets b))%nat.
Proof.
  unfold chartsOk. destruct c as [[a|] [b|]]; cbn [roeRoa liquidity]; try discriminate.
  rewrite andb_true_iff, !Nat.leb_le. eauto.
Qed.

Lemma setDataset_eq i d c s :
  (i < length (datasets c))%nat ->
  setDataset i d c s = (inr {| labels := labels c; datasets := <[i := d]> (datasets c) |}, s).
Proof.
  intros H. unfold setDataset.
  destruct (lookup_lt_is_Some_2 _ _ H) as [x ->]. reflexivity.
Qed.

Lemma clearCharts_eq s :
  chartsOk (charts s) = true ->
  clearCharts s = (inr tt, set_charts (shownCharts None (charts s)) s).
Proof.
  intros H. destruct (chartsOk_inv _ H) as (a & b & Hc & _).
  unfold clearCharts, bind, gets, deref, modify, ret. rewrite Hc. cbn.
  unfold set_charts. cbn. rewrite Hc. reflexivity.
Qed.

Lemma updateCharts_eq s :
  chartsOk (charts s) = true ->
  updateCharts s = (inr tt, set_charts (shownCharts (historicalData s) (charts s)) s).
Proof.
  intros H. unfold updateCharts. unfold bind at 1, gets at 1.
  destruct (historicalData s) as [h|] eqn:Hh; [|apply clearCharts_eq, H].
  destruct (chartsOk_inv _ H) as (a & b & Hc & Ha & Hb).
  unfold bind at 1 2, gets at 1, deref at 1, ret at 1. rewrite Hc. cbn [roeRoa].
  erewrite bind_eq by (apply setDataset_eq; cbn [datasets]; lia).
  cbn [labels datasets].
  erewrite bind_eq by (apply setDataset_eq; cbn [datasets]; rewrite length_insert; lia).
  cbn [labels datasets].
  unfold bind at 1, modify at 1.
  unfold bind at 1 2, gets at 1, deref at 1, ret at 1. cbn [charts set_charts liquidity].
  rewrite Hc. cbn [liquidity].
  erewrite bind_eq by (apply setDataset_eq; cbn [datasets]; lia).
  cbn [labels datasets].
  erewrite bind_eq by (apply setDataset_eq; cbn [datasets]; rewrite length_insert; lia).
  cbn [labels datasets].
  erewrite bind_eq by (apply setDataset_eq; cbn [datasets]; rewrite !length_insert; lia).
  cbn [labels datasets].
  unfold modify. cbn [charts set_charts roeRoa]. reflexivity.
Qed.

(** The element [id] is one the methods need, and the page, written to or
    not, still has it. *)
Ltac elem Hok :=
  cbn [document set_document set_currentStock set_stockData set_historicalData
       set_assumptions set_modelWeights set_valuationResults set_charts set_requests];
  unfold clearedPage;
  repeat first [rewrite lookup_alter_is_Some | rewrite writeEach_is_Some];
  apply (has_ids_lookup required_ids _ _ Hok); cbn; tauto.

Ltac fields :=
  cbn [document set_document currentStock set_currentStock stockData set_stockData
       historicalData set_historicalData assumptions set_assumptions
       modelWeights set_modelWeights valuationResults set_valuationResults
       charts set_charts requests set_requests].

Lemma App_eq (s1 s2 : App) :
  currentStock s1 = currentStock s2 -> stockData s1 = stockData s2 ->
  historicalData s1 = historicalData s2 -> assumptions s1 = assumptions s2 ->
  modelWeights s1 = modelWeights s2 -> valuationResults s1 = valuationResults s2 ->
  charts s1 = charts s2 -> document s1 = document s2 -> requests s1 = requests s2 ->
  s1 = s2.
Proof. destruct s1, s2; cbn; intros; subst; reflexivity. Qed.

Ltac same_state_with lem :=
  try (apply (f_equal (pair _)));
  apply App_eq; fields; rewrite <- ?lem; reflexivity.

(** Two states built from the same one by the setters are the same record. *)
Ltac same_state :=
  try (apply (f_equal (pair _)));
  apply App_eq; fields; reflexivity.

Lemma lookup_writeEach l d id :
  writeEach l d !! id
  = match lastWrite l id with
    | Some v => with_textContent v <$> d !! id
    | None => d !! id
    end.
Proof.
  unfold writeEach, lastWrite.
  induction l as [|p l IH] using rev_ind; [reflexivity|].
  rewrite !fold_left_app. cbn [fold_left].
  destruct (String.eqb_spec p.1 id) as [->|Hne].
  - rewrite lookup_alter_eq, IH.
    destruct (fold_left _ l None); destruct (d !! id); reflexivity.
  - rewrite lookup_alter_ne by congruence. exact IH.
Qed.

Lemma bind_modify {B} (f : App -> App) (k : unit -> M B) s :
  bind (modify f) k s = k tt (f s).
Proof. reflexivity. Qed.

Lemma loadError_None_inv stock chart :
  loadError stock chart = None ->
  exists status sd chart_ok chart_status chart_body,
    stock = Responded true status (Some sd) /\
    chart = Responded chart_ok chart_status chart_body /\
    sd_success sd = true /\ (chart_ok = true -> is_Some chart_body).
Proof.
  destruct stock as [e|[] st [sd|]], chart as [e'|[] st' [cd|]]; cbn;
    try discriminate; try (destruct (sd_success sd) eqn:Hsd; try discriminate);
    intros _; eexists _, _, _, _, _; splits; try reflexivity; eauto; discriminate.
Qed.

(** A successful load, from the first banner to the last. *)
Lemma loadStockData_success_eq s input status sd chart_ok chart_status chart_body :
  let symbol := toUpperCase (trim input) in
  symbol <> "" -> page_ok s = true -> chartsOk (charts s) = true ->
  sd_success sd = true ->
  (chart_ok = true -> is_Some chart_body) ->
  loadStockData input (Responded true status (Some sd))
                      (Responded chart_ok chart_status chart_body) s
  = (inr tt,
     set_document
       (alter (loadButton false) "load-data-btn"
          (alter (banner "Data loaded successfully" "success") "status-message"
             (writeEach (overviewFields sd)
                (alter (banner "Loading data..." "info") "status-message"
                   (alter (loadButton true) "load-data-btn" (document s))))))
       (set_charts (shownCharts (chartOutcome chart_ok chart_body) (charts s))
          (set_historicalData (chartOutcome chart_ok chart_body)
             (set_currentStock (Some symbol)
                (set_stockData (Some sd)
                   (set_requests (requests s ++ [GetAppData symbol "year";
                                                 GetHistoricalChartData symbol])%list
                      s)))))).
Proof.
  intros symbol Hsym Hok Hch Hsd Hbody.
  unfold loadStockData. cbv zeta. fold symbol.
  apply String.eqb_neq in Hsym. rewrite Hsym.
  rewrite (bind_eq _ _ _ _ _ (showLoading_eq true s ltac:(elem Hok))).
  erewrite bind_eq by (apply showStatus_eq; elem Hok).
  eapply finally_eq; [apply try_catch_ok_eq|].
  - unfold fetch.
    unfold bind at 1 2, modify at 1, ret at 1. cbv beta iota. fields.
    unfold bind at 1 2, modify at 1, ret at 1. cbv beta iota. fields.
    cbn [negb]. unfold bind at 1, ret at 1.
    unfold bind at 1, json at 1, ret at 1.
    assert (Hc : forall s0 : App,
      (if chart_ok then json chart_body
       else ret {| chart_success := false; chart_data := None |}) s0
      = (inr (if chart_ok then default {| chart_success := false; chart_data := None |} chart_body
              else {| chart_success := false; chart_data := None |}), s0)).
    { intros s0. destruct chart_ok; [|reflexivity].
      destruct (Hbody eq_refl) as [cd ->]. reflexivity. }
    rewrite (bind_eq _ _ _ _ _ (Hc _)).
    rewrite Hsd. cbn [negb]. unfold bind at 1, ret at 1.
    rewrite !bind_modify.
    rewrite (bind_eq _ _ _ _ _ (updateOverviewDisplay_eq _ _)).
    erewrite bind_eq by (apply updateCharts_eq; fields; exact Hch).
    apply showStatus_eq. elem Hok.
  - rewrite showLoading_eq by (elem Hok).
    assert (Hout : (if chart_success
                        (if chart_ok
                         then default {| chart_success := false; chart_data := None |}
                                chart_body
                         else {| chart_success := false; chart_data := None |})
                    then chart_data
                        (if chart_ok
                         then default {| chart_success := false; chart_data := None |}
                                chart_body
                         else {| chart_success := false; chart_data := None |})
                    else None) = chartOutcome chart_ok chart_body).
    { unfold chartOutcome. destruct chart_ok; [|reflexivity].
      destruct (Hbody eq_refl) as [cd ->]. reflexivity. }
    fields. rewrite Hout. same_state_with app_assoc.
Qed.

Lemma safeUpdateElement_eq id v s :
  safeUpdateElement id v s
  = (inr tt, set_document (alter (with_textContent v) id (document s)) s).
Proof. reflexivity. Qed.

Lemma clearDisplay_eq s :
  page_ok s = true ->
  clearDisplay s
  = (inr tt, set_valuationResults None (set_document (clearedPage (document s)) s)).
Proof.
  intros Hok. unfold clearDisplay.
  rewrite (bind_eq _ _ _ _ _ (safeUpdateEach_run _ _)). fold clearedFields.
  erewrite bind_eq by (apply setElement_eq; elem Hok).
  erewrite bind_eq by (apply setElement_eq; elem Hok).
  rewrite (bind_eq _ _ _ _ _ (safeUpdateElement_eq _ _ _)).
  rewrite (bind_eq _ _ _ _ _ (safeUpdateElement_eq _ _ _)).
  erewrite bind_eq by (apply setElement_eq; elem Hok).
  reflexivity.
Qed.

(** [clearCharts()] changes nothing but the charts; it throws when a chart
    was never created. *)
Lemma clearCharts_shape s :
  exists r c, clearCharts s = (r, set_charts c s) /\
    (chartsOk (charts s) = true -> r = inr tt /\ c = shownCharts None (charts s)) /\
    (roeRoa (charts s) = None -> (exists msg, r = inl (TypeError msg)) /\ c = charts s).
Proof.
  destruct (chartsOk (charts s)) eqn:Hc.
  - exists (inr tt), (shownCharts None (charts s)). splits.
    + apply clearCharts_eq, Hc.
    + auto.
    + intros Hn. unfold chartsOk in Hc. rewrite Hn in Hc. discriminate.
  - unfold clearCharts, bind, gets, deref, modify, ret, throw.
    destruct (roeRoa (charts s)) as [a|] eqn:Ha.
    + cbn [charts set_charts liquidity].
      destruct (liquidity (charts s)) as [b|] eqn:Hb.
      * eexists _, _. splits; [reflexivity|discriminate|discriminate].
      * eexists _, _. splits; [reflexivity|discriminate|discriminate].
    + exists (inl (TypeError "Cannot read properties of null or undefined: data")), (charts s).
      splits; [|discriminate|eauto].
      f_equal. destruct s as [? ? ? ? ? ? cs ? ?]. reflexivity.
Qed.

(** ** loadStockData *)

Lemma rev_app_empty s acc : String.rev_app s acc = "" <-> s = "" /\ acc = "".
Proof.
  revert acc. induction s as [|a s IH]; intros acc; cbn.
  - tauto.
  - rewrite IH. split; [intros [_ H]; discriminate|intros [H _]; discriminate].
Qed.

Lemma rev_empty s : String.rev s = "" <-> s = "".
Proof. unfold String.rev. rewrite rev_app_empty. tauto. Qed.

Lemma append_assoc (s t u : string) : (s ++ t) ++ u = s ++ (t ++ u).
Proof.
  induction s as [|a s IH]; [reflexivity|].
  change (String a ((s ++ t) ++ u) = String a (s ++ (t ++ u))). f_equal. exact IH.
Qed.

Lemma append_nil_r (s : string) : s ++ "" = s.
Proof.
  induction s as [|a s IH]; [reflexivity|].
  change (String a (s ++ "") = String a s). f_equal. exact IH.
Qed.

Lemma rev_app_append s acc : String.rev_app s acc = String.rev s ++ acc.
Proof.
  unfold String.rev. revert acc. induction s as [|a s IH]; intros acc; [reflexivity|].
  change (String.rev_app s (String a acc) = String.rev_app s (String a "") ++ acc).
  rewrite (IH (String a acc)), (IH (String a "")), append_assoc. reflexivity.
Qed.

Lemma rev_cons a s : String.rev (String a s) = String.rev s ++ String a "".
Proof. apply (rev_app_append s (String a "")). Qed.

Lemma rev_append s t : String.rev (s ++ t) = String.rev t ++ String.rev s.
Proof.
  induction s as [|a s IH].
  - symmetry. apply append_nil_r.
  - change (String.rev (String a (s ++ t)) = String.rev t ++ String.rev (String a s)).
    rewrite !rev_cons, IH, append_assoc. reflexivity.
Qed.

Lemma rev_involutive s : String.rev (String.rev s) = s.
Proof.
  induction s as [|a s IH]; [reflexivity|].
  rewrite rev_cons, rev_append, IH. reflexivity.
Qed.

Lemma toUpperCase_empty s : toUpperCase s = "" <-> s = "".
Proof. destruct s; cbn; split; congruence. Qed.

(** *** White space *)

Lemma is_space2_lead a b : is_space2 a b = true -> is_space a = false.
Proof.
  unfold is_space2, is_space. rewrite andb_true_iff, !Nat.eqb_eq.
  intros [-> _]. reflexivity.
Qed.

Lemma is_space3_lead a b c :
  is_space3 a b c = true -> is_space a = false /\ forall b', is_space2 a b' = false.
Proof.
  unfold is_space3, is_space2, is_space. cbv zeta.
  rewrite !orb_true_iff, !andb_true_iff, !Nat.eqb_eq.
  intros H.
  assert (Ha : In (nat_of_ascii a) [225; 226; 227; 239]%nat) by (cbn; intuition congruence).
  clear H. cbn in Ha.
  destruct Ha as [<-|[<-|[<-|[<-|[]]]]]; split; reflexivity.
Qed.

Lemma Blank_stripped s : Blank s -> stripSpace false s = "".
Proof.
  induction 1 as [|a s Ha _ IH|a b s Hab _ IH|a b c s Habc _ IH].
  - reflexivity.
  - cbn. rewrite Ha. exact IH.
  - cbn. rewrite (is_space2_lead a b Hab), Hab. exact IH.
  - destruct (is_space3_lead a b c Habc) as [H1 H2].
    cbn. rewrite H1, H2, Habc. exact IH.
Qed.

Lemma Blank_append s t : Blank s -> Blank t -> Blank (s ++ t).
Proof.
  induction 1 as [|a s Ha _ IH|a b s Hab _ IH|a b c s Habc _ IH]; intros Ht.
  - exact Ht.
  - change (Blank (String a (s ++ t))). apply Blank_1; auto.
  - change (Blank (String a (String b (s ++ t)))). apply Blank_2; auto.
  - change (Blank (String a (String b (String c (s ++ t))))). apply Blank_3; auto.
Qed.

(** What [stripSpace] removes is white space. *)
Lemma stripSpace_prefix n s :
  (String.length s <= n)%nat ->
  exists p, Blank p /\ s = p ++ stripSpace false s.
Proof.
  revert s. induction n as [|n IH]; intros s Hn.
  - destruct s; [|cbn in Hn; lia]. exists "". split; [constructor|reflexivity].
  - destruct s as [|a s1]; [exists ""; split; [constructor|reflexivity]|].
    cbn in Hn. cbn [stripSpace].
    destruct (is_space a) eqn:Ha.
    { destruct (IH s1 ltac:(lia)) as (p & Hp & E).
      exists (String a p). split; [apply Blank_1; assumption|].
      change (String a s1 = String a (p ++ stripSpace false s1)). congruence. }
    destruct s1 as [|b s2]; [exists ""; split; [constructor|reflexivity]|].
    cbn in Hn.
    destruct (is_space2 a b) eqn:Hab.
    { destruct (IH s2 ltac:(lia)) as (p & Hp & E).
      exists (String a (String b p)). split; [apply Blank_2; assumption|].
      change (String a (String b s2) = String a (String b (p ++ stripSpace false s2))).
      congruence. }
    destruct s2 as [|c s3]; [exists ""; split; [constructor|reflexivity]|].
    cbn in Hn.
    destruct (is_space3 a b c) eqn:Habc.
    { destruct (IH s3 ltac:(lia)) as (p & Hp & E).
      exists (String a (String b (String c p))). split; [apply Blank_3; assumption|].
      change (String a (String b (String c s3))
              = String a (String b (String c (p ++ stripSpace false s3)))).
      congruence. }
    exists "". split; [constructor|reflexivity].
Qed.

(** A reversed string that [stripSpace] empties is white space read from
    its end. *)
Lemma stripSpace_reversed n r :
  (String.length r <= n)%nat -> stripSpace true r = "" -> Blank (String.rev r).
Proof.
  revert r. induction n as [|n IH]; intros r Hn.
  - destruct r; [constructor|cbn in Hn; lia].
  - destruct r as [|a r1]; [constructor|].
    cbn in Hn. cbn [stripSpace].
    destruct (is_space a) eqn:Ha.
    { intros E. rewrite rev_cons. apply Blank_append; [apply IH; [lia|exact E]|].
      apply Blank_1; [exact Ha|constructor]. }
    destruct r1 as [|b r2]; [discriminate|].
    cbn in Hn.
    destruct (is_space2 b a) eqn:Hab.
    { intros E. rewrite !rev_cons, append_assoc.
      apply Blank_append; [apply IH; [lia|exact E]|].
      change (Blank (String b (String a ""))).
      apply Blank_2; [exact Hab|constructor]. }
    destruct r2 as [|c r3]; [discriminate|].
    cbn in Hn.
    destruct (is_space3 c b a) eqn:Habc; [|discriminate].
    intros E. rewrite !rev_cons, !append_assoc.
    apply Blank_append; [apply IH; [lia|exact E]|].
    change (Blank (String c (String b (String a "")))).
    apply Blank_3; [exact Habc|constructor].
Qed.

(** The symbol is empty exactly when the field holds nothing but white
    space. *)
Lemma symbol_empty_iff_blank input :
  toUpperCase (trim input) = "" <-> Blank input.
Proof.
  rewrite toUpperCase_empty. unfold trim, trimEnd, trimStart. rewrite rev_empty. split.
  - intros E.
    apply (stripSpace_reversed _ _ (Nat.le_refl _)) in E. rewrite rev_involutive in E.
    destruct (stripSpace_prefix _ input (Nat.le_refl _)) as (p & Hp & Ei).
    rewrite Ei. apply Blank_append; assumption.
  - intros H. rewrite (Blank_stripped _ H). reflexivity.
Qed.

Lemma loadStockData_blank_eq s input stock chart :
  toUpperCase (trim input) = "" -> is_Some (document s !! "status-message") ->
  loadStockData input stock chart s
  = (inr tt, set_document (alter (banner "Please enter a stock symbol" "error")
                                 "status-message" (document s)) s).
Proof.
  intros Hb He. unfold loadStockData. cbv zeta.
  rewrite Hb. cbn [String.eqb].
  apply showStatus_eq, He.
Qed.

Lemma page_ok_sameElements s s' :
  sameElements (document s) (document s') -> page_ok s = true -> page_ok s' = true.
Proof.
  unfold page_ok, has_ids, sameElements. intros H.
  rewrite !forallb_forall. intros Hs id Hid. specialize (Hs id Hid).
  apply bool_decide_eq_true. apply bool_decide_eq_true in Hs. apply H, Hs.
Qed.

(** The page has the same elements, however it was written to. *)
Ltac same_elements :=
  intros ?; fields;
  repeat first [rewrite lookup_alter_is_Some | rewrite writeEach_is_Some];
  reflexivity.

Ltac page_still_ok Hok :=
  refine (page_ok_sameElements _ _ _ Hok); unfold clearedPage; same_elements.

Lemma loadError_loadFails stock chart :
  loadFails stock chart = true <-> is_Some (loadError stock chart).
Proof.
  destruct stock as [e|[] st [sd|]], chart as [e'|[] st' [cd|]]; cbn;
    try destruct (sd_success sd); cbn;
    split; intros H; try discriminate; eauto; destruct H; discriminate.
Qed.

Lemma fetch_responded {A} r ok st (b : option A) s :
  fetch r (Responded ok st b) s = (inr (ok, st, b), set_requests (requests s ++ [r])%list s).
Proof. reflexivity. Qed.

Lemma fetch_rejected {A} r e s :
  @fetch A r (Rejected e) s = (inl e, set_requests (requests s ++ [r])%list s).
Proof. reflexivity. Qed.

(** The catch block of [loadStockData], up to its last statement. *)
Lemma load_catch_eq (error : Exn) s :
  page_ok s = true ->
  ((if String.eqb (name error) "AbortError" then
      showStatus "Timeout - Please try again later." "error"
    else
      showStatus ("Data loading error: " ++ message error) "error") ;;
   modify (set_stockData None) ;;
   modify (set_currentStock None) ;;
   modify (set_historicalData None) ;;
   clearDisplay ;;
   clearCharts) s
  = clearCharts
      (set_valuationResults None
         (set_document
            (clearedPage (alter (banner (loadErrorMessage error) "error") "status-message"
                            (document s)))
            (set_historicalData None (set_currentStock None (set_stockData None s))))).
Proof.
  intros Hok.
  assert (Hst : (if String.eqb (name error) "AbortError"
                 then showStatus "Timeout - Please try again later." "error"
                 else showStatus ("Data loading error: " ++ message error) "error")
                = showStatus (loadErrorMessage error) "error")
    by (unfold loadErrorMessage; destruct (String.eqb (name error) "AbortError");
        reflexivity).
  rewrite Hst.
  erewrite bind_eq by (apply showStatus_eq; elem Hok).
  rewrite !bind_modify.
  erewrite bind_eq by (apply clearDisplay_eq; page_still_ok Hok).
  reflexivity.
Qed.

Lemma set_charts_same s : set_charts (charts s) s = s.
Proof. destruct s; reflexivity. Qed.

Lemma updateCharts_missing s :
  roeRoa (charts s) = None ->
  updateCharts s
  = (inl (TypeError "Cannot read properties of null or undefined: data"), s).
Proof.
  intros H. unfold updateCharts, clearCharts, bind, gets, deref, throw.
  destruct (historicalData s); rewrite H; reflexivity.
Qed.

Lemma loadStockData_failure_eq s input stock chart e :
  let symbol := toUpperCase (trim input) in
  symbol <> "" -> page_ok s = true -> loadError stock chart = Some e ->
  exists r c,
    loadStockData input stock chart s
    = (r, set_charts c
            (set_document
               (alter (loadButton false) "load-data-btn"
                  (clearedPage
                     (alter (banner (loadErrorMessage e) "error") "status-message"
                        (alter (banner "Loading data..." "info") "status-message"
                           (alter (loadButton true) "load-data-btn" (document s))))))
               (clearedSession
                  (set_requests (requests s ++ loadRequests symbol stock)%list s)))) /\
    (chartsOk (charts s) = true -> r = inr tt /\ c = shownCharts None (charts s)) /\
    (roeRoa (charts s) = None -> (exists msg, r = inl (TypeError msg)) /\ c = charts s).
Proof.
  intros symbol Hsym Hok He.
  unfold loadStockData. cbv zeta. fold symbol.
  apply String.eqb_neq in Hsym. rewrite Hsym.
  rewrite (bind_eq _ _ _ _ _ (showLoading_eq true s ltac:(elem Hok))).
  erewrite bind_eq by (apply showStatus_eq; elem Hok).
  match goal with |- context [finally (try_catch ?b ?h) _ ?s0] =>
    set (body := b); set (handler := h); remember s0 as s2 eqn:Es2
  end.
  assert (Hok2 : page_ok s2 = true) by (subst s2; page_still_ok Hok).
  assert (Hb : body s2 = (inl e, set_requests (requests s2 ++ loadRequests symbol stock)%list s2)).
  { subst body.
    destruct stock as [e0|stock_ok st stock_body].
    { injection He as <-. apply bind_throw_eq. reflexivity. }
    rewrite (bind_eq _ _ _ _ _ (fetch_responded _ _ _ _ _)).
    destruct chart as [e'|chart_ok st' chart_body].
    { assert (He' : e' = e)
        by (destruct stock_ok, stock_body; cbn in He; congruence).
      subst e'. apply bind_throw_eq. rewrite fetch_rejected. same_state_with app_assoc. }
    rewrite (bind_eq _ _ _ _ _ (fetch_responded _ _ _ _ _)).
    cbv beta iota.
    match goal with |- _ ?s0 = _ => remember s0 as s3 eqn:Es3 end.
    assert (E3 : s3 = set_requests (requests s2 ++ loadRequests symbol
                                      (Responded stock_ok st stock_body))%list s2)
      by (subst s3; same_state_with app_assoc).
    rewrite <- E3. clear E3 Es3.
    destruct stock_ok; cbn [negb].
    2: { cbn in He. injection He as <-. apply bind_throw_eq.
         destruct (st =? 404)%Z; [reflexivity|destruct (st =? 500)%Z; reflexivity]. }
    rewrite (bind_eq _ _ _ _ _ (eq_refl : ret tt s3 = (inr tt, s3))).
    destruct stock_body as [sd|];
      [|cbn in He; injection He as <-; apply bind_throw_eq; reflexivity].
    rewrite (bind_eq _ _ _ _ _ (eq_refl : json (Some sd) s3 = (inr sd, s3))).
    destruct chart_ok; [destruct chart_body as [cd|]|].
    - rewrite (bind_eq _ _ _ _ _ (eq_refl : json (Some cd) s3 = (inr cd, s3))).
      cbn in He. destruct (sd_success sd); [discriminate He|].
      injection He as <-. apply bind_throw_eq. reflexivity.
    - cbn in He. injection He as <-. apply bind_throw_eq. reflexivity.
    - rewrite (bind_eq _ _ _ _ _ (eq_refl : ret _ s3 = (inr _, s3))).
      cbn in He. destruct (sd_success sd); [discriminate He|].
      injection He as <-. apply bind_throw_eq. reflexivity. }
  remember (set_requests (requests s2 ++ loadRequests symbol stock)%list s2) as s3 eqn:Es3.
  assert (Hok3 : page_ok s3 = true) by (subst s3; exact Hok2).
  destruct (clearCharts_shape
              (set_valuationResults None (set_document
                 (clearedPage (alter (banner (loadErrorMessage e) "error") "status-message"
                                 (document s3)))
                 (set_historicalData None (set_currentStock None (set_stockData None s3))))))
    as (r & c & Hcc & Hc1 & Hc2).
  exists r, c. split; [|subst s3 s2; exact (conj Hc1 Hc2)].
  assert (Hh : handler e s3
               = (r, set_charts c (set_valuationResults None (set_document
                    (clearedPage (alter (banner (loadErrorMessage e) "error") "status-message"
                                    (document s3)))
                    (set_historicalData None (set_currentStock None
                       (set_stockData None s3))))))).
  { subst handler. cbv beta. rewrite load_catch_eq by exact Hok3. exact Hcc. }
  assert (Ht : try_catch body handler s2
               = (r, set_charts c (set_valuationResults None (set_document
                    (clearedPage (alter (banner (loadErrorMessage e) "error") "status-message"
                                    (document s3)))
                    (set_historicalData None (set_currentStock None
                       (set_stockData None s3)))))))
    by (rewrite (try_catch_throw_eq _ _ _ _ _ Hb); exact Hh).
  (eapply eq_trans;
    [eapply finally_eq; [exact Ht|apply showLoading_eq; elem Hok3]|]).
  (subst s3 s2; unfold clearedSession; same_state).
Qed.

(** ** No method adds or removes an element *)

Lemma sameElements_refl d : sameElements d d.
Proof. intros id. reflexivity. Qed.

Lemma sameElements_trans d1 d2 d3 :
  sameElements d1 d2 -> sameElements d2 d3 -> sameElements d1 d3.
Proof. intros H1 H2 id. rewrite (H2 id). apply H1. Qed.

Lemma keepsElements_ret {A} (a : A) : keepsElements (ret a).
Proof. intros s. apply sameElements_refl. Qed.

Lemma keepsElements_throw {A} e : keepsElements (@throw A e).
Proof. intros s. apply sameElements_refl. Qed.

Lemma keepsElements_gets {A} (g : App -> A) : keepsElements (gets g).
Proof. intros s. apply sameElements_refl. Qed.

Lemma keepsElements_deref {A} what (o : option A) : keepsElements (deref what o).
Proof. destruct o; intros s; apply sameElements_refl. Qed.

Lemma keepsElements_json {A} (o : option A) : keepsElements (json o).
Proof. destruct o; intros s; apply sameElements_refl. Qed.

Lemma keepsElements_modify (f : App -> App) :
  (forall s, document (f s) = document s) -> keepsElements (modify f).
Proof. intros H s. unfold after, modify. cbn. rewrite H. apply sameElements_refl. Qed.

Lemma keepsElements_setElement id g : keepsElements (setElement id g).
Proof.
  intros s id'. unfold after, setElement. destruct (document s !! id); cbn; [|reflexivity].
  apply lookup_alter_is_Some.
Qed.

Lemma keepsElements_safeUpdateElement id v : keepsElements (safeUpdateElement id v).
Proof. intros s id'. cbn. apply lookup_alter_is_Some. Qed.

Lemma keepsElements_bind {A B} (m : M A) (k : A -> M B) :
  keepsElements m -> (forall a, keepsElements (k a)) -> keepsElements (bind m k).
Proof.
  intros Hm Hk s. specialize (Hm s). unfold after, bind in *.
  destruct (m s) as [[e|a] s1]; cbn in *; [exact Hm|].
  eapply sameElements_trans; [exact Hm|apply Hk].
Qed.

Lemma keepsElements_try_catch {A} (body : M A) handler :
  keepsElements body -> (forall e, keepsElements (handler e)) ->
  keepsElements (try_catch body handler).
Proof.
  intros Hm Hk s. specialize (Hm s). unfold after, try_catch in *.
  destruct (body s) as [[e|a] s1]; cbn in *; [|exact Hm].
  eapply sameElements_trans; [exact Hm|apply Hk].
Qed.

Lemma keepsElements_finally {A} (body : M A) cleanup :
  keepsElements body -> keepsElements cleanup -> keepsElements (finally body cleanup).
Proof.
  intros Hm Hk s. specialize (Hm s). specialize (Hk (after body s)).
  unfold after, finally in *.
  destruct (body s) as [r s1]; cbn in *.
  destruct (cleanup s1) as [[e|[]] s2]; cbn in *;
    (eapply sameElements_trans; [exact Hm|exact Hk]).
Qed.

Lemma keepsElements_fetch {A} r (o : Fetched A) : keepsElements (fetch r o).
Proof. destruct o; intros s; apply sameElements_refl. Qed.

Lemma keepsElements_safeUpdateEach l : keepsElements (safeUpdateEach l).
Proof.
  intros s id. unfold after. rewrite safeUpdateEach_run. cbn. apply writeEach_is_Some.
Qed.

Lemma keepsElements_setDataset i d c : keepsElements (setDataset i d c).
Proof. unfold setDataset. destruct (_ !! _); intros s; apply sameElements_refl. Qed.

(** Decomposing a method into the steps above. *)
Ltac keeps_elements_step :=
  lazymatch goal with
  | |- keepsElements (ret _) => apply keepsElements_ret
  | |- keepsElements (throw _) => apply keepsElements_throw
  | |- keepsElements (gets _) => apply keepsElements_gets
  | |- keepsElements (deref _ _) => apply keepsElements_deref
  | |- keepsElements (json _) => apply keepsElements_json
  | |- keepsElements (setElement _ _) => apply keepsElements_setElement
  | |- keepsElements (safeUpdateElement _ _) => apply keepsElements_safeUpdateElement
  | |- keepsElements (safeUpdateEach _) => apply keepsElements_safeUpdateEach
  | |- keepsElements (fetch _ _) => apply keepsElements_fetch
  | |- keepsElements (setDataset _ _ _) => apply keepsElements_setDataset
  | |- keepsElements (modify _) => apply keepsElements_modify; intros ?; reflexivity
  | |- keepsElements (bind _ _) => apply keepsElements_bind; [|intros ?]
  | |- keepsElements (try_catch _ _) => apply keepsElements_try_catch; [|intros ?]
  | |- keepsElements (finally _ _) => apply keepsElements_finally
  | |- keepsElements (match ?x with _ => _ end) => destruct x
  | |- keepsElements (showStatus _ _) => unfold showStatus
  | |- keepsElements (showLoading _) => unfold showLoading
  | |- keepsElements updateWeightDisplay => unfold updateWeightDisplay
  | |- keepsElements updateTotalWeight => unfold updateTotalWeight
  | |- keepsElements updateRecommendation => unfold updateRecommendation
  | |- keepsElements updateWeightedResults => unfold updateWeightedResults
  | |- keepsElements updateModelDetails => unfold updateModelDetails
  | |- keepsElements (showModelResult _ _ _ _) => unfold showModelResult
  | |- keepsElements updateValuationDisplay => unfold updateValuationDisplay
  | |- keepsElements (updateOverviewDisplay _) => unfold updateOverviewDisplay
  | |- keepsElements clearDisplay => unfold clearDisplay
  | |- keepsElements clearCharts => unfold clearCharts
  | |- keepsElements updateCharts => unfold updateCharts
  | |- keepsElements loadDefaultAssumptions => unfold loadDefaultAssumptions
  | |- keepsElements setupCharts => unfold setupCharts
  end.

Ltac keeps_elements := repeat (cbv zeta; keeps_elements_step).

Lemma keepsElements_loadStockData input stock chart :
  keepsElements (loadStockData input stock chart).
Proof. unfold loadStockData. cbv zeta. keeps_elements. Qed.

Lemma keepsElements_calculateValuation answer : keepsElements (calculateValuation answer).
Proof. unfold calculateValuation. keeps_elements. Qed.

Lemma keepsElements_updateModelWeights event : keepsElements (updateModelWeights event).
Proof.
  unfold updateModelWeights. cbv zeta. apply keepsElements_bind; [|intros ?; keeps_elements].
  apply keepsElements_modify. intros s.
  repeat (destruct (String.eqb _ _); [reflexivity|]). reflexivity.
Qed.

Lemma keepsElements_normalizeWeights : keepsElements normalizeWeights.
Proof. unfold normalizeWeights. keeps_elements. Qed.

Lemma keepsElements_resetAssumptions : keepsElements resetAssumptions.
Proof. unfold resetAssumptions. keeps_elements. Qed.

Lemma keepsElements_init : keepsElements init.
Proof. unfold init. keeps_elements. Qed.

(** ** What a method leaves alone *)

Lemma keeps_modify {X} (f : App -> X) (g : App -> App) :
  (forall s, f (g s) = f s) -> keeps f (modify g).
Proof. intros H s. apply H. Qed.

Lemma keeps_setElement {X} (f : App -> X) id g :
  (forall d s, f (set_document d s) = f s) -> keeps f (setElement id g).
Proof.
  intros H s. unfold after, setElement. destruct (document s !! id); cbn; [apply H|reflexivity].
Qed.

Lemma keeps_safeUpdateElement {X} (f : App -> X) id v :
  (forall d s, f (set_document d s) = f s) -> keeps f (safeUpdateElement id v).
Proof. intros H s. apply H. Qed.

Lemma keeps_safeUpdateEach {X} (f : App -> X) l :
  (forall d s, f (set_document d s) = f s) -> keeps f (safeUpdateEach l).
Proof. intros H s. unfold after. rewrite safeUpdateEach_run. apply H. Qed.

Lemma keeps_json {X A} (f : App -> X) (o : option A) : keeps f (json o).
Proof. destruct o; intros s; reflexivity. Qed.

Lemma keeps_fetch {X A} (f : App -> X) r (o : Fetched A) :
  (forall l s, f (set_requests l s) = f s) -> keeps f (fetch r o).
Proof. intros H s. destruct o; apply H. Qed.

Lemma keeps_setDataset {X} (f : App -> X) i d c : keeps f (setDataset i d c).
Proof. unfold setDataset. destruct (_ !! _); intros s; reflexivity. Qed.

Lemma keeps_finally {X A} (f : App -> X) (body : M A) cleanup :
  keeps f body -> keeps f cleanup -> keeps f (finally body cleanup).
Proof.
  intros Hm Hk s. specialize (Hm s). specialize (Hk (after body s)).
  unfold after, finally in *.
  destruct (body s) as [r s1]; cbn in *.
  destruct (cleanup s1) as [[e|[]] s2]; cbn in *; congruence.
Qed.

(** Decomposing a method into its steps; the goals left are the writes to
    the component itself. *)
Ltac keeps_field_step :=
  lazymatch goal with
  | |- keeps _ (ret _) => apply keeps_ret
  | |- keeps _ (throw _) => apply keeps_throw
  | |- keeps _ (gets _) => apply keeps_gets
  | |- keeps _ (deref _ _) => apply keeps_deref
  | |- keeps _ (json _) => apply keeps_json
  | |- keeps _ (setDataset _ _ _) => apply keeps_setDataset
  | |- keeps _ (setElement _ _) => apply keeps_setElement; intros ? ?; reflexivity
  | |- keeps _ (safeUpdateElement _ _) =>
      apply keeps_safeUpdateElement; intros ? ?; reflexivity
  | |- keeps _ (safeUpdateEach _) => apply keeps_safeUpdateEach; intros ? ?; reflexivity
  | |- keeps _ (fetch _ _) => apply keeps_fetch; intros ? ?; reflexivity
  | |- keeps _ (modify _) => apply keeps_modify; intros ?; reflexivity
  | |- keeps _ (bind _ _) => apply keeps_bind; [|intros ?]
  | |- keeps _ (try_catch _ _) => apply keeps_try_catch; [|intros ?]
  | |- keeps _ (finally _ _) => apply keeps_finally
  | |- keeps _ (match ?x with _ => _ end) => destruct x
  | |- keeps _ (showStatus _ _) => unfold showStatus
  | |- keeps _ (showLoading _) => unfold showLoading
  | |- keeps _ updateWeightDisplay => unfold updateWeightDisplay
  | |- keeps _ updateTotalWeight => unfold updateTotalWeight
  | |- keeps _ updateRecommendation => unfold updateRecommendation
  | |- keeps _ updateWeightedResults => unfold updateWeightedResults
  | |- keeps _ updateModelDetails => unfold updateModelDetails
  | |- keeps _ (showModelResult _ _ _ _) => unfold showModelResult
  | |- keeps _ updateValuationDisplay => unfold updateValuationDisplay
  | |- keeps _ (updateOverviewDisplay _) => unfold updateOverviewDisplay
  | |- keeps _ clearDisplay => unfold clearDisplay
  | |- keeps _ clearCharts => unfold clearCharts
  | |- keeps _ updateCharts => unfold updateCharts
  | |- keeps _ loadDefaultAssumptions => unfold loadDefaultAssumptions
  | |- keeps _ setupCharts => unfold setupCharts
  end.

Ltac keeps_field := repeat (cbv zeta; keeps_field_step).

Lemma calculateValuation_keeps_loaded answer :
  keeps currentStock (calculateValuation answer) /\
  keeps stockData (calculateValuation answer) /\
  keeps historicalData (calculateValuation answer) /\
  keeps assumptions (calculateValuation answer) /\
  keeps modelWeights (calculateValuation answer) /\
  keeps charts (calculateValuation answer).
Proof. unfold calculateValuation. splits; keeps_field. Qed.

Lemma loadStockData_keeps input stock chart :
  keeps assumptions (loadStockData input stock chart) /\
  keeps modelWeights (loadStockData input stock chart).
Proof. unfold loadStockData. splits; keeps_field. Qed.

Lemma modify_weights_keeps {X} (f : App -> X) sliderId v :
  (forall w s, f (set_modelWeights w s) = f s) ->
  keeps f (modify (fun s =>
    let w := modelWeights s in
    if String.eqb sliderId "fcfe-weight" then
      set_modelWeights {| fcfe := v; fcff := fcff w;
                          justified_pe := justified_pe w; justified_pb := justified_pb w |} s
    else if String.eqb sliderId "fcff-weight" then
      set_modelWeights {| fcfe := fcfe w; fcff := v;
                          justified_pe := justified_pe w; justified_pb := justified_pb w |} s
    else if String.eqb sliderId "pe-weight" then
      set_modelWeights {| fcfe := fcfe w; fcff := fcff w;
                          justified_pe := v; justified_pb := justified_pb w |} s
    else if String.eqb sliderId "pb-weight" then
      set_modelWeights {| fcfe := fcfe w; fcff := fcff w;
                          justified_pe := justified_pe w; justified_pb := v |} s
    else s)).
Proof.
  intros H s. unfold after, modify. cbn [snd]. cbv zeta.
  repeat (destruct (String.eqb _ _); [apply H|]). reflexivity.
Qed.

Lemma weight_handlers_keep (m : M unit) :
  (m = normalizeWeights \/ exists event, m = updateModelWeights event) ->
  keeps currentStock m /\ keeps stockData m /\ keeps historicalData m /\
  keeps assumptions m /\ keeps valuationResults m /\ keeps charts m /\
  keeps requests m.
Proof.
  intros [->|[event ->]].
  - unfold normalizeWeights. splits; keeps_field.
  - unfold updateModelWeights. cbv zeta.
    splits; (apply keeps_bind; [apply modify_weights_keeps; reflexivity|intros ?; keeps_field]).
Qed.

Lemma resetAssumptions_keeps :
  keeps currentStock resetAssumptions /\ keeps stockData resetAssumptions /\
  keeps historicalData resetAssumptions /\ keeps modelWeights resetAssumptions /\
  keeps valuationResults resetAssumptions /\ keeps charts resetAssumptions /\
  keeps requests resetAssumptions.
Proof. unfold resetAssumptions. splits; keeps_field. Qed.

(** ** Methods that only write to the page *)

Lemma edits_app l1 l2 d : edits (l1 ++ l2) d = edits l2 (edits l1 d).
Proof. apply fold_left_app. Qed.

Lemma lookup_edits l d id : edits l d !! id = editsAt l id <$> d !! id.
Proof.
  revert d. induction l as [|[id' f] l IH]; intros d.
  - cbn. destruct (d !! id); reflexivity.
  - change (edits ((id', f) :: l) d) with (edits l (alter f id' d)).
    change (editsAt ((id', f) :: l) id)
      with (fun e => editsAt l id (if String.eqb id' id then f e else e)).
    rewrite IH.
    destruct (String.eqb_spec id' id) as [->|Hne].
    + rewrite lookup_alter_eq. destruct (d !! id); reflexivity.
    + rewrite lookup_alter_ne by congruence. destruct (d !! id); reflexivity.
Qed.

Lemma edits_is_Some l d id : is_Some (edits l d !! id) <-> is_Some (d !! id).
Proof. rewrite lookup_edits. apply fmap_is_Some. Qed.

Lemma writeEach_edits l d :
  writeEach l d = edits (map (fun p => (p.1, with_textContent p.2)) l) d.
Proof.
  revert d. induction l as [|p l IH]; intros d; [reflexivity|].
  cbn. apply IH.
Qed.

Lemma sameElements_edits d d' l : sameElements d d' -> sameElements d (edits l d').
Proof. intros H id. rewrite edits_is_Some. apply H. Qed.

Lemma sameElements_is_Some d d' id : sameElements d d' -> is_Some (d !! id) -> is_Some (d' !! id).
Proof. intros H. apply H. Qed.

Lemma displaysFrom_start s m l :
  displaysFrom s (document s) m l ->
  m s = (inr tt, set_document (edits l (document s)) s).
Proof.
  intros H. specialize (H (document s) (fun id => reflexivity _)).
  rewrite set_document_same in H. exact H.
Qed.

Lemma displaysFrom_bind s d m (k : unit -> M unit) l1 l2 :
  displaysFrom s d m l1 -> displaysFrom s d (k tt) l2 ->
  displaysFrom s d (bind m k) (l1 ++ l2).
Proof.
  intros H1 H2 d' Hd. rewrite (bind_eq _ _ _ _ _ (H1 d' Hd)).
  rewrite (H2 _ (sameElements_edits _ _ l1 Hd)), edits_app. reflexivity.
Qed.

Lemma displaysFrom_assoc {A B} s d (m : M A) (k : A -> M B) (k' : B -> M unit) l :
  displaysFrom s d (bind m (fun a => bind (k a) k')) l ->
  displaysFrom s d (bind (bind m k) k') l.
Proof.
  intros H d' Hd. specialize (H d' Hd). revert H.
  unfold bind. destruct (m (set_document d' s)) as [[e|a] s1]; auto.
Qed.

Lemma displaysFrom_ret s d : displaysFrom s d (ret tt) [].
Proof. intros d' _. reflexivity. Qed.

Lemma displaysFrom_setElement s d id f :
  is_Some (d !! id) -> displaysFrom s d (setElement id f) [(id, f)].
Proof.
  intros H d' Hd. rewrite setElement_eq by (apply (Hd id), H). reflexivity.
Qed.

Lemma displaysFrom_safeUpdateElement s d id v :
  displaysFrom s d (safeUpdateElement id v) [(id, with_textContent v)].
Proof. intros d' _. reflexivity. Qed.

Lemma displaysFrom_safeUpdateEach s d l :
  displaysFrom s d (safeUpdateEach l) (map (fun p => (p.1, with_textContent p.2)) l).
Proof.
  intros d' _. rewrite safeUpdateEach_run, <- writeEach_edits. reflexivity.
Qed.

Lemma displaysFrom_gets {A} s d (f : App -> A) (k : A -> M unit) l :
  (forall d', f (set_document d' s) = f s) -> displaysFrom s d (k (f s)) l ->
  displaysFrom s d (bind (gets f) k) l.
Proof. intros Hf H d' Hd. unfold bind, gets. rewrite Hf. apply H, Hd. Qed.

Lemma displaysFrom_deref {A} s d what (a : A) (k : A -> M unit) l :
  displaysFrom s d (k a) l -> displaysFrom s d (bind (deref what (Some a)) k) l.
Proof. auto. Qed.

Lemma displaysFrom_run {A} s d (m : M A) (a : A) (k : A -> M unit) l :
  (forall s0, m s0 = (inr a, s0)) ->
  displaysFrom s d (k a) l -> displaysFrom s d (bind m k) l.
Proof. intros H1 H2 d' Hd. rewrite (bind_eq _ _ _ _ _ (H1 _)). apply H2, Hd. Qed.

Lemma has_ids_member ids d id :
  has_ids ids d = true -> existsb (String.eqb id) ids = true -> is_Some (d !! id).
Proof.
  intros H Hin. apply (has_ids_lookup ids _ _ H).
  apply existsb_exists in Hin. destruct Hin as (x & Hx & E).
  apply String.eqb_eq in E. subst x. exact Hx.
Qed.

(** The page, written to or not, still has the element. *)
Ltac has_element Hok :=
  lazymatch type of Hok with
  | has_ids ?ids _ = true => apply (has_ids_member ids _ _ Hok); vm_compute; reflexivity
  | _ => apply (has_ids_lookup required_ids _ _ Hok); cbn; tauto
  end.

Lemma setElement_if (c : bool) id f g :
  (if c then setElement id f else setElement id g) = setElement id (if c then f else g).
Proof. destruct c; reflexivity. Qed.

(** Running a method that only writes to the page, write by write. *)
Ltac displays_step Hok :=
  lazymatch goal with
  | |- displaysFrom _ _ (bind (bind _ _) _) _ => apply displaysFrom_assoc
  | |- displaysFrom _ _ (bind (gets _) _) _ =>
      apply displaysFrom_gets; [intros ?; reflexivity|]; fields
  | |- displaysFrom _ _ (bind (deref _ (Some _)) _) _ => apply displaysFrom_deref
  | |- displaysFrom _ _ (bind (ret _) _) _ => unfold bind at 1, ret at 1
  | |- displaysFrom _ _ (bind (setElement _ _) _) _ =>
      eapply displaysFrom_bind; [apply displaysFrom_setElement; has_element Hok|]
  | |- displaysFrom _ _ (bind (safeUpdateElement _ _) _) _ =>
      eapply displaysFrom_bind; [apply displaysFrom_safeUpdateElement|]
  | |- displaysFrom _ _ (bind (safeUpdateEach _) _) _ =>
      eapply displaysFrom_bind; [apply displaysFrom_safeUpdateEach|]
  | |- displaysFrom _ _ (setElement _ _) _ =>
      apply displaysFrom_setElement; has_element Hok
  | |- displaysFrom _ _ (safeUpdateElement _ _) _ => apply displaysFrom_safeUpdateElement
  | |- displaysFrom _ _ (safeUpdateEach _) _ => apply displaysFrom_safeUpdateEach
  | |- displaysFrom _ _ (ret tt) _ => apply displaysFrom_ret
  | |- displaysFrom _ _ (bind (showStatus _ _) _) _ => unfold showStatus at 1
  | |- displaysFrom _ _ (showStatus _ _) _ => unfold showStatus at 1
  | |- displaysFrom _ _ (bind (showLoading _) _) _ => unfold showLoading at 1
  | |- displaysFrom _ _ (bind (showModelResult _ _ _ _) _) _ => unfold showModelResult at 1
  | |- displaysFrom _ _ (bind updateWeightDisplay _) _ => unfold updateWeightDisplay at 1
  | |- displaysFrom _ _ updateWeightDisplay _ => unfold updateWeightDisplay at 1
  | |- displaysFrom _ _ updateWeightedResults _ => unfold updateWeightedResults at 1
  | |- displaysFrom _ _ loadDefaultAssumptions _ => unfold loadDefaultAssumptions at 1
  | |- displaysFrom _ _ (bind loadDefaultAssumptions _) _ => unfold loadDefaultAssumptions at 1
  | |- displaysFrom _ _ (bind updateTotalWeight _) _ => unfold updateTotalWeight at 1
  | |- displaysFrom _ _ updateTotalWeight _ => unfold updateTotalWeight at 1
  | |- displaysFrom _ _ (bind updateValuationDisplay _) _ => unfold updateValuationDisplay at 1
  | |- displaysFrom _ _ (bind updateWeightedResults _) _ => unfold updateWeightedResults at 1
  | |- displaysFrom _ _ (bind updateRecommendation _) _ => unfold updateRecommendation at 1
  | |- displaysFrom _ _ updateRecommendation _ => unfold updateRecommendation at 1
  | |- displaysFrom _ _ (bind updateModelDetails _) _ => unfold updateModelDetails at 1
  | |- displaysFrom _ _ updateModelDetails _ => unfold updateModelDetails at 1
  | |- displaysFrom _ _ (bind (if _ then setElement _ _ else setElement _ _) _) _ =>
      rewrite setElement_if
  | |- displaysFrom _ _ (if _ then setElement _ _ else setElement _ _) _ =>
      rewrite setElement_if
  end; cbv beta zeta.

Ltac displays Hok := repeat displays_step Hok.

(** ** calculateValuation *)

Lemma editsAt_other l id e : ~ In id (map fst l) -> editsAt l id e = e.
Proof.
  revert e. induction l as [|[id' f] l IH]; intros e Hn; [reflexivity|].
  change (editsAt ((id', f) :: l) id e)
    with (editsAt l id (if String.eqb id' id then f e else e)).
  cbn in Hn. destruct (String.eqb_spec id' id) as [->|Hne]; [tauto|].
  apply IH. tauto.
Qed.

Lemma try_catch_bind_eq {A B} (m : M A) (k : A -> M B) handler s a s1 :
  m s = (inr a, s1) -> try_catch (bind m k) handler s = try_catch (k a) handler s1.
Proof. unfold try_catch, bind. intros ->. reflexivity. Qed.

(** A good answer: the results are stored, then shown. *)
Lemma calculateValuation_stores s sym sd st r v shares :
  currentStock s = Some sym -> sym <> "" -> stockData s = Some sd ->
  page_ok s = true ->
  r_success r = true -> r_valuations r = Some v -> sharesFor sd r = Some shares ->
  calculateValuation (Responded true st (Some r)) s
  = try_catch
      (updateValuationDisplay ;;
       updateWeightedResults ;;
       updateRecommendation ;;
       setElement "export-report-btn" (with_disabled false) ;;
       showStatus "Valuation calculation completed" "success")
      (fun error =>
         showStatus ("Error calculating valuation: " ++ message error) "error")
      (set_document
         (alter (banner "Calculating valuation models..." "info") "status-message"
                (document s))
         (set_valuationResults (Some (storedResults sd r v shares))
            (set_requests (requests s ++ [PostValuation sym (requestData s)])%list s))).
Proof.
  intros Hcs Hsym Hsd Hok Hsucc Hv Hsh.
  unfold calculateValuation. unfold bind at 1, gets at 1. rewrite Hcs.
  cbn [noStock default]. apply String.eqb_neq in Hsym. rewrite Hsym.
  rewrite (try_catch_bind_eq _ _ _ _ _ _ (showStatus_eq _ _ s ltac:(elem Hok))).
  rewrite (try_catch_bind_eq _ _ _ _ _ _ (eq_refl : gets assumptions _ = (inr _, _))).
  rewrite (try_catch_bind_eq _ _ _ _ _ _ (eq_refl : gets modelWeights _ = (inr _, _))).
  fields.
  rewrite (try_catch_bind_eq _ _ _ _ _ _ (fetch_responded _ _ _ _ _)). cbv beta iota.
  cbn [negb].
  rewrite (try_catch_bind_eq _ _ _ _ _ _ (eq_refl : ret tt _ = (inr tt, _))).
  rewrite (try_catch_bind_eq _ _ _ _ _ _ (eq_refl : json (Some r) _ = (inr r, _))).
  rewrite Hsucc. cbn [negb].
  rewrite (try_catch_bind_eq _ _ _ _ _ _ (eq_refl : ret tt _ = (inr tt, _))).
  rewrite Hv.
  rewrite (try_catch_bind_eq _ _ _ _ _ _ (eq_refl : deref _ (Some v) _ = (inr v, _))).
  match goal with |- try_catch (bind ?m _) _ ?s0 = _ =>
    assert (Hg : m s0 = (inr sd, s0))
      by (unfold bind, gets; fields; rewrite Hsd; reflexivity)
  end.
  rewrite (try_catch_bind_eq _ _ _ _ _ _ Hg). clear Hg.
  match goal with |- try_catch (bind ?m _) _ ?s0 = _ =>
    assert (Hg : m s0 = (inr shares, s0))
  end.
  { unfold sharesFor in Hsh.
    destruct (ToBoolean (num_field sd "shares_outstanding")).
    - injection Hsh as <-. reflexivity.
    - destruct (r_financial_data r) as [fd|]; [|discriminate Hsh].
      injection Hsh as <-. reflexivity. }
  rewrite (try_catch_bind_eq _ _ _ _ _ _ Hg). clear Hg.
  rewrite (try_catch_bind_eq _ _ _ _ _ _ (eq_refl : modify _ _ = (inr tt, _))).
  reflexivity.
Qed.

Lemma chosen_recommendation vr sd s :
  recommendationOk vr = true ->
  match market_comparison vr with
  | Some mc =>
      r <- deref "includes" (recommendation mc) ;;
      ret (r, statusOf r,
           ([Lit "Based on 4-model average of "] ++ formatCurrency (weighted_average vr)
            ++ [Lit " vs current price "]
            ++ formatCurrency (num_field sd "current_price"))%list)
  | None =>
      let '(r, st, reasoning) := classifyRecommendation (heldUpside vr sd) in
      ret (r, st, [Lit reasoning])
  end s
  = (inr ((shownRecommendation vr sd).1, (shownRecommendation vr sd).2, heldReasoning vr sd),
     s).
Proof.
  unfold recommendationOk, shownRecommendation, heldReasoning.
  destruct (market_comparison vr) as [mc|].
  - intros H. apply bool_decide_eq_true in H. destruct H as [r Hr]. rewrite Hr. reflexivity.
  - intros _. cbv zeta.
    change (heldUpside vr sd) with (modelUpside (weighted_average vr) sd).
    unfold classifyRecommendation.
    destruct (15 <? _)%float; [reflexivity|]. destruct (_ <? -15)%float; reflexivity.
Qed.

(** What two runs of writes make of an element, compared by running them. *)
Ltac run_writes :=
  cbv beta iota zeta delta
    [editsAt fold_left app fst snd String.eqb Ascii.eqb Bool.eqb
     afterValuation shownDiff shownTotal banner loadButton
     with_textContent with_className with_disabled with_value
     textContent className disabled value heldUpside modelUpside
     computeUpsidePercent signedPercent signedText diffClass signClass
     statusSpan spanText justifiedRatio detailEps detailBvps
     totalIsCorrect totalWeight].

Ltac same_outcome :=
  run_writes;
  lazymatch goal with |- ?a = ?b => constr_eq a b; reflexivity end.

(** Two runs of writes with the same outcome. *)
Lemma edits_same_outcome l1 l2 ids d :
  forallb (fun id => existsb (String.eqb id) ids) (map fst l1 ++ map fst l2) = true ->
  Forall (fun id => forall e, editsAt l1 id e = editsAt l2 id e) ids ->
  edits l1 d = edits l2 d.
Proof.
  intros Hin Hall. apply map_eq. intros id. rewrite !lookup_edits.
  destruct (d !! id) as [e|]; [|reflexivity]. cbn. f_equal.
  destruct (existsb (String.eqb id) ids) eqn:Hid.
  - apply existsb_exists in Hid. destruct Hid as (id' & Hin' & Heq).
    apply String.eqb_eq in Heq. subst id'.
    rewrite Forall_forall in Hall. apply (Hall id). apply list_elem_of_In, Hin'.
  - rewrite forallb_app, andb_true_iff, !forallb_forall in Hin. destruct Hin as [H1 H2].
    rewrite !editsAt_other; [reflexivity| |].
    + intros Hi. apply H2 in Hi. congruence.
    + intros Hi. apply H1 in Hi. congruence.
Qed.

(** What a valuation shows, once the results are stored. *)
Lemma valuation_shown b d sd vr fd :
  stockData b = Some sd -> valuationResults b = Some vr ->
  financial_data vr = Some fd -> recommendationOk vr = true ->
  has_ids required_ids d = true ->
  (updateValuationDisplay ;;
   updateWeightedResults ;;
   updateRecommendation ;;
   setElement "export-report-btn" (with_disabled false) ;;
   showStatus "Valuation calculation completed" "success") (set_document d b)
  = (inr tt, set_document (edits (afterValuation vr sd fd) d) b).
Proof.
  intros Hsd Hvr Hfd Hrec Hok.
  match goal with |- ?m (set_document d b) = _ =>
    eassert (H : displaysFrom b d m _)
  end.
  { displays Hok; rewrite Hsd; displays Hok; rewrite Hvr; displays Hok.
    rewrite Hvr, Hsd; cbv beta iota zeta; rewrite Hfd; displays Hok.
    rewrite Hvr; displays Hok; rewrite Hsd; displays Hok.
    eapply displaysFrom_run; [intros ?; apply (chosen_recommendation vr sd _ Hrec)|].
    cbv beta iota zeta. displays Hok.
    rewrite Hvr; displays Hok; rewrite Hsd; displays Hok.
    rewrite Hvr; displays Hok; rewrite Hsd; displays Hok.
    eapply displaysFrom_run; [intros ?; apply (chosen_recommendation vr sd _ Hrec)|].
    cbv beta iota zeta. displays Hok. }
  rewrite (H d (fun id => reflexivity _)). clear H. do 2 f_equal.
  apply (edits_same_outcome _ _ (map fst (afterValuation vr sd fd))).
  - vm_compute. reflexivity.
  - cbn [map fst afterValuation].
    (repeat (apply Forall_cons; split; [intros e; same_outcome|])).
    apply Forall_nil. exact I.
Qed.

Lemma has_ids_sameElements ids d d' :
  sameElements d d' -> has_ids ids d = true -> has_ids ids d' = true.
Proof.
  unfold has_ids, sameElements. intros H. rewrite !forallb_forall. intros Hs id Hid.
  specialize (Hs id Hid). apply bool_decide_eq_true. apply bool_decide_eq_true in Hs.
  apply H, Hs.
Qed.

(** A successful valuation, from the request to the last banner. *)
Lemma calculateValuation_success_eq s sym sd st r v fd shares :
  currentStock s = Some sym -> sym <> "" -> stockData s = Some sd ->
  page_ok s = true ->
  r_success r = true -> r_valuations r = Some v -> sharesFor sd r = Some shares ->
  r_financial_data r = Some fd ->
  recommendationOk (storedResults sd r v shares) = true ->
  calculateValuation (Responded true st (Some r)) s
  = (inr tt,
     set_document (edits (afterValuation (storedResults sd r v shares) sd fd) (document s))
       (set_valuationResults (Some (storedResults sd r v shares))
          (set_requests (requests s ++ [PostValuation sym (requestData s)])%list s))).
Proof.
  intros Hcs Hsym Hsd Hok Hsucc Hv Hsh Hfd Hrec.
  rewrite (calculateValuation_stores s sym sd st r v shares) by assumption.
  apply try_catch_ok_eq.
  rewrite (valuation_shown _ _ sd (storedResults sd r v shares) fd); try assumption;
    try reflexivity.
  - do 2 f_equal.
    change (alter (banner "Calculating valuation models..." "info") "status-message"
              (document s))
      with (edits [("status-message", banner "Calculating valuation models..." "info")]
              (document s)).
    rewrite <- edits_app.
    apply (edits_same_outcome _ _ (map fst (afterValuation (storedResults sd r v shares) sd fd))).
    + vm_compute. reflexivity.
    + cbn [map fst afterValuation].
      repeat (apply Forall_cons; split; [intros e; same_outcome|]).
      apply Forall_nil. exact I.
  - refine (has_ids_sameElements _ _ _ _ Hok). intros id. apply lookup_alter_is_Some.
Qed.

(** * Further properties of the methods *)


(** X1. [safeUpdateElement] never throws: on a page without the element it
    changes nothing, where the direct write of the other methods raises a
    TypeError; on a page with the element it is that write, and it touches
    the text of that element only. *)
Theorem safeUpdateElement_guards_missing_element id v s :
  (safeUpdateElement id v s).1 = inr tt /\
  (document s !! id = None ->
     after (safeUpdateElement id v) s = s /\
     exists msg, setElement id (with_textContent v) s = (inl (TypeError msg), s)) /\
  (forall e, document s !! id = Some e ->
     document (after (safeUpdateElement id v) s) !! id = Some (with_textContent v e) /\
     safeUpdateElement id v s = setElement id (with_textContent v) s) /\
  (forall id', id' <> id ->
     document (after (safeUpdateElement id v) s) !! id' = document s !! id') /\
  after (safeUpdateElement id v) s
    = set_document (document (after (safeUpdateElement id v) s)) s.
Proof.
  unfold after, safeUpdateElement, setElement, modify. cbn [fst snd document set_document].
  splits.
  - reflexivity.
  - intros H. rewrite H. split; [|eauto].
    rewrite alter_id; [apply set_document_same|]. intros x Hx. congruence.
  - intros e H. rewrite H, lookup_alter_eq, H. auto.
  - intros id' Hne. apply lookup_alter_ne. congruence.
  - destruct s; reflexivity.
Qed.

Lemma safeUpdateElement_guards_missing_element_witness :
  after (safeUpdateElement "ev-ebitda-ratio" [Lit "--"]) opened = opened.
Proof.
  apply (proj1 (proj2 (safeUpdateElement_guards_missing_element
                         "ev-ebitda-ratio" [Lit "--"] opened))).
  vm_compute. reflexivity.
Defined.

(** X2. The symbol is empty exactly when the symbol field holds nothing
    but white space (of ASCII or of Unicode); [loadStockData] then sends no
    request and changes nothing but the banner, which asks for a symbol. *)
Theorem blank_symbol_loads_nothing s input stock chart :
  is_Some (document s !! "status-message") ->
  (toUpperCase (trim input) = "" <-> Blank input) /\
  (Blank input ->
   loadStockData input stock chart s
   = (inr tt, set_document (alter (banner "Please enter a stock symbol" "error")
                                  "status-message" (document s)) s)).
Proof.
  intros He. split; [apply symbol_empty_iff_blank|].
  intros Hb. apply loadStockData_blank_eq; [|assumption].
  apply symbol_empty_iff_blank, Hb.
Qed.

Lemma blank_symbol_loads_nothing_witness :
  loadStockData "  " (Rejected NetworkError) (Rejected NetworkError) opened
  = (inr tt, set_document (alter (banner "Please enter a stock symbol" "error")
                                 "status-message" (document opened)) opened).
Proof.
  apply (proj2 (blank_symbol_loads_nothing opened "  " (Rejected NetworkError)
                  (Rejected NetworkError) ltac:(vm_compute; eauto))).
  repeat (apply Blank_1; [reflexivity|]). constructor.
Defined.








Lemma lookup_clearedPage_other d id :
  lastWrite clearedFields id = None -> id <> "recommendation" ->
  id <> "final-recommendation" -> id <> "recommendation-reasoning" ->
  id <> "confidence-level" -> id <> "export-report-btn" ->
  clearedPage d !! id = d !! id.
Proof.
  intros H n1 n2 n3 n4 n5. unfold clearedPage.
  rewrite !lookup_alter_ne by congruence. rewrite lookup_writeEach, H. reflexivity.
Qed.

(** X5. A load that fails says why in the banner, as an error: the timeout
    message when the request was aborted, and otherwise the message of the
    exception after the words [Data loading error: ].  The exception is the
    rejection of a request, before anything else; then the status of the
    stock answer (404, 500, other); then [success: false] with the error text
    of the answer.  So a stock answer of 404 is reported as a network error
    when the chart request could not be sent. *)
Theorem failed_load_reports_the_cause s input stock chart e :
  toUpperCase (trim input) <> "" -> page_ok s = true ->
  loadError stock chart = Some e ->
  let s' := after (loadStockData input stock chart) s in
  document s' !! "status-message"
    = banner (loadErrorMessage e) "error" <$> document s !! "status-message" /\
  loadErrorMessage AbortError = "Timeout - Please try again later." /\
  (forall body c,
     loadError (Responded false 404 body) (Responded true 200 c)
     = Some (Error "No data found for this stock symbol")) /\
  (forall body c,
     loadError (Responded false 500 body) (Responded true 200 c)
     = Some (Error "Server error while loading data")) /\
  (forall body c,
     loadError (Responded false 403 body) (Responded true 200 c)
     = Some (Error "Unable to connect to server")) /\
  (forall body, loadError (Responded false 404 body) (Rejected NetworkError)
                = Some NetworkError) /\
  (forall sd c msg,
     sd_success sd = false -> sd_error sd = Some msg -> msg <> "" ->
     loadError (Responded true 200 (Some sd)) (Responded false 404 c) = Some (Error msg)).
Proof.
  intros Hsym Hok He s'.
  destruct (loadStockData_failure_eq s input stock chart e Hsym Hok He)
    as (r & c & E & _).
  splits; try reflexivity.
  - unfold s', after. rewrite E. cbn [snd]. fields.
    rewrite lookup_alter_ne by discriminate.
    rewrite lookup_clearedPage_other by (try discriminate; vm_compute; reflexivity).
    rewrite lookup_alter_eq, lookup_alter_eq, lookup_alter_ne by discriminate.
    destruct (document s !! "status-message"); reflexivity.
  - intros sd c0 msg H1 H2 H3. cbn. rewrite H1, H2. cbn.
    apply String.eqb_neq in H3. rewrite H3. reflexivity.
Qed.

Lemma failed_load_reports_the_cause_witness :
  document (after (loadStockData "xyz" (Responded false 404 None)
                                       (Responded false 404 None)) opened)
    !! "status-message"
  = banner "Data loading error: No data found for this stock symbol" "error"
      <$> document opened !! "status-message".
Proof.
  refine (proj1 (failed_load_reports_the_cause opened "xyz" (Responded false 404 None)
                   (Responded false 404 None)
                   (Error "No data found for this stock symbol") _ _ _)).
  - vm_compute. discriminate.
  - vm_compute. reflexivity.
  - reflexivity.
Defined.

Lemma page_ok_after {A} (m : M A) s :
  keepsElements m -> page_ok s = true -> page_ok (after m s) = true.
Proof. intros H. apply page_ok_sameElements, H. Qed.

Lemma load_button_is_released_aux s input stock chart :
  toUpperCase (trim input) <> "" -> page_ok s = true ->
  let s' := after (loadStockData input stock chart) s in
  disabled <$> document s' !! "load-data-btn" = Some false /\
  shown "load-data-btn" s' = Some [Lit "Load Company Data"].
Proof.
  intros Hsym Hok s'. subst s'.
  unfold loadStockData. cbv zeta.
  apply String.eqb_neq in Hsym. rewrite Hsym.
  unfold after at 1 2.
  rewrite (bind_eq _ _ _ _ _ (showLoading_eq true s ltac:(elem Hok))).
  erewrite bind_eq by (apply showStatus_eq; elem Hok).
  match goal with |- context [finally ?b ?c ?s0] =>
    set (body := b); set (s2 := s0);
    change (disabled <$> document (after (finally body c) s2) !! "load-data-btn"
            = Some false /\
            shown "load-data-btn" (after (finally body c) s2)
            = Some [Lit "Load Company Data"])
  end.
  assert (Hok2 : page_ok s2 = true) by (subst s2; page_still_ok Hok).
  clearbody s2.
  assert (Hok3 : page_ok (after body s2) = true).
  { apply page_ok_after; [|exact Hok2]. subst body. keeps_elements. }
  rewrite finally_after. unfold after at 1 3.
  rewrite showLoading_eq by (elem Hok3). cbn [snd document set_document].
  unfold shown. cbn [document set_document]. rewrite lookup_alter_eq.
  destruct (has_ids_lookup required_ids _ "load-data-btn" Hok3 ltac:(cbn; tauto)) as [e0 ->].
  split; reflexivity.
Qed.

(** X6. However a load with a symbol ends (data shown, or an error reported,
    or even an exception of the catch block itself), the load button is
    enabled again and carries its label: the [finally] block runs last. *)
Theorem load_button_is_released s input stock chart :
  toUpperCase (trim input) <> "" -> page_ok s = true ->
  let s' := after (loadStockData input stock chart) s in
  disabled <$> document s' !! "load-data-btn" = Some false /\
  shown "load-data-btn" s' = Some [Lit "Load Company Data"].
Proof. exact (load_button_is_released_aux s input stock chart). Qed.

Lemma load_button_is_released_witness :
  disabled <$> document (after (loadStockData "xyz" (Rejected AbortError)
                                                   (Rejected AbortError)) opened)
                 !! "load-data-btn" = Some false.
Proof.
  refine (proj1 (load_button_is_released opened "xyz" (Rejected AbortError)
                   (Rejected AbortError) _ _)).
  - vm_compute. discriminate.
  - vm_compute. reflexivity.
Defined.

(** X7. Without charts (the chart library did not load, so that no chart was
    created), no load can succeed: with good answers the data are set and
    shown, then drawing the charts raises a TypeError; the catch block
    reports it, clears the session and, clearing the charts, raises again, so
    that [loadStockData] itself ends with a TypeError. *)
Theorem load_without_charts_fails s input status sd chart_ok chart_status chart_body :
  let symbol := toUpperCase (trim input) in
  let stock := Responded true status (Some sd) in
  let chart := Responded chart_ok chart_status chart_body in
  let s' := after (loadStockData input stock chart) s in
  symbol <> "" -> page_ok s = true -> roeRoa (charts s) = None ->
  sd_success sd = true -> (chart_ok = true -> is_Some chart_body) ->
  (exists msg, (loadStockData input stock chart s).1 = inl (TypeError msg)) /\
  currentStock s' = None /\ stockData s' = None /\ historicalData s' = None /\
  valuationResults s' = None /\
  (exists msg,
     document s' !! "status-message"
     = banner ("Data loading error: " ++ msg) "error" <$> document s !! "status-message") /\
  shown "load-data-btn" s' = Some [Lit "Load Company Data"].
Proof.
  intros symbol stock chart s' Hsym Hok Hch Hsd Hbody.
  assert (Hbtn := proj2 (load_button_is_released_aux s input stock chart Hsym Hok)).
  fold s' in Hbtn.
  assert (E : exists msg1 msg2,
    loadStockData input stock chart s
    = (inl (TypeError msg2),
       set_document
         (alter (loadButton false) "load-data-btn"
            (clearedPage
               (alter (banner (loadErrorMessage (TypeError msg1)) "error") "status-message"
                  (writeEach (overviewFields sd)
                     (alter (banner "Loading data..." "info") "status-message"
                        (alter (loadButton true) "load-data-btn" (document s)))))))
         (clearedSession
            (set_requests (requests s ++ [GetAppData symbol "year";
                                          GetHistoricalChartData symbol])%list s)))).
  { unfold loadStockData, stock, chart. cbv zeta. fold symbol.
    apply String.eqb_neq in Hsym. rewrite Hsym.
    rewrite (bind_eq _ _ _ _ _ (showLoading_eq true s ltac:(elem Hok))).
    erewrite bind_eq by (apply showStatus_eq; elem Hok).
    match goal with |- context [finally (try_catch ?b ?h) _ ?s0] =>
      set (body := b); set (handler := h); remember s0 as s2 eqn:Es2
    end.
    assert (Hok2 : page_ok s2 = true) by (subst s2; page_still_ok Hok).
    assert (Hch2 : roeRoa (charts s2) = None) by (subst s2; exact Hch).
    exists "Cannot read properties of null or undefined: data".
    assert (Hb :
      body s2 = (inl (TypeError "Cannot read properties of null or undefined: data"),
                 set_document (writeEach (overviewFields sd) (document s2))
                   (set_historicalData (chartOutcome chart_ok chart_body)
                      (set_currentStock (Some symbol)
                         (set_stockData (Some sd)
                            (set_requests (requests s2 ++ [GetAppData symbol "year";
                                             GetHistoricalChartData symbol])%list s2)))))).
    { subst body.
      rewrite (bind_eq _ _ _ _ _ (fetch_responded _ _ _ _ _)).
      rewrite (bind_eq _ _ _ _ _ (fetch_responded _ _ _ _ _)).
      cbv beta iota. cbn [negb]. unfold bind at 1, ret at 1.
      unfold bind at 1, json at 1, ret at 1.
      assert (Hc : forall s0 : App,
        (if chart_ok then json chart_body
         else ret {| chart_success := false; chart_data := None |}) s0
        = (inr (if chart_ok then default {| chart_success := false; chart_data := None |} chart_body
                else {| chart_success := false; chart_data := None |}), s0)).
      { intros s0. destruct chart_ok; [|reflexivity].
        destruct (Hbody eq_refl) as [cd ->]. reflexivity. }
      rewrite (bind_eq _ _ _ _ _ (Hc _)).
      rewrite Hsd. cbn [negb]. unfold bind at 1, ret at 1.
      rewrite !bind_modify.
      rewrite (bind_eq _ _ _ _ _ (updateOverviewDisplay_eq _ _)).
      erewrite bind_throw_eq by (apply updateCharts_missing; fields; exact Hch2).
      assert (Hout : (if chart_success
                          (if chart_ok
                           then default {| chart_success := false; chart_data := None |}
                                  chart_body
                           else {| chart_success := false; chart_data := None |})
                      then chart_data
                          (if chart_ok
                           then default {| chart_success := false; chart_data := None |}
                                  chart_body
                           else {| chart_success := false; chart_data := None |})
                      else None) = chartOutcome chart_ok chart_body).
      { unfold chartOutcome. destruct chart_ok; [|reflexivity].
        destruct (Hbody eq_refl) as [cd ->]. reflexivity. }
      fields. rewrite Hout. same_state_with app_assoc. }
    match type of Hb with _ = (_, ?s0) => remember s0 as s3 eqn:Es3 end.
    assert (Hok3 : page_ok s3 = true) by (subst s3; page_still_ok Hok2).
    assert (Hch3 : roeRoa (charts s3) = None) by (subst s3; exact Hch2).
    pose proof (load_catch_eq
                  (TypeError "Cannot read properties of null or undefined: data")
                  s3 Hok3) as Hh.
    match type of Hh with _ = clearCharts ?s0 =>
      destruct (clearCharts_shape s0) as (r & c & Hcc & _ & Hc2);
      destruct (Hc2 Hch3) as [[msg2 ->] ->];
      rewrite set_charts_same in Hcc; rewrite Hcc in Hh
    end.
    exists msg2.
    eapply eq_trans;
      [eapply finally_eq;
         [rewrite (try_catch_throw_eq _ _ _ _ _ Hb); exact Hh
         |apply showLoading_eq; unfold clearedPage; elem Hok3]|].
    subst s3 s2. unfold clearedSession. same_state. }
  destruct E as (msg1 & msg2 & E).
  unfold s', after in *. rewrite E in *. cbn [fst snd] in *.
  splits; try reflexivity; eauto.
  exists msg1. fields.
  rewrite lookup_alter_ne by discriminate.
  rewrite lookup_clearedPage_other by (try discriminate; vm_compute; reflexivity).
  rewrite lookup_alter_eq, lookup_writeEach.
  replace (lastWrite (overviewFields sd) "status-message") with (@None text)
    by (vm_compute; reflexivity).
  rewrite lookup_alter_eq, lookup_alter_ne by discriminate.
  destruct (document s !! "status-message"); reflexivity.
Qed.

Lemma load_without_charts_fails_witness :
  stockData (after (loadStockData "vcb" (Responded true 200 (Some sampleStock))
                                        (Responded false 404 None)) openedWithoutCharts)
  = None.
Proof.
  refine (proj1 (proj2 (proj2 (load_without_charts_fails openedWithoutCharts "vcb" 200
                                 sampleStock false 404 None _ _ _ _ _)))).
  - vm_compute. discriminate.
  - vm_compute. reflexivity.
  - vm_compute. reflexivity.
  - reflexivity.
  - discriminate.
Defined.

Lemma calculateValuation_nostock_eq s answer :
  noStock (currentStock s) = true -> is_Some (document s !! "status-message") ->
  calculateValuation answer s
  = (inr tt, set_document (alter (banner "Please load company data first" "error")
                                 "status-message" (document s)) s).
Proof.
  intros Hno He. unfold calculateValuation. unfold bind at 1, gets at 1.
  rewrite Hno. apply showStatus_eq, He.
Qed.

(** X8. Without a loaded symbol (none, or the empty string)
    [calculateValuation] sends no request, whatever the engine would answer,
    and changes nothing but the banner, which asks to load company data
    first. *)
Theorem calculate_needs_loaded_stock s answer :
  currentStock s = None \/ currentStock s = Some "" ->
  is_Some (document s !! "status-message") ->
  calculateValuation answer s
  = (inr tt, set_document (alter (banner "Please load company data first" "error")
                                 "status-message" (document s)) s) /\
  requests (after (calculateValuation answer) s) = requests s /\
  valuationResults (after (calculateValuation answer) s) = valuationResults s.
Proof.
  intros Hcs He.
  assert (E : calculateValuation answer s
              = (inr tt, set_document (alter (banner "Please load company data first" "error")
                                             "status-message" (document s)) s)).
  { apply calculateValuation_nostock_eq; [|exact He].
    destruct Hcs as [->| ->]; reflexivity. }
  unfold after. rewrite E. auto.
Qed.

Lemma calculate_needs_loaded_stock_witness :
  requests (after (calculateValuation (Responded true 200 (Some sampleAnswer))) opened)
  = requests opened.
Proof.
  refine (proj1 (proj2
    (calculate_needs_loaded_stock opened (Responded true 200 (Some sampleAnswer)) _ _))).
  - left. vm_compute. reflexivity.
  - vm_compute. eauto.
Defined.

(** Reading an element off a run of writes. *)
Ltac read_off :=
  cbv beta iota zeta delta
    [fmap option_fmap option_map editsAt fold_left app fst snd
     String.eqb Ascii.eqb Bool.eqb
     afterValuation shownDiff banner loadButton
     with_textContent with_className with_disabled with_value
     textContent className disabled value
     storedResults weighted_average vr_fcfe vr_fcff vr_justified_pe vr_justified_pb
     shareValue equityValue];
  reflexivity.

(** X9. A valuation that succeeds stores the values of the engine as they
    are (its weighted average included; the equity values are the share
    values times the shares), sends one request carrying the assumptions and
    the weights, and leaves the page as [afterValuation] says: every result
    row, the summary, the details and the recommendation show the stored
    values, the export button is enabled, the banner reports success, and no
    other element changes. *)
Theorem successful_valuation_is_shown s sym sd st r v fd shares :
  currentStock s = Some sym -> sym <> "" -> stockData s = Some sd ->
  page_ok s = true ->
  r_success r = true -> r_valuations r = Some v -> sharesFor sd r = Some shares ->
  r_financial_data r = Some fd ->
  recommendationOk (storedResults sd r v shares) = true ->
  let vr := storedResults sd r v shares in
  let s' := after (calculateValuation (Responded true st (Some r))) s in
  (calculateValuation (Responded true st (Some r)) s).1 = inr tt /\
  valuationResults s' = Some vr /\
  weighted_average vr = val_weighted_average v /\
  requests s' = (requests s ++ [PostValuation sym (requestData s)])%list /\
  (forall id, document s' !! id
              = editsAt (afterValuation vr sd fd) id <$> document s !! id) /\
  (forall id, ~ In id (map fst (afterValuation vr sd fd)) ->
     document s' !! id = document s !! id) /\
  shown "weighted-result" s' = Some (formatCurrency (val_weighted_average v)) /\
  shown "fcfe-result" s' = Some (formatCurrency (val_fcfe v)) /\
  shown "fcff-result" s' = Some (formatCurrency (val_fcff v)) /\
  shown "pe-result" s' = Some (formatCurrency (val_justified_pe v)) /\
  shown "pb-result" s' = Some (formatCurrency (val_justified_pb v)) /\
  disabled <$> document s' !! "export-report-btn" = Some false.
Proof.
  intros Hcs Hsym Hsd Hok Hsucc Hv Hsh Hfd Hrec vr s'.
  pose proof (calculateValuation_success_eq s sym sd st r v fd shares
                Hcs Hsym Hsd Hok Hsucc Hv Hsh Hfd Hrec) as E.
  fold vr in E. unfold s', after. rewrite E. cbn [fst snd]. fields.
  assert (Hl : forall id,
            edits (afterValuation vr sd fd) (document s) !! id
            = editsAt (afterValuation vr sd fd) id <$> document s !! id)
    by (intros id; apply lookup_edits).
  unfold shown. fields. rewrite !Hl.
  splits; [reflexivity|reflexivity|reflexivity|reflexivity|..].
  - exact Hl.
  - intros id Hn. rewrite Hl. destruct (document s !! id) as [e|]; [|reflexivity].
    cbn [fmap option_fmap option_map]. f_equal. apply editsAt_other, Hn.
  - destruct (has_ids_lookup required_ids _ "weighted-result" Hok ltac:(cbn; tauto)) as [e ->].
    subst vr. read_off.
  - destruct (has_ids_lookup required_ids _ "fcfe-result" Hok ltac:(cbn; tauto)) as [e ->].
    subst vr. read_off.
  - destruct (has_ids_lookup required_ids _ "fcff-result" Hok ltac:(cbn; tauto)) as [e ->].
    subst vr. read_off.
  - destruct (has_ids_lookup required_ids _ "pe-result" Hok ltac:(cbn; tauto)) as [e ->].
    subst vr. read_off.
  - destruct (has_ids_lookup required_ids _ "pb-result" Hok ltac:(cbn; tauto)) as [e ->].
    subst vr. read_off.
  - destruct (has_ids_lookup required_ids _ "export-report-btn" Hok ltac:(cbn; tauto)) as [e ->].
    subst vr. read_off.
Qed.

Lemma successful_valuation_is_shown_witness :
  shown "weighted-result" (after (calculateValuation (Responded true 200 (Some sampleAnswer)))
                                 loaded)
  = Some (formatCurrency (JNum 98750)).
Proof.
  refine (proj1 (proj2 (proj2 (proj2 (proj2 (proj2 (proj2
    (successful_valuation_is_shown loaded "VCB" sampleStock 200 sampleAnswer
       {| val_fcfe := JNum 100000; val_fcff := JNum 110000;
          val_justified_pe := JNum 90000; val_justified_pb := JNum 95000;
          val_weighted_average := JNum 98750 |}
       {| fd_eps := JNum 5000; fd_shares_outstanding := JNum 1000 |}
       (JNum 1000) _ _ _ _ _ _ _ _ _)))))))).
  - vm_compute. reflexivity.
  - discriminate.
  - vm_compute. reflexivity.
  - vm_compute. reflexivity.
  - reflexivity.
  - reflexivity.
  - vm_compute. reflexivity.
  - reflexivity.
  - reflexivity.
Defined.

(** X10. Whatever the answer of the engine, and whether or not anything is
    loaded, [calculateValuation] never changes the symbol, the market data,
    the historical series, the assumptions, the weights or the charts, and it
    neither adds nor removes an element of the page. *)
Theorem valuation_keeps_the_loaded_data s answer :
  let s' := after (calculateValuation answer) s in
  currentStock s' = currentStock s /\ stockData s' = stockData s /\
  historicalData s' = historicalData s /\ assumptions s' = assumptions s /\
  modelWeights s' = modelWeights s /\ charts s' = charts s /\
  sameElements (document s) (document s').
Proof.
  destruct (calculateValuation_keeps_loaded answer) as (H1 & H2 & H3 & H4 & H5 & H6).
  cbv zeta. splits; [apply H1|apply H2|apply H3|apply H4|apply H5|apply H6|].
  apply keepsElements_calculateValuation.
Qed.

(** X11. The results of a good answer ([success: true], with valuations, the
    number of shares being known) are stored before anything is shown: they
    are held when [calculateValuation] ends, also when showing them raised an
    exception, which the catch block has turned into an error banner. *)
Theorem good_answer_is_stored_before_it_is_shown s sym sd st r v shares :
  currentStock s = Some sym -> sym <> "" -> stockData s = Some sd ->
  page_ok s = true ->
  r_success r = true -> r_valuations r = Some v -> sharesFor sd r = Some shares ->
  let s' := after (calculateValuation (Responded true st (Some r))) s in
  (calculateValuation (Responded true st (Some r)) s).1 = inr tt /\
  valuationResults s' = Some (storedResults sd r v shares) /\
  requests s' = (requests s ++ [PostValuation sym (requestData s)])%list.
Proof.
  intros Hcs Hsym Hsd Hok Hsucc Hv Hsh s'.
  pose proof (calculateValuation_stores s sym sd st r v shares
                Hcs Hsym Hsd Hok Hsucc Hv Hsh) as E.
  match type of E with _ = try_catch ?b ?h ?s0 =>
    set (body := b) in *; set (handler := h) in *; set (s2 := s0) in *
  end.
  assert (Hok2 : page_ok s2 = true) by (subst s2; page_still_ok Hok).
  assert (Hv2 : valuationResults s2 = Some (storedResults sd r v shares)) by reflexivity.
  assert (Hr2 : requests s2 = (requests s ++ [PostValuation sym (requestData s)])%list)
    by reflexivity.
  clearbody s2.
  assert (Hb : keeps valuationResults body /\ keeps requests body /\ keepsElements body)
    by (subst body; splits; [keeps_field|keeps_field|keeps_elements]).
  destruct Hb as (Kv & Kr & Ke).
  unfold s', after. rewrite E. unfold try_catch.
  specialize (Kv s2). specialize (Kr s2). specialize (Ke s2). unfold after in Kv, Kr, Ke.
  destruct (body s2) as [[e|[]] s3]; cbn [fst snd] in *.
  - subst handler. cbv beta.
    rewrite showStatus_eq
      by (apply (has_ids_lookup required_ids);
          [exact (page_ok_sameElements s2 s3 Ke Hok2)|cbn; tauto]).
    cbn [fst snd]. fields. rewrite Kv, Kr. auto.
  - rewrite Kv, Kr. auto.
Qed.

Lemma good_answer_is_stored_before_it_is_shown_witness :
  requests (after (calculateValuation (Responded true 200 (Some sampleAnswer))) loaded)
  = (requests loaded ++ [PostValuation "VCB" (requestData loaded)])%list.
Proof.
  refine (proj2 (proj2
    (good_answer_is_stored_before_it_is_shown loaded "VCB" sampleStock 200 sampleAnswer
       {| val_fcfe := JNum 100000; val_fcff := JNum 110000;
          val_justified_pe := JNum 90000; val_justified_pb := JNum 95000;
          val_weighted_average := JNum 98750 |}
       (JNum 1000) _ _ _ _ _ _ _))).
  - vm_compute. reflexivity.
  - discriminate.
  - vm_compute. reflexivity.
  - vm_compute. reflexivity.
  - reflexivity.
  - reflexivity.
  - vm_compute. reflexivity.
Defined.

(** ** The weights *)

(** What both weight handlers do once the weights are set. *)
Lemma rerender_eq b d :
  has_ids required_ids d = true -> heldShowable b ->
  exists l,
    (updateWeightDisplay ;;
     updateTotalWeight ;;
     vr <- gets valuationResults ;;
     match vr with
     | Some _ => updateWeightedResults ;; updateRecommendation
     | None => ret tt
     end) (set_document d b)
    = (inr tt, set_document (edits l d) b) /\
    (forall e, editsAt l "fcfe-weight-value" e
               = with_textContent [toFixed (fcfe (modelWeights b)) 1; Lit "%"] e) /\
    (forall e, editsAt l "fcff-weight-value" e
               = with_textContent [toFixed (fcff (modelWeights b)) 1; Lit "%"] e) /\
    (forall e, editsAt l "pe-weight-value" e
               = with_textContent [toFixed (justified_pe (modelWeights b)) 1; Lit "%"] e) /\
    (forall e, editsAt l "pb-weight-value" e
               = with_textContent [toFixed (justified_pb (modelWeights b)) 1; Lit "%"] e) /\
    (forall e, editsAt l "total-weight" e = shownTotal (modelWeights b) e) /\
    (forall id e, In id ["fcfe-weight"; "fcff-weight"; "pe-weight"; "pb-weight";
                         "status-message"; "load-data-btn"; "export-report-btn"] ->
                  editsAt l id e = e).
Proof.
  intros Hok Hs. unfold heldShowable in Hs.
  destruct (valuationResults b) as [vr|] eqn:Hvr.
  - destruct Hs as [[sd Hsd] Hrec].
    eexists. split.
    + match goal with |- ?m (set_document d b) = _ =>
        eassert (H : displaysFrom b d m _)
      end.
      { displays Hok. rewrite Hvr. cbv beta iota.
        displays Hok. rewrite Hvr. displays Hok. rewrite Hsd. displays Hok.
        rewrite Hvr. displays Hok. rewrite Hsd. displays Hok.
        eapply displaysFrom_run; [intros ?; apply (chosen_recommendation vr sd _ Hrec)|].
        cbv beta iota zeta. displays Hok. }
      exact (H d (fun id => reflexivity _)).
    + splits.
      1-4: (intros e; same_outcome).
      1: (intros e; run_writes; destruct (_ <? _)%float; reflexivity).
      intros id e Hin. cbn in Hin.
      repeat (destruct Hin as [<-|Hin]; [same_outcome|]). contradiction.
  - eexists. split.
    + match goal with |- ?m (set_document d b) = _ =>
        eassert (H : displaysFrom b d m _)
      end.
      { displays Hok. rewrite Hvr. cbv beta iota.
        displays Hok. }
      exact (H d (fun id => reflexivity _)).
    + splits.
      1-4: (intros e; same_outcome).
      1: (intros e; run_writes; destruct (_ <? _)%float; reflexivity).
      intros id e Hin. cbn in Hin.
      repeat (destruct Hin as [<-|Hin]; [same_outcome|]). contradiction.
Qed.

Lemma heldShowable_weights w s : heldShowable s -> heldShowable (set_modelWeights w s).
Proof. exact id. Qed.

(** The weight listeners set the weights, then show them. *)
Lemma updateModelWeights_rerender s event :
  updateModelWeights event s
  = (updateWeightDisplay ;;
     updateTotalWeight ;;
     vr <- gets valuationResults ;;
     match vr with
     | Some _ => updateWeightedResults ;; updateRecommendation
     | None => ret tt
     end)
      (set_document (document s)
         (set_modelWeights
            (withWeight (target_id event) (target_value event) (modelWeights s)) s)).
Proof.
  unfold updateModelWeights. cbv zeta. rewrite bind_modify.
  match goal with |- _ ?s0 = _ ?s1 => assert (Hm : s0 = s1) end.
  { unfold withWeight.
    destruct (String.eqb_spec (target_id event) "fcfe-weight") as [->|n1];
      [same_state|].
    destruct (String.eqb_spec (target_id event) "fcff-weight") as [->|n2];
      [same_state|].
    destruct (String.eqb_spec (target_id event) "pe-weight") as [->|n3];
      [same_state|].
    destruct (String.eqb_spec (target_id event) "pb-weight") as [e4|n4];
      [same_state|].
    destruct s as [? ? ? ? [? ? ? ?] ? ? ? ?]. reflexivity. }
  rewrite Hm. reflexivity.
Qed.

Lemma normalizeWeights_rerender s :
  page_ok s = true ->
  normalizeWeights s
  = (updateWeightDisplay ;;
     updateTotalWeight ;;
     vr <- gets valuationResults ;;
     match vr with
     | Some _ => updateWeightedResults ;; updateRecommendation
     | None => ret tt
     end)
      (set_document
         (alter (with_value [NumToString 25]) "pb-weight"
            (alter (with_value [NumToString 25]) "pe-weight"
               (alter (with_value [NumToString 25]) "fcff-weight"
                  (alter (with_value [NumToString 25]) "fcfe-weight" (document s)))))
         (set_modelWeights (weights 25 25 25 25) s)).
Proof.
  intros Hok. unfold normalizeWeights. rewrite bind_modify.
  erewrite bind_eq by (apply setElement_eq; fields; elem Hok).
  erewrite bind_eq by (apply setElement_eq; fields; elem Hok).
  erewrite bind_eq by (apply setElement_eq; fields; elem Hok).
  erewrite bind_eq by (apply setElement_eq; fields; elem Hok).
  fields. reflexivity.
Qed.

Lemma normalizeWeights_eq s :
  page_ok s = true -> heldShowable s ->
  exists l,
    normalizeWeights s
    = (inr tt,
       set_document
         (edits l (alter (with_value [NumToString 25]) "pb-weight"
                  (alter (with_value [NumToString 25]) "pe-weight"
                  (alter (with_value [NumToString 25]) "fcff-weight"
                  (alter (with_value [NumToString 25]) "fcfe-weight" (document s))))))
         (set_modelWeights (weights 25 25 25 25) s)) /\
    (forall e, editsAt l "fcfe-weight-value" e = with_textContent [toFixed 25 1; Lit "%"] e) /\
    (forall e, editsAt l "fcff-weight-value" e = with_textContent [toFixed 25 1; Lit "%"] e) /\
    (forall e, editsAt l "pe-weight-value" e = with_textContent [toFixed 25 1; Lit "%"] e) /\
    (forall e, editsAt l "pb-weight-value" e = with_textContent [toFixed 25 1; Lit "%"] e) /\
    (forall e, editsAt l "total-weight" e = shownTotal (weights 25 25 25 25) e) /\
    (forall id e, In id ["fcfe-weight"; "fcff-weight"; "pe-weight"; "pb-weight";
                         "status-message"; "load-data-btn"; "export-report-btn"] ->
                  editsAt l id e = e).
Proof.
  intros Hok Hs.
  destruct (rerender_eq (set_modelWeights (weights 25 25 25 25) s)
              (alter (with_value [NumToString 25]) "pb-weight"
                 (alter (with_value [NumToString 25]) "pe-weight"
                    (alter (with_value [NumToString 25]) "fcff-weight"
                       (alter (with_value [NumToString 25]) "fcfe-weight" (document s))))))
    as (l & E & F).
  { refine (has_ids_sameElements _ _ _ _ Hok). intros id.
    rewrite !lookup_alter_is_Some. reflexivity. }
  { apply heldShowable_weights, Hs. }
  exists l. split; [|exact F].
  rewrite normalizeWeights_rerender by exact Hok. exact E.
Qed.




Lemma updateModelWeights_eq s event :
  page_ok s = true -> heldShowable s ->
  let w' := withWeight (target_id event) (target_value event) (modelWeights s) in
  exists l,
    updateModelWeights event s
    = (inr tt, set_document (edits l (document s)) (set_modelWeights w' s)) /\
    (forall e, editsAt l "fcfe-weight-value" e
               = with_textContent [toFixed (fcfe w') 1; Lit "%"] e) /\
    (forall e, editsAt l "fcff-weight-value" e
               = with_textContent [toFixed (fcff w') 1; Lit "%"] e) /\
    (forall e, editsAt l "pe-weight-value" e
               = with_textContent [toFixed (justified_pe w') 1; Lit "%"] e) /\
    (forall e, editsAt l "pb-weight-value" e
               = with_textContent [toFixed (justified_pb w') 1; Lit "%"] e) /\
    (forall e, editsAt l "total-weight" e = shownTotal w' e) /\
    (forall id e, In id ["fcfe-weight"; "fcff-weight"; "pe-weight"; "pb-weight";
                         "status-message"; "load-data-btn"; "export-report-btn"] ->
                  editsAt l id e = e).
Proof.
  intros Hok Hs w'.
  destruct (rerender_eq (set_modelWeights w' s) (document s) Hok
              (heldShowable_weights _ _ Hs)) as (l & E & F).
  exists l. split; [|exact F].
  rewrite updateModelWeights_rerender. exact E.
Qed.





(** ** The session *)

Lemma has_ids_incl ids ids' d :
  forallb (fun id => existsb (String.eqb id) ids) ids' = true ->
  has_ids ids d = true -> has_ids ids' d = true.
Proof.
  unfold has_ids. rewrite !forallb_forall. intros Hi H id Hin.
  apply H. specialize (Hi id Hin). apply existsb_exists in Hi.
  destruct Hi as (x & Hx & E). apply String.eqb_eq in E. subst x. exact Hx.
Qed.

Lemma complete_page_ok s : has_ids page_ids (document s) = true -> page_ok s = true.
Proof. apply has_ids_incl. vm_compute. reflexivity. Qed.

Lemma chartsOk_shownCharts h c : chartsOk c = true -> chartsOk (shownCharts h c) = true.
Proof.
  intros H. destruct (chartsOk_inv _ H) as (a & b & -> & Ha & Hb).
  unfold chartsOk, shownCharts.
  destruct h as [h|]; cbn [roeRoa liquidity fmap option_fmap option_map datasets clearChart];
    rewrite ?length_insert, ?length_map;
    apply andb_true_iff; split; apply Nat.leb_le; assumption.
Qed.

Lemma consistent_page_ok s : consistent s -> page_ok s = true.
Proof. intros (H & _). apply complete_page_ok, H. Qed.

(** A listener that leaves the symbol, the data and the charts alone, and
    the results too unless a symbol is loaded, keeps the session
    consistent. *)
Lemma consistent_kept (m : M unit) s :
  keepsElements m -> keeps currentStock m -> keeps stockData m ->
  keeps historicalData m -> keeps charts m ->
  (currentStock s = None -> valuationResults (after m s) = valuationResults s) ->
  consistent s -> consistent (after m s).
Proof.
  intros Ke Kc Ks Kh Kch Kv (Hp & Hc & Hl). unfold consistent.
  rewrite (Kc s), (Ks s), (Kh s), (Kch s). splits.
  - exact (has_ids_sameElements _ _ _ (Ke s) Hp).
  - exact Hc.
  - destruct (currentStock s); [exact Hl|]. rewrite Kv by reflexivity. exact Hl.
Qed.

Lemma loadStockData_consistent input stock chart s :
  consistent s ->
  (loadStockData input stock chart s).1 = inr tt /\
  consistent (after (loadStockData input stock chart) s).
Proof.
  intros Hc. pose proof (consistent_page_ok s Hc) as Hok.
  destruct Hc as (Hp & Hch & Hl).
  assert (Hp' : has_ids page_ids (document (after (loadStockData input stock chart) s)) = true)
    by exact (has_ids_sameElements _ _ _ (keepsElements_loadStockData _ _ _ s) Hp).
  unfold consistent. revert Hp'. unfold after.
  destruct (String.eqb_spec (toUpperCase (trim input)) "") as [Hb|Hsym].
  - rewrite (loadStockData_blank_eq s input stock chart Hb ltac:(elem Hok)).
    cbn [fst snd]. fields. auto.
  - destruct (loadError stock chart) as [e|] eqn:He.
    + destruct (loadStockData_failure_eq s input stock chart e Hsym Hok He)
        as (r & c & E & Hr & _).
      destruct (Hr Hch) as [-> ->]. rewrite E. cbn [fst snd]. unfold clearedSession. fields.
      intros Hp'. splits; auto. apply chartsOk_shownCharts, Hch.
    + destruct (loadError_None_inv _ _ He)
        as (status & sd & chart_ok & chart_status & chart_body & -> & -> & Hsd & Hbody).
      rewrite (loadStockData_success_eq s input status sd chart_ok chart_status chart_body
                 Hsym Hok Hch Hsd Hbody).
      cbn [fst snd]. fields.
      intros Hp'. splits; eauto. apply chartsOk_shownCharts, Hch.
Qed.

Lemma calculateValuation_returns answer s :
  page_ok s = true -> (calculateValuation answer s).1 = inr tt.
Proof.
  intros Hok. unfold calculateValuation. unfold bind at 1, gets at 1.
  destruct (noStock (currentStock s)).
  - rewrite showStatus_eq by (elem Hok). reflexivity.
  - match goal with |- (try_catch ?b ?h s).1 = _ => set (body := b) end.
    assert (Hok2 : page_ok (after body s) = true).
    { apply page_ok_after; [|exact Hok]. subst body. keeps_elements. }
    unfold try_catch, after in *. destruct (body s) as [[e|[]] s1]; [|reflexivity].
    cbn [snd] in Hok2. rewrite showStatus_eq by (elem Hok2). reflexivity.
Qed.

Lemma calculateValuation_consistent answer s :
  consistent s -> consistent (after (calculateValuation answer) s).
Proof.
  intros Hc. pose proof (consistent_page_ok s Hc) as Hok.
  destruct (calculateValuation_keeps_loaded answer) as (K1 & K2 & K3 & _ & _ & K6).
  apply consistent_kept; auto using keepsElements_calculateValuation.
  intros Hn. unfold after.
  rewrite calculateValuation_nostock_eq by first [rewrite Hn; reflexivity|elem Hok].
  reflexivity.
Qed.

(** [loadDefaultAssumptions()] on a page that has the form and the weight
    displays. *)
Lemma loadDefaultAssumptions_eq b d :
  has_ids page_ids d = true ->
  exists l,
    loadDefaultAssumptions (set_document d b) = (inr tt, set_document (edits l d) b) /\
    (forall e, editsAt l "revenue-growth" e
               = with_value [NumToString (revenueGrowth (assumptions b))] e) /\
    (forall e, editsAt l "terminal-growth" e
               = with_value [NumToString (terminalGrowth (assumptions b))] e) /\
    (forall e, editsAt l "wacc" e = with_value [NumToString (wacc (assumptions b))] e) /\
    (forall e, editsAt l "required-return" e
               = with_value [NumToString (requiredReturn (assumptions b))] e) /\
    (forall e, editsAt l "tax-rate" e
               = with_value [NumToString (taxRate (assumptions b))] e) /\
    (forall e, editsAt l "projection-years" e
               = with_value [NumToString (projectionYears (assumptions b))] e) /\
    (forall e, editsAt l "total-weight" e = shownTotal (modelWeights b) e).
Proof.
  intros Hok. eexists. split.
  - match goal with |- ?m (set_document d b) = _ =>
      eassert (H : displaysFrom b d m _)
    end.
    { displays Hok. }
    exact (H d (fun id => reflexivity _)).
  - splits.
    1-6: (intros e; same_outcome).
    intros e; run_writes; destruct (_ <? _)%float; reflexivity.
Qed.

Lemma resetAssumptions_eq s :
  has_ids page_ids (document s) = true ->
  exists l,
    resetAssumptions s
    = (inr tt, set_document (edits l (document s)) (set_assumptions defaultAssumptions s)) /\
    (forall e, editsAt l "revenue-growth" e = with_value [NumToString 8] e) /\
    (forall e, editsAt l "terminal-growth" e = with_value [NumToString 3] e) /\
    (forall e, editsAt l "wacc" e = with_value [NumToString 10.5] e) /\
    (forall e, editsAt l "required-return" e = with_value [NumToString 12] e) /\
    (forall e, editsAt l "tax-rate" e = with_value [NumToString 20] e) /\
    (forall e, editsAt l "projection-years" e = with_value [NumToString 5] e).
Proof.
  intros Hok.
  destruct (loadDefaultAssumptions_eq (set_assumptions defaultAssumptions s) (document s) Hok)
    as (l & E & F1 & F2 & F3 & F4 & F5 & F6 & _).
  exists l. split; [|splits; assumption].
  unfold resetAssumptions. rewrite bind_modify.
  rewrite <- E. reflexivity.
Qed.

(** [init()] on the page of index.html, or any page with its elements. *)
Lemma init_eq page :
  has_ids page_ids page = true ->
  exists l,
    init (constructed page)
    = (inr tt,
       set_charts {| roeRoa := Some {| labels := []; datasets := [[]; []] |};
                     liquidity := Some {| labels := []; datasets := [[]; []; []] |} |}
         (set_document (edits l page) (constructed page))).
Proof.
  intros Hok.
  destruct (loadDefaultAssumptions_eq (constructed page) page Hok) as (l & E & _).
  exists l. unfold init.
  erewrite bind_eq by exact E.
  assert (H1 : is_Some (edits l page !! "roe-roa-chart"))
    by (apply edits_is_Some; has_element Hok).
  assert (H2 : is_Some (edits l page !! "liquidity-chart"))
    by (apply edits_is_Some; has_element Hok).
  destruct H1 as [e1 H1], H2 as [e2 H2].
  unfold setupCharts, bind, gets, deref, modify, ret. fields.
  rewrite H1. fields. rewrite H2. reflexivity.
Qed.

Lemma init_consistent page :
  has_ids page_ids page = true ->
  (init (constructed page)).1 = inr tt /\ consistent (after init (constructed page)).
Proof.
  intros Hok. destruct (init_eq page Hok) as (l & E).
  unfold after. rewrite E. split; [reflexivity|].
  unfold consistent. cbn [snd]. fields. splits; try reflexivity.
  - apply (has_ids_sameElements _ page); [|exact Hok].
    intros id. apply edits_is_Some.
  - cbn. auto.
Qed.

(** What both weight listeners do once the weights are set, when the held
    results lack the recommendation. *)
Lemma rerender_throws b d :
  has_ids required_ids d = true -> lacksRecommendation b = true ->
  is_Some (stockData b) ->
  exists msg d',
    (updateWeightDisplay ;;
     updateTotalWeight ;;
     vr <- gets valuationResults ;;
     match vr with
     | Some _ => updateWeightedResults ;; updateRecommendation
     | None => ret tt
     end) (set_document d b)
    = (inl (TypeError msg), set_document d' b).
Proof.
  intros Hok Hl [sd Hsd]. unfold lacksRecommendation in Hl.
  destruct (valuationResults b) as [vr|] eqn:Hvr; [|discriminate].
  apply negb_true_iff in Hl.
  eassert (H1 : displaysFrom b d updateWeightDisplay _) by (displays Hok).
  eassert (H2 : displaysFrom b d updateTotalWeight _) by (displays Hok).
  eassert (H3 : displaysFrom b d updateWeightedResults _).
  { displays Hok. rewrite Hvr. displays Hok. rewrite Hsd. displays Hok. }
  assert (Hd : sameElements d d) by (intros id; reflexivity).
  rewrite (bind_eq _ _ _ _ _ (H1 d Hd)).
  erewrite bind_eq by (apply H2, sameElements_edits, Hd).
  unfold bind at 1, gets at 1. fields. rewrite Hvr.
  erewrite bind_eq by (apply H3; do 2 apply sameElements_edits; exact Hd).
  match goal with |- context [updateRecommendation ?s0] =>
    destruct (updateRecommendation_stops s0 vr sd) as (msg & E4);
      [exact Hvr|exact Hsd|exact Hl|]
  end.
  rewrite E4. eauto.
Qed.

Lemma consistent_heldShowable s :
  consistent s -> lacksRecommendation s = false -> heldShowable s.
Proof.
  intros (_ & _ & Hl) Hr. unfold heldShowable, lacksRecommendation in *.
  destruct (valuationResults s) as [vr|]; [|exact I].
  apply negb_false_iff in Hr. split; [|exact Hr].
  destruct (currentStock s); [tauto|]. destruct Hl as (_ & _ & [=]).
Qed.

Lemma consistent_held_data s :
  consistent s -> lacksRecommendation s = true -> is_Some (stockData s).
Proof.
  intros (_ & _ & Hl) Hr. unfold lacksRecommendation in Hr.
  destruct (valuationResults s) as [vr|]; [|discriminate].
  destruct (currentStock s); [tauto|]. destruct Hl as (_ & _ & [=]).
Qed.

(** The result of a listener between two events. *)
Lemma listener_result a s :
  consistent s ->
  (changesWeights a && lacksRecommendation s = false -> (listener a s).1 = inr tt) /\
  (changesWeights a && lacksRecommendation s = true ->
   exists msg, (listener a s).1 = inl (TypeError msg)).
Proof.
  intros Hc. pose proof (consistent_page_ok s Hc) as Hok.
  destruct a as [input stock chart|answer| |form|event|]; cbn [listener changesWeights andb].
  - split; [intros _|discriminate]. apply loadStockData_consistent, Hc.
  - split; [intros _|discriminate]. apply calculateValuation_returns, Hok.
  - split; [intros _|discriminate].
    destruct (resetAssumptions_eq s (proj1 Hc)) as (l & E & _). rewrite E. reflexivity.
  - split; [intros _|discriminate]. reflexivity.
  - split; intros Hr.
    + destruct (updateModelWeights_eq s event Hok (consistent_heldShowable s Hc Hr))
        as (l & E & _).
      rewrite E. reflexivity.
    + rewrite updateModelWeights_rerender.
      destruct (rerender_throws
                  (set_modelWeights
                     (withWeight (target_id event) (target_value event) (modelWeights s)) s)
                  (document s) Hok Hr (consistent_held_data s Hc Hr)) as (msg & d' & E).
      rewrite E. eauto.
  - split; intros Hr.
    + destruct (normalizeWeights_eq s Hok (consistent_heldShowable s Hc Hr)) as (l & E & _).
      rewrite E. reflexivity.
    + rewrite normalizeWeights_rerender by exact Hok.
      match goal with |- context [_ (set_document ?d ?b)] =>
        destruct (rerender_throws b d) as (msg & d' & E);
          [|exact Hr|exact (consistent_held_data s Hc Hr)|]
      end.
      { refine (has_ids_sameElements _ _ _ _ Hok). intros id.
        rewrite !lookup_alter_is_Some. reflexivity. }
      rewrite E. eauto.
Qed.

Lemma listener_consistent a s : consistent s -> consistent (after (listener a) s).
Proof.
  intros Hc.
  destruct a as [input stock chart|answer| |form|event|]; cbn [listener].
  - apply loadStockData_consistent, Hc.
  - apply calculateValuation_consistent, Hc.
  - destruct resetAssumptions_keeps as (K1 & K2 & K3 & _ & K5 & K6 & _).
    apply consistent_kept; auto using keepsElements_resetAssumptions.
  - exact Hc.
  - destruct (weight_handlers_keep (updateModelWeights event))
      as (K1 & K2 & K3 & _ & K5 & K6 & _); [eauto|].
    apply consistent_kept; auto using keepsElements_updateModelWeights.
  - destruct (weight_handlers_keep normalizeWeights)
      as (K1 & K2 & K3 & _ & K5 & K6 & _); [eauto|].
    apply consistent_kept; auto using keepsElements_normalizeWeights.
Qed.

Lemma sessionAfter_consistent l s : consistent s -> consistent (sessionAfter l s).
Proof.
  revert s. induction l as [|a l IH]; intros s Hc; [exact Hc|].
  apply (IH (after (listener a) s)), listener_consistent, Hc.
Qed.

(** X14. On a page with the elements of index.html, and with the chart
    library loaded, the constructor returns normally, and after any sequence
    of loads, valuations, resets, edits of the assumptions and weight
    changes, handled one after the other, whatever the server answered: the
    page still has its elements and the two charts their datasets; a symbol
    is held exactly when market data is held, and it is never the empty
    string; and without a symbol there are no historical series and no
    valuation results. *)
Theorem session_stays_consistent page l :
  has_ids page_ids page = true ->
  let s := sessionAfter l (after init (constructed page)) in
  (init (constructed page)).1 = inr tt /\
  has_ids page_ids (document s) = true /\
  chartsOk (charts s) = true /\
  (currentStock s = None <-> stockData s = None) /\
  currentStock s <> Some "" /\
  (currentStock s = None -> historicalData s = None /\ valuationResults s = None).
Proof.
  intros Hp s. destruct (init_consistent page Hp) as (Hr & Hc).
  pose proof (sessionAfter_consistent l _ Hc) as (H1 & H2 & H3). fold s in H1, H2, H3.
  splits; auto.
  - destruct (currentStock s).
    + destruct H3 as (_ & [sd ->]). split; discriminate.
    + tauto.
  - destruct (currentStock s); [|discriminate]. intros [= ->]. tauto.
  - intros E. rewrite E in H3. tauto.
Qed.

Lemma session_stays_consistent_witness :
  chartsOk (charts (sessionAfter (sampleSession sampleAnswer ++ [MoveSlider fcfeTo50])
                      (after init (constructed index_html)))) = true.
Proof.
  refine (proj1 (proj2 (proj2
    (session_stays_consistent index_html
       (sampleSession sampleAnswer ++ [MoveSlider fcfeTo50]) _)))).
  vm_compute. reflexivity.
Defined.

(** X15. In such a session a listener ends with an uncaught exception in
    one case only: a weight change (a slider or the normalize button) while
    the held results carry a market comparison without a recommendation,
    which raises a TypeError; every other run of a listener returns
    normally.  That case is reached by a valuation whose answer has such a
    market comparison. *)
Theorem only_weight_changes_escape page l a :
  has_ids page_ids page = true ->
  let s := sessionAfter l (after init (constructed page)) in
  (changesWeights a && lacksRecommendation s = false -> (listener a s).1 = inr tt) /\
  (changesWeights a && lacksRecommendation s = true ->
   exists msg, (listener a s).1 = inl (TypeError msg)).
Proof.
  intros Hp s. apply listener_result.
  apply sessionAfter_consistent, init_consistent, Hp.
Qed.

Lemma only_weight_changes_escape_witness :
  exists msg,
    (listener (MoveSlider fcfeTo50)
       (sessionAfter (sampleSession answerWithoutRecommendation)
          (after init (constructed index_html)))).1 = inl (TypeError msg).
Proof.
  refine (proj2 (only_weight_changes_escape index_html
                   (sampleSession answerWithoutRecommendation)
                   (MoveSlider fcfeTo50) _) _).
  - vm_compute. reflexivity.
  - vm_compute. reflexivity.
Defined.

(** ** The charts *)

Lemma map_const_insert {A B} (c : B) i (d : A) (l : list A) :
  map (fun _ => c) (<[i := d]> l) = map (fun _ => c) l.
Proof.
  revert i. induction l as [|x l IH]; intros i; [reflexivity|].
  destruct i; cbn; f_equal. apply IH.
Qed.

Lemma clearChart_shown h c :
  shownCharts None (shownCharts h c) = shownCharts None c.
Proof.
  destruct c as [[a|] [b|]], h as [h|]; unfold shownCharts, clearChart;
    cbn [roeRoa liquidity fmap option_fmap option_map datasets labels];
    rewrite ?map_const_insert, ?map_map; reflexivity.
Qed.

Lemma Forall_map_const {A B} (c : B) (l : list A) : Forall (eq c) (map (fun _ => c) l).
Proof. induction l; constructor; auto. Qed.

(** X16. On charts as [setupCharts] creates them, [updateCharts] returns
    normally and changes nothing but the charts, which keep their datasets.
    With historical data held, both charts are labelled with its years; the
    first chart shows the ROA series, then the ROE series; the second the
    current, quick and cash ratios.  Without, it is [clearCharts].  And
    [clearCharts] empties the labels and every dataset, whatever was shown
    before. *)
Theorem charts_follow_the_history s :
  chartsOk (charts s) = true ->
  let s' := after updateCharts s in
  (updateCharts s).1 = inr tt /\
  s' = set_charts (charts s') s /\
  chartsOk (charts s') = true /\
  (forall h, historicalData s = Some h ->
     exists a b, charts s' = {| roeRoa := Some a; liquidity := Some b |} /\
       labels a = years h /\ labels b = years h /\
       datasets a !! 0%nat = Some (roa_data h) /\
       datasets a !! 1%nat = Some (roe_data h) /\
       datasets b !! 0%nat = Some (current_ratio_data h) /\
       datasets b !! 1%nat = Some (quick_ratio_data h) /\
       datasets b !! 2%nat = Some (cash_ratio_data h)) /\
  (historicalData s = None -> s' = after clearCharts s) /\
  (clearCharts s').1 = inr tt /\
  after clearCharts s' = after clearCharts s /\
  (exists a b, charts (after clearCharts s) = {| roeRoa := Some a; liquidity := Some b |} /\
     labels a = [] /\ labels b = [] /\
     Forall (eq []) (datasets a) /\ Forall (eq []) (datasets b)).
Proof.
  intros Hc s'. unfold s', after.
  rewrite (updateCharts_eq s Hc). cbn [fst snd].
  pose proof (chartsOk_shownCharts (historicalData s) _ Hc) as Hc'.
  rewrite (clearCharts_eq (set_charts (shownCharts (historicalData s) (charts s)) s) Hc').
  rewrite (clearCharts_eq s Hc). cbn [fst snd]. fields.
  splits; try reflexivity.
  - exact Hc'.
  - intros h ->. destruct (chartsOk_inv _ Hc) as (a & b & -> & Ha & Hb).
    unfold shownCharts. cbn [roeRoa liquidity fmap option_fmap option_map].
    eexists _, _. split; [reflexivity|]. cbn [labels datasets].
    destruct (datasets a) as [|a0 [|a1 la]]; cbn in Ha; try lia.
    destruct (datasets b) as [|b0 [|b1 [|b2 lb]]]; cbn in Hb; try lia.
    splits; reflexivity.
  - intros ->. reflexivity.
  - rewrite clearChart_shown. same_state.
  - destruct (chartsOk_inv _ Hc) as (a & b & -> & Ha & Hb).
    unfold shownCharts. cbn [roeRoa liquidity fmap option_fmap option_map].
    eexists _, _. split; [reflexivity|]. unfold clearChart. cbn [labels datasets].
    splits; try reflexivity; apply Forall_map_const.
Qed.

Lemma charts_follow_the_history_witness :
  chartsOk (charts (after updateCharts loaded)) = true.
Proof.
  refine (proj1 (proj2 (proj2 (charts_follow_the_history loaded _)))).
  vm_compute. reflexivity.
Defined.

(** ** What a failed load leaves on the page *)





(** ** The overview *)

(** X18. [updateOverviewDisplay] returns normally whatever elements the
    page has, changes nothing but the page, and leaves the summary tab in
    agreement with the overview: symbol, name, sector, exchange, price,
    market capitalisation, P/E and P/B show the same text in both. *)
Theorem summary_agrees_with_overview data s :
  let s' := after (updateOverviewDisplay data) s in
  (updateOverviewDisplay data s).1 = inr tt /\
  s' = set_document (document s') s /\
  sameElements (document s) (document s') /\
  (forall a b,
     In (a, b) [("summary-symbol", "company-symbol"); ("summary-name", "company-name");
                ("summary-sector", "company-sector");
                ("summary-exchange", "company-exchange");
                ("summary-price", "current-price"); ("summary-market-cap", "market-cap");
                ("summary-pe", "pe-ratio"); ("summary-pb", "pb-ratio")] ->
     is_Some (document s !! a) -> is_Some (document s !! b) ->
     shown a s' = shown b s') /\
  (is_Some (document s !! "summary-price") ->
   shown "summary-price" s' = Some (formatCurrency (num_field data "current_price"))) /\
  (is_Some (document s !! "summary-market-cap") ->
   shown "summary-market-cap" s' = Some (formatLargeNumber (num_field data "market_cap"))).
Proof.
  intros s'. unfold s', after, shown. rewrite updateOverviewDisplay_eq. cbn [fst snd]. fields.
  splits; try reflexivity.
  - intros id. rewrite writeEach_edits. apply edits_is_Some.
  - intros a b Hin [ea Ha] [eb Hb]. rewrite !lookup_writeEach, Ha, Hb.
    cbn in Hin.
    repeat (destruct Hin as [[= <- <-]|Hin]; [vm_compute; reflexivity|]). destruct Hin.
  - intros [e0 He0]. rewrite lookup_writeEach, He0. reflexivity.
  - intros [e0 He0]. rewrite lookup_writeEach, He0. reflexivity.
Qed.

Lemma summary_agrees_with_overview_witness :
  shown "summary-name" (after (updateOverviewDisplay sampleStock) opened)
  = shown "company-name" (after (updateOverviewDisplay sampleStock) opened).
Proof.
  refine (proj1 (proj2 (proj2 (proj2 (summary_agrees_with_overview sampleStock opened))))
            "summary-name" "company-name" _ _ _).
  - vm_compute. tauto.
  - vm_compute. eauto.
  - vm_compute. eauto.
Defined.

(** ** The assumptions *)



(** ** Large numbers *)

Lemma SFltb_excludes_SFleb x ma ea mb eb :
  (ea < eb)%Z ->
  SFltb x (S754_finite false ma ea) = true ->
  SFleb (S754_finite false mb eb) x = false.
Proof.
  intros He. unfold SFltb, SFleb, SFcompare.
  destruct x as [s|s| |s m e]; try destruct s; try discriminate; try reflexivity.
  destruct (Z.compare_spec e ea), (Z.compare_spec eb e); try lia; try discriminate;
    reflexivity.
Qed.

Lemma negative_excludes_SFleb x mb eb :
  SFltb x (S754_zero false) = true -> SFleb (S754_finite false mb eb) x = false.
Proof.
  unfold SFltb, SFleb, SFcompare.
  destruct x as [s|s| |s m e]; try destruct s; try discriminate; reflexivity.
Qed.

Lemma number_is_shown x :
  (x =? 0)%float = false -> is_nan x = false -> missing (JNum x) = false.
Proof.
  intros H0 Hn. unfold missing, isNaN, ToBoolean, truthy_number, ToNumber.
  rewrite H0, Hn. reflexivity.
Qed.

Lemma negative_is_number x :
  (x <? 0)%float = true -> (x =? 0)%float = false /\ is_nan x = false.
Proof.
  intros H. split.
  - revert H. rewrite FloatAxioms.ltb_spec, FloatAxioms.eqb_spec.
    unfold SFltb, SFeqb. destruct (SFcompare _ _) as [[]|]; congruence.
  - apply not_true_is_false. intros Hn. apply Binary64.is_nan_spec in Hn.
    revert H. rewrite FloatAxioms.ltb_spec, Hn. discriminate.
Qed.

Lemma large_is_number c x m e :
  Prim2SF c = S754_finite false m e ->
  (c <=? x)%float = true -> (x =? 0)%float = false /\ is_nan x = false.
Proof.
  intros Hc H. rewrite FloatAxioms.leb_spec, Hc in H. split.
  - rewrite FloatAxioms.eqb_spec. revert H.
    replace (Prim2SF 0) with (S754_zero false) by reflexivity.
    unfold SFleb, SFeqb, SFcompare.
    destruct (Prim2SF x) as [s|s| |s m' e']; try destruct s; try discriminate; reflexivity.
  - apply not_true_is_false. intros Hn. apply Binary64.is_nan_spec in Hn.
    rewrite Hn in H. discriminate.
Qed.

(** X20. [formatLargeNumber] shows [--] exactly for a missing value
    (absent, null, zero or NaN).  A number from one million on is
    abbreviated with one decimal: in trillions from 1e12, in billions from
    1e9, in millions below that.  A number below one million is written out
    as currency, and so is every negative number, whatever its magnitude. *)
Theorem large_numbers_are_abbreviated (v : jsnum) :
  (formatLargeNumber v = [Lit "--"] <-> missing v = true) /\
  (forall x, v = JNum x -> (1e12 <=? x)%float = true ->
     formatLargeNumber v = [toFixed (x / 1e12) 1; Lit " trillion"]) /\
  (forall x, v = JNum x -> (1e9 <=? x)%float = true -> (x <? 1e12)%float = true ->
     formatLargeNumber v = [toFixed (x / 1e9) 1; Lit " billion"]) /\
  (forall x, v = JNum x -> (1e6 <=? x)%float = true -> (x <? 1e9)%float = true ->
     formatLargeNumber v = [toFixed (x / 1e6) 1; Lit " million"]) /\
  (forall x, v = JNum x -> (x <? 1e6)%float = true -> missing v = false ->
     formatLargeNumber v = [IntlVND x]) /\
  (forall x, v = JNum x -> (x <? 0)%float = true -> formatLargeNumber v = [IntlVND x]).
Proof.
  assert (E12 : Prim2SF 1e12 = S754_finite false 8192000000000000 (-13))
    by (vm_compute; reflexivity).
  assert (E9 : Prim2SF 1e9 = S754_finite false 8388608000000000 (-23))
    by (vm_compute; reflexivity).
  assert (E6 : Prim2SF 1e6 = S754_finite false 8589934592000000 (-33))
    by (vm_compute; reflexivity).
  unfold formatLargeNumber, formatCurrency. splits.
  - destruct (missing v); [tauto|]. split; [|discriminate].
    repeat (destruct (_ <=? _)%float; [discriminate|]). discriminate.
  - intros x -> H. destruct (large_is_number _ _ _ _ E12 H) as [H0 Hn].
    rewrite (number_is_shown x H0 Hn). cbn [ToNumber]. rewrite H. reflexivity.
  - intros x -> H Hlt. destruct (large_is_number _ _ _ _ E9 H) as [H0 Hn].
    rewrite (number_is_shown x H0 Hn). cbn [ToNumber]. rewrite H.
    replace (1e12 <=? x)%float with false; [reflexivity|].
    symmetry. rewrite FloatAxioms.leb_spec, E12.
    rewrite FloatAxioms.ltb_spec, E12 in Hlt.
    revert Hlt. unfold SFltb, SFleb.
    rewrite (Binary64.SFcompare_antisym (Prim2SF x)).
    destruct (SFcompare (Prim2SF x) _) as [[]|]; cbn; congruence.
  - intros x -> H Hlt. destruct (large_is_number _ _ _ _ E6 H) as [H0 Hn].
    rewrite (number_is_shown x H0 Hn). cbn [ToNumber]. rewrite H.
    rewrite FloatAxioms.ltb_spec, E9 in Hlt.
    replace (1e12 <=? x)%float with false
      by (symmetry; rewrite FloatAxioms.leb_spec, E12;
          eapply (SFltb_excludes_SFleb _ _ (-23)); [|exact Hlt]; lia).
    replace (1e9 <=? x)%float with false; [reflexivity|].
    symmetry. rewrite FloatAxioms.leb_spec, E9.
    revert Hlt. unfold SFltb, SFleb.
    rewrite (Binary64.SFcompare_antisym (Prim2SF x)).
    destruct (SFcompare (Prim2SF x) _) as [[]|]; cbn; congruence.
  - intros x -> Hlt Hm. rewrite Hm. cbn [ToNumber].
    rewrite FloatAxioms.ltb_spec, E6 in Hlt.
    replace (1e12 <=? x)%float with false
      by (symmetry; rewrite FloatAxioms.leb_spec, E12;
          eapply (SFltb_excludes_SFleb _ _ (-33)); [|exact Hlt]; lia).
    replace (1e9 <=? x)%float with false
      by (symmetry; rewrite FloatAxioms.leb_spec, E9;
          eapply (SFltb_excludes_SFleb _ _ (-33)); [|exact Hlt]; lia).
    replace (1e6 <=? x)%float with false; [reflexivity|].
    symmetry. rewrite FloatAxioms.leb_spec, E6.
    revert Hlt. unfold SFltb, SFleb.
    rewrite (Binary64.SFcompare_antisym (Prim2SF x)).
    destruct (SFcompare (Prim2SF x) _) as [[]|]; cbn; congruence.
  - intros x -> Hlt. destruct (negative_is_number x Hlt) as [H0 Hn].
    rewrite (number_is_shown x H0 Hn). cbn [ToNumber].
    rewrite FloatAxioms.ltb_spec in Hlt.
    replace (Prim2SF 0) with (S754_zero false) in Hlt by reflexivity.
    replace (1e12 <=? x)%float with false
      by (symmetry; rewrite FloatAxioms.leb_spec, E12;
          apply negative_excludes_SFleb, Hlt).
    replace (1e9 <=? x)%float with false
      by (symmetry; rewrite FloatAxioms.leb_spec, E9;
          apply negative_excludes_SFleb, Hlt).
    replace (1e6 <=? x)%float with false
      by (symmetry; rewrite FloatAxioms.leb_spec, E6;
          apply negative_excludes_SFleb, Hlt).
    reflexivity.
Qed.

Lemma large_numbers_are_abbreviated_witness :
  formatLargeNumber (JNum (-5e12)) = [IntlVND (-5e12)].
Proof.
  refine (proj2 (proj2 (proj2 (proj2 (proj2
    (large_numbers_are_abbreviated (JNum (-5e12)))))))
    (-5e12)%float eq_refl _).
  reflexivity.
Defined.

(** ** The theme *)

(** X21. A click on the theme button leaves the attribute and the stored
    item equal, light or dark, so that the next [setupThemeToggle] (a reload
    of the page) applies the theme the click chose.  The stored item is not
    validated when it is read: any non-empty string becomes the attribute,
    and the first click then turns it to light unless it is [light]. *)
Theorem theme_survives_a_reload (t : Theme) :
  let clicked := toggleTheme t in
  dataTheme clicked = storedTheme clicked /\
  (dataTheme clicked = Some "light" \/ dataTheme clicked = Some "dark") /\
  setupThemeToggle clicked = clicked /\
  toggleTheme (toggleTheme clicked) = clicked /\
  (forall stored, stored <> "" ->
     dataTheme (setupThemeToggle {| dataTheme := dataTheme t; storedTheme := Some stored |})
     = Some stored) /\
  (dataTheme (setupThemeToggle {| dataTheme := dataTheme t; storedTheme := None |})
   = Some "light") /\
  (dataTheme t <> Some "light" -> dataTheme clicked = Some "light") /\
  (dataTheme t = Some "light" -> dataTheme clicked = Some "dark").
Proof.
  cbv zeta. unfold toggleTheme, setupThemeToggle. cbn [dataTheme storedTheme].
  destruct (dataTheme t) as [c|].
  - destruct (String.eqb_spec c "light") as [->|Hne]; cbn; splits; auto; try congruence.
    + intros stored Hs. apply String.eqb_neq in Hs. unfold str_or_else. rewrite Hs.
      reflexivity.
    + intros stored Hs. apply String.eqb_neq in Hs. unfold str_or_else. rewrite Hs.
      reflexivity.
  - cbn; splits; auto; try congruence.
    intros stored Hs. apply String.eqb_neq in Hs. unfold str_or_else. rewrite Hs.
    reflexivity.
Qed.

